(** * Prompt templates, provider orchestration and correction extraction

    A shallow embedding of the AI service of the Penpal language-learning
    platform: the prompt template service ([PromptTemplateService]), the
    provider orchestrator ([AIProviderService]) and the heuristic
    correction extractor of the demo controller
    ([DemoController.parseGrammarCorrections]); then the validation and
    the listing of templates, the completion call of the adapter
    ([OpenAIService.generateCompletion]) and the endpoints of the two
    controllers that call the orchestrator.

    JavaScript strings are modelled as [string], the bytes of their UTF-8
    encoding: the characters that the services look for ([{], [}], [$],
    the word characters, ASCII words) are single bytes that occur in no
    other character. Optional fields are modelled as [option], thrown
    exceptions as the [Thrown] case of [Result], the template [Map] as a
    [gmap] keyed by template id, JavaScript numbers that enter arithmetic
    as IEEE-754 binary64 values ([SpecFloat]). *)

From Stdlib Require Import Strings.String Strings.Ascii QArith Qround Lia.
From Stdlib Require Floats.SpecFloat.
From stdpp Require Import base strings pretty gmap list.

Local Open Scope string_scope.
Local Open Scope list_scope.

#[local] Arguments String.append : simpl nomatch.

(** ** Outcomes

    Thrown values: [new Error(message)], a [TypeError] or a [SyntaxError]
    of the runtime, and Nest's [HttpException] with its status code. *)
Inductive Exception : Type :=
| Error (message : string)
| TypeError (message : string)
| SyntaxError (message : string)
| HttpException (message : string) (status : nat).

(** The outcome of a call: a returned value or a thrown exception. *)
Inductive Result (A : Type) : Type :=
| Returned (value : A)
| Thrown (error : Exception).
Arguments Returned {A} value.
Arguments Thrown {A} error.

(** ** JavaScript built-ins used by the services *)

(** The double quote and the line feed, as one-character strings. *)
Definition dq : string := String (ascii_of_nat 34) EmptyString.
Definition nl : string := String (ascii_of_nat 10) EmptyString.

(** A template literal that spans several lines. *)
Definition lines (ls : list string) : string := String.concat nl ls.

(** [a || b] on an optional string: [undefined] and the empty string are
    falsy. *)
Definition orElse (a : option string) (b : string) : string :=
  match a with
  | Some (String c s) => String c s
  | _ => b
  end.

(** [Array.prototype.slice(-n)]: the last [n] elements, all of them when
    the array is shorter. *)
Definition slice_last {A : Type} (n : nat) (l : list A) : list A :=
  drop (length l - n) l.

(** [Array.prototype.join(sep)] on an array of strings. *)
Definition join (sep : string) (l : list string) : string :=
  String.concat sep l.

(** The byte with a given value. *)
Definition byte (n : nat) : ascii := ascii_of_nat n.

(** [String.prototype.length]: the number of UTF-16 code units. A
    character encoded in one to three bytes is one code unit, a character
    encoded in four bytes is two; the bytes [80] to [BF] continue a
    character. *)
Definition codeUnits (c : ascii) : nat :=
  let n := nat_of_ascii c in
  if (n <? 128)%nat then 1
  else if (n <? 192)%nat then 0
  else if (n <? 240)%nat then 1
  else 2.

Fixpoint jsLength (s : string) : nat :=
  match s with
  | EmptyString => 0
  | String c s' => codeUnits c + jsLength s'
  end.

(** [String.prototype.toLowerCase], as far as ASCII letters go. The
    capitals [A] to [Z] become small letters, and so do the two other
    characters whose lower case holds an ASCII letter: the dotted capital
    I, U+0130 (bytes [C4 B0]), becomes [i] followed by U+0307 (bytes
    [CC 87]), and the Kelvin sign, U+212A (bytes [E2 84 AA]), becomes
    [k]. The other characters are kept as they are: where they have a
    lower case of their own the result differs from the runtime's, in
    characters outside ASCII only. The services search the result for
    ASCII words. *)
Definition lowerChar (c : ascii) : ascii :=
  let n := nat_of_ascii c in
  if (65 <=? n)%nat && (n <=? 90)%nat then ascii_of_nat (n + 32) else c.

Fixpoint toLowerCase (s : string) : string :=
  match s with
  | EmptyString => EmptyString
  | String c s1 =>
      let other := String (lowerChar c) (toLowerCase s1) in
      match s1 with
      | String d s2 =>
          if Ascii.eqb c (byte 196) && Ascii.eqb d (byte 176) then
            String "i" (String (byte 204) (String (byte 135) (toLowerCase s2)))
          else
            match s2 with
            | String e s3 =>
                if Ascii.eqb c (byte 226) && Ascii.eqb d (byte 132)
                   && Ascii.eqb e (byte 170)
                then String "k" (toLowerCase s3)
                else other
            | EmptyString => other
            end
      | EmptyString => other
      end
  end.

(** [String.prototype.startsWith]. *)
Fixpoint startsWith (s p : string) {struct p} : bool :=
  match p with
  | EmptyString => true
  | String a p' =>
      match s with
      | EmptyString => false
      | String b s' => Ascii.eqb a b && startsWith s' p'
      end
  end.

(** [String.prototype.includes]. *)
Fixpoint includes (s needle : string) : bool :=
  startsWith s needle ||
  match s with
  | EmptyString => false
  | String _ s' => includes s' needle
  end.

(** The first [n] bytes of a string, and the rest. *)
Fixpoint takeString (n : nat) (s : string) : string :=
  match n, s with
  | S n', String c s' => String c (takeString n' s')
  | _, _ => EmptyString
  end.

Fixpoint dropString (n : nat) (s : string) : string :=
  match n, s with
  | S n', String _ s' => dropString n' s'
  | _, _ => s
  end.

Fixpoint repeatString (c : ascii) (n : nat) : string :=
  match n with
  | O => EmptyString
  | S n' => String c (repeatString c n')
  end.

(** *** Word characters and decimal digits ([\w] and [\d]) *)

Definition isDigit (c : ascii) : bool :=
  let n := nat_of_ascii c in (48 <=? n)%nat && (n <=? 57)%nat.

Definition isWordChar (c : ascii) : bool :=
  let n := nat_of_ascii c in
  isDigit c
  || ((65 <=? n)%nat && (n <=? 90)%nat)
  || ((97 <=? n)%nat && (n <=? 122)%nat)
  || (n =? 95)%nat.

Fixpoint allChars (p : ascii -> bool) (s : string) : bool :=
  match s with
  | EmptyString => true
  | String c s' => p c && allChars p s'
  end.

Definition isWord (s : string) : bool := allChars isWordChar s.

(** The value of a run of decimal digits. *)
Fixpoint decimalValue (acc : nat) (s : string) : nat :=
  match s with
  | EmptyString => acc
  | String c s' => decimalValue (10 * acc + (nat_of_ascii c - 48)) s'
  end.

(** *** Regular expressions built from a placeholder

    [renderTemplate] builds [new RegExp(`{{${variable}}}`, "g")] from a
    declared variable name. For a name of word characters the pattern has
    one of two shapes. When the name is a non-empty run of digits [n], the
    second brace opens the quantifier [{n}], so the pattern reads: the
    character [{] repeated [n] times, then [}]. For every other name each
    character of the pattern stands for itself. Either way the pattern
    matches exactly one text and has no capture group. *)

Inductive RegExp : Type :=
| Literal (text : string)
| BraceRun (n : nat).

Definition placeholder (variable : string) : string :=
  "{{" +:+ variable +:+ "}}".

Definition isQuantifier (variable : string) : bool :=
  match variable with
  | EmptyString => false
  | String _ _ => allChars isDigit variable
  end.

Definition newRegExp (variable : string) : RegExp :=
  if isQuantifier variable then BraceRun (decimalValue 0 variable)
  else Literal (placeholder variable).

(** The one text a pattern matches. *)
Definition matchText (re : RegExp) : string :=
  match re with
  | Literal text => text
  | BraceRun n => repeatString "{" n +:+ "}"
  end.

(** A match anchored at the head of [s]: the number of bytes it
    spans. *)
Definition execAt (re : RegExp) (s : string) : option nat :=
  if startsWith s (matchText re) then Some (String.length (matchText re))
  else None.

(** [GetSubstitution] for a pattern without capture groups: in the
    replacement text [$$] stands for a dollar sign, [$&] for the matched
    text, [$`] for the part of the subject before the match and [$'] for
    the part after it; every other character stands for itself. *)
Fixpoint GetSubstitution (matched before after replacement : string) : string :=
  match replacement with
  | EmptyString => EmptyString
  | String c r =>
      if Ascii.eqb c "$" then
        match r with
        | EmptyString => String c EmptyString
        | String d r' =>
            if Ascii.eqb d "$" then String "$" (GetSubstitution matched before after r')
            else if Ascii.eqb d "&" then matched +:+ GetSubstitution matched before after r'
            else if Ascii.eqb d "`" then before +:+ GetSubstitution matched before after r'
            else if Ascii.eqb d "'" then after +:+ GetSubstitution matched before after r'
            else String c (GetSubstitution matched before after r)
        end
      else String c (GetSubstitution matched before after r)
  end.

(** [String.prototype.replace] with a global pattern and a replacement
    string: the matches are found from left to right without overlap and
    each is replaced by its substitution. [before] is the part of the
    subject already passed, [skip] the number of bytes still covered
    by the last match. *)
Fixpoint replaceFrom (re : RegExp) (replaceValue before rest : string) (skip : nat) : string :=
  match rest with
  | EmptyString => EmptyString
  | String c rest' =>
      let before' := before +:+ String c EmptyString in
      match skip with
      | S k => replaceFrom re replaceValue before' rest' k
      | O =>
          match execAt re rest with
          | Some (S k) =>
              GetSubstitution (takeString (S k) rest) before (dropString (S k) rest) replaceValue
              +:+ replaceFrom re replaceValue before' rest' k
          | _ => String c (replaceFrom re replaceValue before' rest' 0)
          end
      end
  end.

Definition replace (re : RegExp) (replaceValue subject : string) : string :=
  replaceFrom re replaceValue EmptyString subject 0.

(** *** Replacement values that are not strings

    [renderTemplate] reads the value of a variable it does not know by
    name from [additionalContext], an object: the lookup
    [additionalContext?.[variable]] also finds what every object inherits
    from [Object.prototype]. Such a member is truthy, so it reaches
    [String.prototype.replace] as it is. *)
Definition objectPrototype : list string :=
  [ "constructor"; "__defineGetter__"; "__defineSetter__"; "hasOwnProperty";
    "__lookupGetter__"; "__lookupSetter__"; "isPrototypeOf";
    "propertyIsEnumerable"; "toString"; "valueOf"; "__proto__";
    "toLocaleString" ].

Definition inherited (key : string) : bool :=
  existsb (String.eqb key) objectPrototype.

Inductive ReplaceValue : Type :=
| Text (text : string)
| Inherited (member : string).

(** A member that is a function is called for each match, as
    [member(matched, position, subject)] with [this] undefined, and what it
    returns is converted to a string: [constructor] (that is, [Object])
    wraps the matched text, [toString] answers for [undefined],
    [isPrototypeOf] answers [false] for a string, and the other functions
    throw a [TypeError] when they convert [this] to an object. *)
Definition callInherited (member matched : string) : Result string :=
  if String.eqb member "constructor" then Returned matched
  else if String.eqb member "toString" then Returned "[object Undefined]"
  else if String.eqb member "isPrototypeOf" then Returned "false"
  else if String.eqb member "toLocaleString" then
    Thrown (TypeError "Object.prototype.toLocaleString called on null or undefined")
  else Thrown (TypeError "Cannot convert undefined or null to object").

(** [String.prototype.replace] with a global pattern and a replacer
    function: the text a match is replaced by is inserted as it is. *)
Fixpoint replaceCall (re : RegExp) (replacer : string -> Result string)
    (rest : string) (skip : nat) : Result string :=
  match rest with
  | EmptyString => Returned EmptyString
  | String c rest' =>
      match skip with
      | S k => replaceCall re replacer rest' k
      | O =>
          match execAt re rest with
          | Some (S k) =>
              match replacer (takeString (S k) rest) with
              | Returned text =>
                  match replaceCall re replacer rest' k with
                  | Returned tail => Returned (text +:+ tail)
                  | Thrown e => Thrown e
                  end
              | Thrown e => Thrown e
              end
          | _ =>
              match replaceCall re replacer rest' 0 with
              | Returned tail => Returned (String c tail)
              | Thrown e => Thrown e
              end
          end
      end
  end.

(** [subject.replace(re, value)]: a string is the replacement text; the
    member [__proto__] is an object that is no function, so its string
    form is the replacement text; the other members are replacer
    functions. *)
Definition replaceWith (re : RegExp) (value : ReplaceValue) (subject : string)
    : Result string :=
  match value with
  | Text text => Returned (replace re text subject)
  | Inherited member =>
      if String.eqb member "__proto__" then
        Returned (replace re "[object Object]" subject)
      else replaceCall re (callInherited member) subject 0
  end.

(** ** Data model ([ai-provider.interface.ts]) *)

Module Role.
Inductive t : Type := system | user | assistant.
End Role.

Record AIMessage : Type := {
  role : Role.t;
  content : string;
  timestamp : option Z
}.

(** JavaScript numbers that the services only store and forward
    (sampling temperatures). *)
Definition number : Type := Q.

Module Options.
(** [AICompletionOptions & { provider?: AIProvider }] *)
Record t : Type := {
  temperature : option number;
  maxTokens : option Z;
  model : option string;
  conversationId : option string;
  userId : option string;
  provider : option string
}.
End Options.

Module Usage.
Record t : Type := {
  promptTokens : Z;
  completionTokens : Z;
  totalTokens : Z
}.
End Usage.

Module Response.
(** [AICompletionResponse] *)
Record t : Type := {
  content : string;
  usage : option Usage.t;
  model : string;
  finishReason : option string
}.
End Response.

Module Category.
Inductive t : Type := conversation | correction | analysis | system.
End Category.

Module PromptTemplate.
Record t : Type := {
  id : string;
  name : string;
  description : string;
  template : string;
  variables : list string;
  category : Category.t;
  language : option string;
  level : option string
}.
End PromptTemplate.

Module PromptContext.
(** [additionalContext] is an object whose own properties are strings, as
    in every context that the services build. *)
Record t : Type := {
  userId : option string;
  conversationId : option string;
  language : option string;
  level : option string;
  userMessage : option string;
  conversationHistory : option (list AIMessage);
  additionalContext : option (gmap string string)
}.
End PromptContext.

Definition BAD_REQUEST : nat := 400.
Definition INTERNAL_SERVER_ERROR : nat := 500.

(** ** PromptTemplateService *)

Import Category.

Definition conversation_tutor_template : string :=
  lines [
    "You are a friendly and encouraging {{language}} language tutor. Your student is at a {{level}} level and wants to practice conversation skills.";
    EmptyString;
    "LEVEL-SPECIFIC GUIDELINES:";
    EmptyString;
    "FOR BEGINNER LEVEL:";
    "- Use VERY simple words and short sentences (5-7 words max)";
    "- Speak like you're talking to someone who has NEVER studied {{language}} before";
    "- Use present tense mainly (I am, you are, this is...)";
    "- Include basic vocabulary explanations when needed";
    "- Add simple translations or explanations in parentheses occasionally";
    "- Ask ONE simple question at a time";
    "- Repeat important words";
    "- Example: " +:+ dq +:+ "Hello! I am good. How are you? (How = comment)" +:+ dq +:+ " instead of complex sentences";
    EmptyString;
    "FOR INTERMEDIATE LEVEL:";
    "- Use everyday vocabulary and moderate sentence length";
    "- Mix present and past tenses";
    "- Provide gentle corrections with explanations";
    "- Ask follow-up questions to encourage speaking";
    EmptyString;
    "FOR ADVANCED LEVEL:";
    "- Use natural, flowing language";
    "- Include idioms and complex grammar";
    "- Focus on nuance and cultural context";
    "- Challenge with sophisticated topics";
    EmptyString;
    "Previous conversation context:";
    "{{conversationHistory}}";
    EmptyString;
    "Student's message: " +:+ dq +:+ "{{userMessage}}" +:+ dq;
    EmptyString;
    "Respond as a helpful tutor, adapting your language complexity to the {{level}} level. For beginners, be extra simple and clear."
  ].

Definition conversation_friend_template : string :=
  lines [
    "You are a friendly conversation partner helping someone practice {{language}}. Act like a native speaker friend who is patient and helpful.";
    EmptyString;
    "ADAPT YOUR LANGUAGE TO THE {{level}} LEVEL:";
    EmptyString;
    "FOR BEGINNER LEVEL:";
    "- Use SUPER simple words only (yes, no, good, bad, I, you, like, want...)";
    "- Keep sentences very short (3-5 words)";
    "- Speak like talking to someone learning their first {{language}} words";
    "- Repeat key words: " +:+ dq +:+ "Good! That is good!" +:+ dq;
    "- Use basic present tense only";
    "- Be very encouraging and patient";
    "- Example: " +:+ dq +:+ "Hi! I am fine. You good?" +:+ dq +:+ " instead of " +:+ dq +:+ "Hey! I'm doing great, how about you?" +:+ dq;
    EmptyString;
    "FOR INTERMEDIATE LEVEL:";
    "- Use casual, everyday language";
    "- Mix tenses naturally but keep it simple";
    "- Show genuine interest in their topics";
    "- Be encouraging and friendly";
    EmptyString;
    "FOR ADVANCED LEVEL:";
    "- Use natural, native-level conversation";
    "- Include slang and expressions";
    "- Challenge them with interesting topics";
    "- Be more spontaneous and creative";
    EmptyString;
    "Context: {{conversationHistory}}";
    EmptyString;
    "Their message: " +:+ dq +:+ "{{userMessage}}" +:+ dq;
    EmptyString;
    "Respond as a friendly conversation partner, matching the {{level}} complexity. For beginners, be extremely simple and clear."
  ].

Definition grammar_correction_template : string :=
  lines [
    "Analyze the following {{language}} text for important grammatical and vocabulary errors. Focus on meaningful issues that affect comprehension and language learning.";
    EmptyString;
    "Text: " +:+ dq +:+ "{{text}}" +:+ dq;
    "Level: {{level}}";
    EmptyString;
    "IMPORTANT GUIDELINES:";
    "- IGNORE capitalization errors (e.g., " +:+ dq +:+ "hi" +:+ dq +:+ " vs " +:+ dq +:+ "Hi" +:+ dq +:+ ")";
    "- IGNORE punctuation spacing (e.g., spaces before question marks)";
    "- IGNORE minor punctuation issues unless they severely affect meaning";
    "- FOCUS ON: verb tenses, subject-verb agreement, word order, vocabulary usage, prepositions, articles (a/an/the)";
    "- FOCUS ON: sentence structure and meaningful grammatical mistakes";
    EmptyString;
    "EXPLANATION STYLE BASED ON LEVEL:";
    EmptyString;
    "FOR BEGINNER LEVEL:";
    "- Use VERY simple explanations";
    "- Explain basic grammar rules in simple terms";
    "- Use examples with basic vocabulary";
    "- Be extra encouraging (" +:+ dq +:+ "Good try!" +:+ dq +:+ " " +:+ dq +:+ "Almost there!" +:+ dq +:+ ")";
    "- Focus on 1-2 main errors only";
    "- Example: " +:+ dq +:+ "Use 'I am' not 'I is'. We always say 'I am happy'." +:+ dq;
    EmptyString;
    "FOR INTERMEDIATE/ADVANCED LEVELS:";
    "- Provide detailed grammatical explanations";
    "- Include multiple examples and rules";
    "- Challenge with more complex corrections";
    EmptyString;
    "Please provide:";
    "1. **Corrected Version**: The text with ONLY major grammatical/vocabulary errors fixed";
    "2. **Error Analysis**: List each SIGNIFICANT error with explanation adapted to {{level}} level";
    "3. **Grammar Rules**: Simple rules for beginners, detailed for others";
    "4. **Learning Tips**: Level-appropriate suggestions";
    EmptyString;
    "Focus on errors that truly impact language learning and communication effectiveness."
  ].

Definition style_improvement_template : string :=
  lines [
    "Analyze and improve the writing style of this {{language}} text:";
    EmptyString;
    "Text: " +:+ dq +:+ "{{text}}" +:+ dq;
    EmptyString;
    "Please provide:";
    "1. **Style Assessment**: Evaluate formality, clarity, and flow";
    "2. **Improved Version**: Rewrite with better style";
    "3. **Specific Changes**: Explain each improvement made";
    "4. **Style Tips**: General advice for better writing";
    EmptyString;
    "Consider the {{level}} level of the learner and provide appropriate suggestions."
  ].

Definition vocabulary_analysis_template : string :=
  lines [
    "Analyze the vocabulary usage in this {{language}} text and suggest improvements:";
    EmptyString;
    "Text: " +:+ dq +:+ "{{text}}" +:+ dq;
    EmptyString;
    "For a {{level}} level learner, please provide:";
    "1. **Vocabulary Assessment**: Current level and appropriateness";
    "2. **Enhanced Version**: Text with improved vocabulary";
    "3. **Word Explanations**: Meaning and usage of new words suggested";
    "4. **Vocabulary Building Tips**: How to expand vocabulary at this level";
    EmptyString;
    "Focus on making the vocabulary more sophisticated while remaining appropriate for the learner's level."
  ].

Definition conversation_starter_template : string :=
  lines [
    "Generate engaging conversation starters for a {{level}} level {{language}} learner.";
    EmptyString;
    "Topic interests: {{topics}}";
    EmptyString;
    "Create 5 conversation starters that are:";
    "- Appropriate for {{level}} level";
    "- Engaging and interesting";
    "- Encourage extended dialogue";
    "- Cover different conversation skills (asking questions, expressing opinions, describing experiences)";
    EmptyString;
    "Format each starter with a brief explanation of what conversation skills it practices."
  ].

Definition conversation_tutor : PromptTemplate.t :=
  {| PromptTemplate.id := "conversation_tutor";
     PromptTemplate.name := "Language Tutor";
     PromptTemplate.description := "AI tutor for language learning conversations";
     PromptTemplate.template := conversation_tutor_template;
     PromptTemplate.variables := ["language"; "level"; "conversationHistory"; "userMessage"];
     PromptTemplate.category := conversation;
     PromptTemplate.language := None;
     PromptTemplate.level := None |}.

Definition conversation_friend : PromptTemplate.t :=
  {| PromptTemplate.id := "conversation_friend";
     PromptTemplate.name := "Conversation Partner";
     PromptTemplate.description := "AI conversation partner for casual practice";
     PromptTemplate.template := conversation_friend_template;
     PromptTemplate.variables := ["language"; "level"; "conversationHistory"; "userMessage"];
     PromptTemplate.category := conversation;
     PromptTemplate.language := None;
     PromptTemplate.level := None |}.

Definition grammar_correction : PromptTemplate.t :=
  {| PromptTemplate.id := "grammar_correction";
     PromptTemplate.name := "Grammar Correction";
     PromptTemplate.description := "Detailed grammar analysis and correction";
     PromptTemplate.template := grammar_correction_template;
     PromptTemplate.variables := ["language"; "text"; "level"];
     PromptTemplate.category := correction;
     PromptTemplate.language := None;
     PromptTemplate.level := None |}.

Definition style_improvement : PromptTemplate.t :=
  {| PromptTemplate.id := "style_improvement";
     PromptTemplate.name := "Style Improvement";
     PromptTemplate.description := "Writing style analysis and suggestions";
     PromptTemplate.template := style_improvement_template;
     PromptTemplate.variables := ["language"; "text"; "level"];
     PromptTemplate.category := correction;
     PromptTemplate.language := None;
     PromptTemplate.level := None |}.

Definition vocabulary_analysis : PromptTemplate.t :=
  {| PromptTemplate.id := "vocabulary_analysis";
     PromptTemplate.name := "Vocabulary Analysis";
     PromptTemplate.description := "Vocabulary usage analysis and enhancement";
     PromptTemplate.template := vocabulary_analysis_template;
     PromptTemplate.variables := ["language"; "text"; "level"];
     PromptTemplate.category := analysis;
     PromptTemplate.language := None;
     PromptTemplate.level := None |}.

Definition conversation_starter : PromptTemplate.t :=
  {| PromptTemplate.id := "conversation_starter";
     PromptTemplate.name := "Conversation Starter";
     PromptTemplate.description := "Generate conversation starters for practice";
     PromptTemplate.template := conversation_starter_template;
     PromptTemplate.variables := ["level"; "language"; "topics"];
     PromptTemplate.category := system;
     PromptTemplate.language := None;
     PromptTemplate.level := None |}.

(** [initializeDefaultTemplates]: the built-in templates, in the order of
    the source array. *)
Definition defaultTemplates : list PromptTemplate.t :=
  [ conversation_tutor; conversation_friend; grammar_correction;
    style_improvement; vocabulary_analysis; conversation_starter ].

(** [addTemplate]: [this.templates.set(template.id, template)]. *)
Definition addTemplate (templates : gmap string PromptTemplate.t)
    (template : PromptTemplate.t) : gmap string PromptTemplate.t :=
  <[PromptTemplate.id template := template]> templates.

(** The store after the constructor has run. *)
Definition initializeDefaultTemplates : gmap string PromptTemplate.t :=
  foldl addTemplate ∅ defaultTemplates.

Definition getTemplate (templates : gmap string PromptTemplate.t)
    (id : string) : option PromptTemplate.t :=
  templates !! id.

(** One line of the transcript. *)
Definition formatMessage (msg : AIMessage) : string :=
  (match role msg with Role.user => "Student" | _ => "Tutor" end)
  +:+ ": " +:+ content msg.

Definition formatConversationHistory (messages : list AIMessage) : string :=
  match messages with
  | [] => "No previous conversation."
  | _ => join nl (map formatMessage (slice_last 5 messages))
  end.

(** [context.additionalContext?.[key]]: an own property of the object,
    else a member inherited from [Object.prototype], else [undefined]. *)
Definition additional (context : PromptContext.t) (key : string)
    : option ReplaceValue :=
  match PromptContext.additionalContext context with
  | Some extra =>
      match extra !! key with
      | Some text => Some (Text text)
      | None => if inherited key then Some (Inherited key) else None
      end
  | None => None
  end.

(** [value || text]: [undefined] and the empty string are falsy, an
    inherited member is truthy. *)
Definition valueOr (value : option ReplaceValue) (text : string) : ReplaceValue :=
  match value with
  | Some (Text (String c s)) => Text (String c s)
  | Some (Inherited member) => Inherited member
  | _ => Text text
  end.

(** The [switch (variable)] of [renderTemplate]: the value substituted for
    a declared variable. *)
Definition variableValue (context : PromptContext.t) (variable : string)
    : ReplaceValue :=
  if String.eqb variable "language" then
    Text (orElse (PromptContext.language context) "English")
  else if String.eqb variable "level" then
    Text (orElse (PromptContext.level context) "intermediate")
  else if String.eqb variable "userMessage" then
    Text (orElse (PromptContext.userMessage context) EmptyString)
  else if String.eqb variable "conversationHistory" then
    Text (formatConversationHistory
            (match PromptContext.conversationHistory context with
             | Some messages => messages
             | None => []
             end))
  else if String.eqb variable "text" then
    Text (orElse (PromptContext.userMessage context) EmptyString)
  else if String.eqb variable "topics" then
    valueOr (additional context "topics") "general conversation"
  else
    valueOr (additional context variable) EmptyString.

Section PromptTemplateService.
(** [text.replace(new RegExp(source, "g"), value)] for a source that is
    not the placeholder of a name of word characters: the constructor may
    reject the source with a [SyntaxError], and a source it accepts may
    match more than one text. The regular-expression engine of the
    runtime is a parameter of the model there. *)
Variable regExpReplace : string -> ReplaceValue -> string -> Result string.

(** One pass of the [forEach] body over the text rendered so far. *)
Definition substitute (context : PromptContext.t) (renderedTemplate : string)
    (variable : string) : Result string :=
  let value := variableValue context variable in
  if isWord variable then replaceWith (newRegExp variable) value renderedTemplate
  else regExpReplace (placeholder variable) value renderedTemplate.

(** The [forEach] over the declared variables: each pass works on the
    text left by the pass before it, and an exception ends the loop. *)
Fixpoint renderFrom (context : PromptContext.t) (renderedTemplate : string)
    (variables : list string) : Result string :=
  match variables with
  | [] => Returned renderedTemplate
  | variable :: rest =>
      match substitute context renderedTemplate variable with
      | Returned text => renderFrom context text rest
      | Thrown e => Thrown e
      end
  end.

Definition render (template : PromptTemplate.t) (context : PromptContext.t)
    : Result string :=
  renderFrom context (PromptTemplate.template template)
    (PromptTemplate.variables template).

Definition renderTemplate (templates : gmap string PromptTemplate.t)
    (templateId : string) (context : PromptContext.t) : Result string :=
  match getTemplate templates templateId with
  | None => Thrown (Error ("Template not found: " +:+ templateId))
  | Some template => render template context
  end.
End PromptTemplateService.


(** ** AIProviderService

    The orchestrator calls two injected collaborators: the template
    service above and [OpenAIService.generateCompletion], the provider
    adapter. The adapter performs the network call; it is a parameter of
    the model, and every call made to it is recorded with its arguments. *)

Module AIProvider.
Definition OPENAI : string := "openai".
Definition ANTHROPIC : string := "anthropic".
End AIProvider.

Record AdapterCall : Type := {
  sentMessages : list AIMessage;
  sentOptions : option Options.t
}.

(** An asynchronous operation of the service: it returns or throws, and
    extends the record of adapter calls. *)
Definition Async (A : Type) : Type :=
  list AdapterCall -> Result A * list AdapterCall.

Definition ret {A : Type} (a : A) : Async A := fun calls => (Returned a, calls).

Definition throw {A : Type} (e : Exception) : Async A := fun calls => (Thrown e, calls).

Definition bind {A B : Type} (m : Async A) (k : A -> Async B) : Async B :=
  fun calls =>
    match m calls with
    | (Returned a, calls') => k a calls'
    | (Thrown e, calls') => (Thrown e, calls')
    end.

(** [try { body } catch (error) { handler }] *)
Definition tryCatch {A : Type} (body : Async A) (handler : Exception -> Async A) : Async A :=
  fun calls =>
    match body calls with
    | (Returned a, calls') => (Returned a, calls')
    | (Thrown e, calls') => handler e calls'
    end.

(** A synchronous call that may throw. *)
Definition lift {A : Type} (r : Result A) : Async A := fun calls => (r, calls).

Notation "x <- m ;; k" := (bind m (fun x => k))
  (at level 100, m at next level, right associativity).

(** [error instanceof HttpException] *)
Definition isHttpException (e : Exception) : bool :=
  match e with
  | HttpException _ _ => true
  | _ => false
  end.

(** [{ ...options, temperature: t }] *)
Definition withTemperature (options : option Options.t) (t : number) : Options.t :=
  match options with
  | Some o =>
      {| Options.temperature := Some t;
         Options.maxTokens := Options.maxTokens o;
         Options.model := Options.model o;
         Options.conversationId := Options.conversationId o;
         Options.userId := Options.userId o;
         Options.provider := Options.provider o |}
  | None =>
      {| Options.temperature := Some t;
         Options.maxTokens := None;
         Options.model := None;
         Options.conversationId := None;
         Options.userId := None;
         Options.provider := None |}
  end.

Definition systemMessage (text : string) : AIMessage :=
  {| role := Role.system; content := text; timestamp := None |}.

Definition userMessage (text : string) : AIMessage :=
  {| role := Role.user; content := text; timestamp := None |}.

Module ConversationContext.
Record t : Type := {
  language : option string;
  level : option string;
  userId : option string;
  conversationId : option string
}.
End ConversationContext.

Module AnalysisContext.
Record t : Type := {
  language : option string;
  level : option string
}.
End AnalysisContext.

Module StarterContext.
Record t : Type := {
  language : option string;
  level : option string;
  topics : option string
}.
End StarterContext.

Module AnalysisType.
Inductive t : Type := grammar | style | vocabulary.
End AnalysisType.

(** The [PromptContext] built by the tutor and conversation-partner
    operations. *)
Definition conversationPromptContext (message : string)
    (conversationHistory : list AIMessage) (context : ConversationContext.t)
    : PromptContext.t :=
  {| PromptContext.userMessage := Some message;
     PromptContext.conversationHistory := Some conversationHistory;
     PromptContext.language :=
       Some (orElse (ConversationContext.language context) "English");
     PromptContext.level :=
       Some (orElse (ConversationContext.level context) "intermediate");
     PromptContext.userId := ConversationContext.userId context;
     PromptContext.conversationId := ConversationContext.conversationId context;
     PromptContext.additionalContext := None |}.

Definition analysisPromptContext (text : string) (context : AnalysisContext.t)
    : PromptContext.t :=
  {| PromptContext.userMessage := Some text;
     PromptContext.language :=
       Some (orElse (AnalysisContext.language context) "English");
     PromptContext.level :=
       Some (orElse (AnalysisContext.level context) "intermediate");
     PromptContext.additionalContext :=
       Some (<["level" := orElse (AnalysisContext.level context) "intermediate"]>
               (<["text" := text]> ∅));
     PromptContext.conversationHistory := None;
     PromptContext.userId := None;
     PromptContext.conversationId := None |}.

Definition starterPromptContext (context : StarterContext.t) : PromptContext.t :=
  {| PromptContext.language :=
       Some (orElse (StarterContext.language context) "English");
     PromptContext.level :=
       Some (orElse (StarterContext.level context) "intermediate");
     PromptContext.additionalContext :=
       Some (<["topics" := orElse (StarterContext.topics context)
                             "general conversation, daily life, hobbies, travel"]> ∅);
     PromptContext.userMessage := None;
     PromptContext.conversationHistory := None;
     PromptContext.userId := None;
     PromptContext.conversationId := None |}.

Definition analysisTemplateId (analysisType : AnalysisType.t) : string :=
  match analysisType with
  | AnalysisType.grammar => "grammar_correction"
  | AnalysisType.style => "style_improvement"
  | AnalysisType.vocabulary => "vocabulary_analysis"
  end.

Definition connectionTestOptions (targetProvider : string) : Options.t :=
  {| Options.provider := Some targetProvider;
     Options.maxTokens := Some 10%Z;
     Options.temperature := Some 0%Q;
     Options.model := None;
     Options.conversationId := None;
     Options.userId := None |}.

Section AIProviderService.
(** The regular-expression engine behind the template service. *)
Variable regExpReplace : string -> ReplaceValue -> string -> Result string.
(** [this.openaiService.generateCompletion] *)
Variable openaiService : list AIMessage -> option Options.t -> Result Response.t.
(** The template store behind [this.promptTemplateService]. *)
Variable templates : gmap string PromptTemplate.t.
(** [this.defaultProvider], read from the configuration. *)
Variable defaultProvider : string.

Definition generateCompletion (messages : list AIMessage)
      (options : option Options.t) : Async Response.t :=
    fun calls =>
      (openaiService messages options,
       calls ++ [{| sentMessages := messages; sentOptions := options |}]).

(** [options?.provider || this.defaultProvider] *)
Definition selectProvider (options : option Options.t) : string :=
    orElse (match options with Some o => Options.provider o | None => None end)
      defaultProvider.

Definition generateChatResponse (messages : list AIMessage)
      (options : option Options.t) : Async Response.t :=
    tryCatch
      (let provider := selectProvider options in
       if String.eqb provider AIProvider.OPENAI then
         generateCompletion messages options
       else
         throw (HttpException ("Unsupported AI provider: " +:+ provider) BAD_REQUEST))
      (fun error =>
         if isHttpException error then throw error
         else throw (HttpException "Failed to generate AI response" INTERNAL_SERVER_ERROR)).

Definition generateTutorResponse (message : string)
      (conversationHistory : list AIMessage) (context : ConversationContext.t)
      (options : option Options.t) : Async Response.t :=
    tryCatch
      (let promptContext := conversationPromptContext message conversationHistory context in
       systemPrompt <- lift (renderTemplate regExpReplace templates "conversation_tutor" promptContext) ;;
       let messages :=
         [systemMessage systemPrompt] ++ slice_last 10 conversationHistory
           ++ [userMessage message] in
       generateChatResponse messages options)
      (fun error => throw error).

Definition generateConversationPartnerResponse (message : string)
      (conversationHistory : list AIMessage) (context : ConversationContext.t)
      (options : option Options.t) : Async Response.t :=
    tryCatch
      (let promptContext := conversationPromptContext message conversationHistory context in
       systemPrompt <- lift (renderTemplate regExpReplace templates "conversation_friend" promptContext) ;;
       let messages :=
         [systemMessage systemPrompt] ++ slice_last 8 conversationHistory
           ++ [userMessage message] in
       generateChatResponse messages (Some (withTemperature options 0.8%Q)))
      (fun error => throw error).

Definition analyzeText (text : string) (analysisType : AnalysisType.t)
      (context : AnalysisContext.t) (options : option Options.t) : Async Response.t :=
    tryCatch
      (let provider := selectProvider options in
       let promptContext := analysisPromptContext text context in
       let templateId := analysisTemplateId analysisType in
       analysisPrompt <- lift (renderTemplate regExpReplace templates templateId promptContext) ;;
       let messages := [userMessage analysisPrompt] in
       if String.eqb provider AIProvider.OPENAI then
         generateCompletion messages (Some (withTemperature options 0.3%Q))
       else
         throw (HttpException ("Unsupported AI provider: " +:+ provider) BAD_REQUEST))
      (fun error =>
         if isHttpException error then throw error
         else throw (HttpException "Failed to analyze text" INTERNAL_SERVER_ERROR)).

Definition generateConversationStarters (context : StarterContext.t)
      (options : option Options.t) : Async Response.t :=
    tryCatch
      (let promptContext := starterPromptContext context in
       prompt <- lift (renderTemplate regExpReplace templates "conversation_starter" promptContext) ;;
       let messages := [userMessage prompt] in
       generateChatResponse messages (Some (withTemperature options 0.8%Q)))
      (fun error => throw error).

Definition validateProviderConnection (provider : option string) : Async bool :=
    tryCatch
      (let targetProvider := orElse provider defaultProvider in
       let testMessages := [userMessage "Hello, this is a connection test."] in
       _ <- generateChatResponse testMessages (Some (connectionTestOptions targetProvider)) ;;
       ret true)
      (fun _ => ret false).
End AIProviderService.

(** ** OpenAIService: the cost of a completion

    [calculateCost] computes in JavaScript numbers, IEEE-754 binary64
    values: two divisions, two multiplications, an addition, each rounded
    to the nearest value, then [Number(x.toFixed(6))]. *)

Module Double.
Import SpecFloat.

Definition t : Type := spec_float.
Definition prec : Z := 53.
Definition emax : Z := 1024.

Definition NaN : t := S754_nan.

(** The number nearest to an integer; integers below [2 ^ 53] are
    numbers themselves. *)
Definition ofInteger (n : Z) : t := binary_normalize prec emax n 0 false.

(** The number nearest to the fraction [n / d], ties to the even
    mantissa: the value of a decimal literal, and of the decimal text
    that [Number] reads. *)
Definition nearest (negative : bool) (n d : positive) : t :=
  let '(q, e, l) := SFdiv_core_binary prec emax (Zpos n) 0 (Zpos d) 0 in
  binary_round_aux prec emax negative q e l.

Definition literal (q : Q) : t :=
  match Qnum q with
  | Z0 => S754_zero false
  | Zpos n => nearest false n (Qden q)
  | Zneg n => nearest true n (Qden q)
  end.

Definition divide : t -> t -> t := SFdiv prec emax.
Definition multiply : t -> t -> t := SFmul prec emax.
Definition add : t -> t -> t := SFadd prec emax.

(** [Number(x.toFixed(6))]. For a finite [x] below [10 ^ 21] in size,
    [toFixed] writes the integer [n] for which [n / 10 ^ 6] is nearest to
    the exact value of [x], the larger one of two, with six digits after
    the point, and [Number] reads that text back as the nearest number.
    From [10 ^ 21] on, and for the infinities and NaN, [toFixed] writes the
    number as [String(x)] does and [Number] reads the same number back. *)
Definition toFixed6 (x : t) : t :=
  match x with
  | S754_nan => S754_nan
  | S754_infinity s => S754_infinity s
  | S754_zero _ => S754_zero false
  | S754_finite s m e =>
      let scaled := (Zpos m * 10 ^ 6)%Z in
      let n :=
        match e with
        | Zneg k => Z.shiftr (scaled + 2 ^ (Zpos k - 1)) (Zpos k)
        | _ => Z.shiftl scaled e
        end in
      if (10 ^ 27 <=? n)%Z then x
      else
        match n with
        | Zpos p => nearest s p (10 ^ 6)
        | _ => S754_zero s
        end
  end.
End Double.

(** [this.pricing]: dollars per million tokens, input and output, as the
    decimal literals of the source. *)
Definition pricing : gmap string (Q * Q) :=
  list_to_map
    [ ("gpt-4o-mini", (0.15%Q, 0.6%Q));
      ("gpt-4o", (2.5%Q, 10.0%Q));
      ("gpt-4", (30.0%Q, 60.0%Q));
      ("gpt-3.5-turbo", (0.5%Q, 1.5%Q)) ].

(** [this.pricing[model]], with [.input] and [.output] as numbers: an
    entry of the object literal; else a member that the object inherits
    from [Object.prototype], which is truthy and has neither property, so
    both read [undefined], in arithmetic NaN; else [undefined]. *)
Definition modelPricing (model : string) : option (Double.t * Double.t) :=
  match pricing !! model with
  | Some (input, output) => Some (Double.literal input, Double.literal output)
  | None => if inherited model then Some (Double.NaN, Double.NaN) else None
  end.

(** A token count arrives as the number nearest to it. *)
Definition calculateCost (model : string) (promptTokens completionTokens : N)
    : Double.t :=
  match modelPricing model with
  | None => Double.ofInteger 0
  | Some (input, output) =>
      let promptCost :=
        Double.multiply
          (Double.divide (Double.ofInteger (Z.of_N promptTokens))
             (Double.ofInteger 1000000))
          input in
      let completionCost :=
        Double.multiply
          (Double.divide (Double.ofInteger (Z.of_N completionTokens))
             (Double.ofInteger 1000000))
          output in
      Double.toFixed6 (Double.add promptCost completionCost)
  end.

(** ** DemoController: the heuristic correction extractor

    The extractor works with regular-expression literals. The matcher of
    the runtime is a parameter of the model ([exec], the built-in
    [RegExpBuiltinExec]: the leftmost match that starts at or after
    [lastIndex], if any); the string methods built on it follow the
    language specification. *)

Module RegExpLiteral.
Record t : Type := {
  source : string;
  flags : string
}.
End RegExpLiteral.

(** A match: where it starts, counted in the bytes of [string], the
    matched text ([match[0]]) and the capture groups ([match[1]], ...),
    [None] for a group that took no part. The patterns of
    [simpleCorrections] have no capture group, so [GetSubstitution] above
    applies to them. *)
Record MatchResult : Type := {
  matchIndex : nat;
  matched : string;
  captures : list (option string)
}.

(** White space and line terminators, in UTF-8. One byte: U+0009 to
    U+000D and U+0020. Two bytes: U+00A0 ([C2 A0]). Three bytes: U+1680
    ([E1 9A 80]), U+2000 to U+200A ([E2 80 80] to [E2 80 8A]), U+2028 and
    U+2029 ([E2 80 A8], [E2 80 A9]), U+202F ([E2 80 AF]), U+205F
    ([E2 81 9F]), U+3000 ([E3 80 80]) and U+FEFF ([EF BB BF]). *)
Definition isSpace (c : ascii) : bool :=
  let n := nat_of_ascii c in
  ((9 <=? n)%nat && (n <=? 13)%nat) || (n =? 32)%nat.

Definition isSpace2 (c d : ascii) : bool :=
  (nat_of_ascii c =? 194)%nat && (nat_of_ascii d =? 160)%nat.

Definition isSpace3 (c d e : ascii) : bool :=
  let '(c, d, e) := (nat_of_ascii c, nat_of_ascii d, nat_of_ascii e) in
  ((c =? 225) && (d =? 154) && (e =? 128))%nat
  || ((c =? 226) && (d =? 128)
      && (((128 <=? e) && (e <=? 138)) || (e =? 168) || (e =? 169) || (e =? 175)))%nat
  || ((c =? 226) && (d =? 129) && (e =? 159))%nat
  || ((c =? 227) && (d =? 128) && (e =? 128))%nat
  || ((c =? 239) && (d =? 187) && (e =? 191))%nat.

(** [String.prototype.trimStart] and [trimEnd]. *)
Fixpoint trimStart (s : string) : string :=
  match s with
  | EmptyString => EmptyString
  | String c s1 =>
      if isSpace c then trimStart s1
      else
        match s1 with
        | EmptyString => s
        | String d s2 =>
            if isSpace2 c d then trimStart s2
            else
              match s2 with
              | EmptyString => s
              | String e s3 => if isSpace3 c d e then trimStart s3 else s
              end
        end
  end.

Fixpoint trimEnd (s : string) : string :=
  match s with
  | EmptyString => EmptyString
  | String c s' =>
      match trimStart s with
      | EmptyString => EmptyString
      | String _ _ => String c (trimEnd s')
      end
  end.

(** [String.prototype.trim]. *)
Definition trim (s : string) : string := trimEnd (trimStart s).

Record Corrections : Type := {
  hasErrors : bool;
  correctedText : string;
  errors : list string;
  explanation : string
}.

Definition regex (source flags : string) : RegExpLiteral.t :=
  {| RegExpLiteral.source := source; RegExpLiteral.flags := flags |}.

Definition correctedPatterns : list RegExpLiteral.t :=
  [ regex ("(?:corrected version|corrected text|correction):\s*[" +:+ dq +:+ "']([^"
           +:+ dq +:+ "']+)[" +:+ dq +:+ "']") "i";
    regex "(?:corrected version|corrected text|should be):\s*([^\n.]+)" "i";
    regex ("(?:correct version|fixed version):\s*[" +:+ dq +:+ "']([^"
           +:+ dq +:+ "']+)[" +:+ dq +:+ "']") "i";
    regex ("here.{0,20}corrected:\s*[" +:+ dq +:+ "']([^"
           +:+ dq +:+ "']+)[" +:+ dq +:+ "']") "i" ].

Definition errorPatterns : list RegExpLiteral.t :=
  [ regex "(?:errors?|mistakes?):\s*(.*?)(?:\n\n|$)" "is";
    regex "(?:problems?|issues?):\s*(.*?)(?:\n\n|$)" "is";
    regex "\d+\.\s+([^\n]+(?:error|mistake|wrong|incorrect)[^\n]*)" "gi";
    regex "([^\n]*(?:should be|change to|replace with)[^\n]*)" "gi" ].

Definition suggestionPatterns : list RegExpLiteral.t :=
  [ regex ("should be:\s*[" +:+ dq +:+ "']([^" +:+ dq +:+ "']+)[" +:+ dq +:+ "']") "i";
    regex ("change to:\s*[" +:+ dq +:+ "']([^" +:+ dq +:+ "']+)[" +:+ dq +:+ "']") "i";
    regex ("correct:\s*[" +:+ dq +:+ "']([^" +:+ dq +:+ "']+)[" +:+ dq +:+ "']") "i" ].

Definition simpleCorrections : list (RegExpLiteral.t * string) :=
  [ (regex "\bI am learn\b" "gi", "I am learning");
    (regex "\bI want practice\b" "gi", "I want to practice");
    (regex "\bhats\b" "gi", "hats") ].

Definition isGlobal (re : RegExpLiteral.t) : bool :=
  includes (RegExpLiteral.flags re) "g".

Section DemoController.
Variable exec : RegExpLiteral.t -> string -> nat -> option MatchResult.

(** [String.prototype.match] with a pattern that is not global. *)
Definition matchFirst (re : RegExpLiteral.t) (s : string) : option MatchResult :=
    exec re s 0.

(** The successive matches of a global pattern: after a match the search
      resumes at its end, one position further when the match is empty. *)
Fixpoint allMatches (fuel : nat) (re : RegExpLiteral.t) (s : string)
      (lastIndex : nat) : list MatchResult :=
    match fuel with
    | O => []
    | S fuel' =>
        match exec re s lastIndex with
        | None => []
        | Some m =>
            let e := matchIndex m + String.length (matched m) in
            m :: allMatches fuel' re s
                   (match matched m with EmptyString => S e | _ => e end)
        end
    end.

Definition globalMatches (re : RegExpLiteral.t) (s : string) : list MatchResult :=
    allMatches (S (String.length s)) re s 0.

(** [String.prototype.matchAll]: a [TypeError] unless the pattern has the
      [g] flag. *)
Definition matchAll (re : RegExpLiteral.t) (s : string) : Result (list MatchResult) :=
    if isGlobal re then Returned (globalMatches re s)
    else Thrown (TypeError "String.prototype.matchAll called with a non-global RegExp argument").

(** [RegExp.prototype.test] on a fresh pattern. *)
Definition test (re : RegExpLiteral.t) (s : string) : bool :=
    match exec re s 0 with Some _ => true | None => false end.

(** [String.prototype.replace] with a global pattern. *)
Fixpoint rebuild (subject replacement : string) (ms : list MatchResult)
      (position : nat) : string :=
    match ms with
    | [] => dropString position subject
    | m :: ms' =>
        if (matchIndex m <? position)%nat then rebuild subject replacement ms' position
        else
          let e := matchIndex m + String.length (matched m) in
          takeString (matchIndex m - position) (dropString position subject)
          +:+ GetSubstitution (matched m) (takeString (matchIndex m) subject)
                (dropString e subject) replacement
          +:+ rebuild subject replacement ms' e
    end.

Definition replaceGlobal (re : RegExpLiteral.t) (replacement subject : string) : string :=
    rebuild subject replacement (globalMatches re subject) 0.

(** [match && match[1]], then [match[1].trim()]. *)
Definition firstGroup (m : MatchResult) : option string :=
    match captures m with
    | Some (String c s) :: _ => Some (String c s)
    | _ => None
    end.

Fixpoint firstCapture (patterns : list RegExpLiteral.t) (aiResponse : string)
      : option string :=
    match patterns with
    | [] => None
    | pattern :: rest =>
        match matchFirst pattern aiResponse with
        | Some m =>
            match firstGroup m with
            | Some g => Some (trim g)
            | None => firstCapture rest aiResponse
            end
        | None => firstCapture rest aiResponse
        end
    end.

Definition keepError (m : MatchResult) : option string :=
    match firstGroup m with
    | Some g =>
        let errorText := trim g in
        if (10 <? jsLength errorText)%nat && (jsLength errorText <? 200)%nat
        then Some errorText else None
    | None => None
    end.

Fixpoint extractErrors (patterns : list RegExpLiteral.t) (aiResponse : string)
      (errors : list string) : Result (list string) :=
    match patterns with
    | [] => Returned errors
    | pattern :: rest =>
        match matchAll pattern aiResponse with
        | Thrown e => Thrown e
        | Returned matches =>
            extractErrors rest aiResponse (errors ++ omap keepError matches)
        end
    end.

Definition applySimpleCorrection (originalText : string)
      (state : string * list string) (correction : RegExpLiteral.t * string)
      : string * list string :=
    let '(from, to) := correction in
    if test from originalText then
      (replaceGlobal from to originalText,
       snd state ++
         [dq +:+ (match globalMatches from originalText with
                  | m :: _ => matched m
                  | [] => "undefined"
                  end)
             +:+ dq +:+ " should be " +:+ dq +:+ to +:+ dq])
    else state.

Definition hasCorrectionMarker (aiResponse : string) : bool :=
    let response := toLowerCase aiResponse in
    includes response "corrected"
    || includes response "error"
    || includes response "mistake"
    || includes response "should be"
    || includes response "change"
    || includes response "fix".

(** The body of the [try] block. *)
Definition extractCorrections (aiResponse originalText : string) : Result Corrections :=
    let hasCorrections := hasCorrectionMarker aiResponse in
    if hasCorrections then
      let corrected1 :=
        match firstCapture correctedPatterns aiResponse with
        | Some t => t
        | None => originalText
        end in
      match extractErrors errorPatterns aiResponse [] with
      | Thrown e => Thrown e
      | Returned errors1 =>
          let corrected2 :=
            if String.eqb corrected1 originalText && (0 <? length errors1)%nat then
              match firstCapture suggestionPatterns aiResponse with
              | Some t => t
              | None => corrected1
              end
            else corrected1 in
          let '(corrected3, errors3) :=
            if String.eqb corrected2 originalText then
              foldl (applySimpleCorrection originalText) (corrected2, errors1)
                simpleCorrections
            else (corrected2, errors1) in
          let explanation :=
            if (0 <? length errors3)%nat then
              pretty (length errors3)
              +:+ " correction(s) suggérée(s) pour améliorer votre texte."
            else if negb (String.eqb corrected3 originalText) then
              "Quelques améliorations ont été apportées à votre texte."
            else
              "L'IA a détecté le besoin d'améliorations mais les détails n'ont pas pu être extraits automatiquement." in
          Returned {| hasErrors := hasCorrections;
                      correctedText := corrected3;
                      errors := take 3 errors3;
                      explanation := explanation |}
      end
    else
      Returned {| hasErrors := hasCorrections;
                  correctedText := originalText;
                  errors := [];
                  explanation := "Votre texte semble correct !" |}.

Definition parseGrammarCorrections (aiResponse originalText : string) : Corrections :=
    match extractCorrections aiResponse originalText with
    | Returned corrections => corrections
    | Thrown _ =>
        {| hasErrors := false;
           correctedText := originalText;
           errors := [];
           explanation := "Analyse des corrections indisponible." |}
    end.
End DemoController.

(** ** Example inputs *)

Definition emptyContext : PromptContext.t :=
  {| PromptContext.userId := None;
     PromptContext.conversationId := None;
     PromptContext.language := None;
     PromptContext.level := None;
     PromptContext.userMessage := None;
     PromptContext.conversationHistory := None;
     PromptContext.additionalContext := None |}.

Definition historyContext (messages : list AIMessage) : PromptContext.t :=
  {| PromptContext.userId := None;
     PromptContext.conversationId := None;
     PromptContext.language := None;
     PromptContext.level := None;
     PromptContext.userMessage := None;
     PromptContext.conversationHistory := Some messages;
     PromptContext.additionalContext := None |}.

Definition said (r : Role.t) (text : string) : AIMessage :=
  {| role := r; content := text; timestamp := None |}.

(** A conversation of seven messages. *)
Definition sevenMessages : list AIMessage :=
  [ said Role.user "one"; said Role.assistant "two"; said Role.user "three";
    said Role.assistant "four"; said Role.user "five"; said Role.system "six";
    said Role.user "seven" ].


(** A request for conversation starters whose topics are the two
    characters [$&]. *)
Definition dollarTopics : PromptContext.t :=
  {| PromptContext.userId := None;
     PromptContext.conversationId := None;
     PromptContext.language := Some "English";
     PromptContext.level := Some "intermediate";
     PromptContext.userMessage := None;
     PromptContext.conversationHistory := None;
     PromptContext.additionalContext := Some (<["topics" := "$&"]> ∅) |}.

(** A tutoring request: one earlier message of the student, and the new
    message. *)
Definition tutoring (earlier message : string) : PromptContext.t :=
  {| PromptContext.userId := None;
     PromptContext.conversationId := None;
     PromptContext.language := Some "English";
     PromptContext.level := Some "beginner";
     PromptContext.userMessage := Some message;
     PromptContext.conversationHistory := Some [said Role.user earlier];
     PromptContext.additionalContext := None |}.

(** A template that declares [language] twice. *)
Definition twiceDeclared : PromptTemplate.t :=
  {| PromptTemplate.id := "twice_declared";
     PromptTemplate.name := "Twice declared";
     PromptTemplate.description := "A variable listed twice";
     PromptTemplate.template := "Talk about {{topics}}.";
     PromptTemplate.variables := ["language"; "topics"; "language"];
     PromptTemplate.category := Category.system;
     PromptTemplate.language := None;
     PromptTemplate.level := None |}.

Definition languageTopic : PromptContext.t :=
  {| PromptContext.userId := None;
     PromptContext.conversationId := None;
     PromptContext.language := Some "French";
     PromptContext.level := None;
     PromptContext.userMessage := None;
     PromptContext.conversationHistory := None;
     PromptContext.additionalContext := Some (<["topics" := "{{language}}"]> ∅) |}.

(** A template whose variable is named by a number. *)
Definition numbered : PromptTemplate.t :=
  {| PromptTemplate.id := "numbered";
     PromptTemplate.name := "Numbered";
     PromptTemplate.description := "A variable named 1";
     PromptTemplate.template := "First: {{1}} {}";
     PromptTemplate.variables := ["1"];
     PromptTemplate.category := Category.system;
     PromptTemplate.language := None;
     PromptTemplate.level := None |}.

(** A longer conversation, of twelve messages. *)
Definition twelveMessages : list AIMessage :=
  sevenMessages ++ take 5 sevenMessages.

Definition noConversationContext : ConversationContext.t :=
  {| ConversationContext.language := None;
     ConversationContext.level := None;
     ConversationContext.userId := None;
     ConversationContext.conversationId := None |}.

Definition noAnalysisContext : AnalysisContext.t :=
  {| AnalysisContext.language := None; AnalysisContext.level := None |}.

Definition noStarterContext : StarterContext.t :=
  {| StarterContext.language := None;
     StarterContext.level := None;
     StarterContext.topics := None |}.

(** Options in which the caller chose a temperature. *)
Definition callerOptions (t : number) : Options.t :=
  {| Options.temperature := Some t;
     Options.maxTokens := None;
     Options.model := None;
     Options.conversationId := None;
     Options.userId := None;
     Options.provider := None |}.

Definition sampleResponse : Response.t :=
  {| Response.content := "Hello! How are you today?";
     Response.usage := None;
     Response.model := "gpt-4o-mini";
     Response.finishReason := Some "stop" |}.

(** An adapter that answers, and one whose call fails. *)
Definition answering : list AIMessage -> option Options.t -> Result Response.t :=
  fun _ _ => Returned sampleResponse.

Definition failing (e : Exception)
    : list AIMessage -> option Options.t -> Result Response.t :=
  fun _ _ => Thrown e.


(** ** Vocabulary of the statements *)

(** What a [catch] block that rethrows the instances of [HttpException]
    and replaces every other exception by [HttpException(message, 500)]
    makes of an outcome. *)
Definition normalized {A : Type} (message : string) (r : Result A) : Result A :=
  match r with
  | Returned a => Returned a
  | Thrown e =>
      if isHttpException e then Thrown e
      else Thrown (HttpException message INTERNAL_SERVER_ERROR)
  end.

(** The temperature an adapter call carries. *)
Definition sentTemperature (call : AdapterCall) : option number :=
  match sentOptions call with
  | Some o => Options.temperature o
  | None => None
  end.

(** A replacement text in which [GetSubstitution] finds one of its
    patterns [$$], [$&], [$`] or [$']. *)
Fixpoint hasReplacementPattern (s : string) : bool :=
  match s with
  | EmptyString => false
  | String c r =>
      (Ascii.eqb c "$"
       && match r with
          | EmptyString => false
          | String d _ =>
              Ascii.eqb d "$" || Ascii.eqb d "&" || Ascii.eqb d "`" || Ascii.eqb d "'"
          end)
      || hasReplacementPattern r
  end.

(** A replacement value that is a text without such pattern. *)
Definition plainValue (value : ReplaceValue) : bool :=
  match value with
  | Text text => negb (hasReplacementPattern text)
  | Inherited _ => false
  end.

(** The text that a call returned, the empty string for a call that
    threw. *)
Definition returned (outcome : Result string) : string :=
  match outcome with
  | Returned text => text
  | Thrown _ => EmptyString
  end.

(** The cost formula in exact arithmetic, and the millionths of a
    rational rounded to six decimal places, a tie going upward. *)
Definition costFormula (input output : Q) (promptTokens completionTokens : N) : Q :=
  (inject_Z (Z.of_N promptTokens) / 1000000) * input
  + (inject_Z (Z.of_N completionTokens) / 1000000) * output.

Definition millionths (q : Q) : Z := Qfloor (q * 1000000 + (1 # 2)).

(** A one-byte character that is no capital. *)
Definition plainLower (c : ascii) : bool :=
  (nat_of_ascii c <? 128)%nat
  && negb ((65 <=? nat_of_ascii c)%nat && (nat_of_ascii c <=? 90)%nat).

(** A string in which the character [c] does not occur. *)
Definition lacks (c : ascii) (s : string) : bool :=
  allChars (fun d => negb (Ascii.eqb d c)) s.

(** [String.prototype.indexOf]. *)
Fixpoint indexOf (s needle : string) : option nat :=
  if startsWith s needle then Some 0
  else
    match s with
    | EmptyString => None
    | String _ s' => option_map S (indexOf s' needle)
    end.

(** The text that precedes the first occurrence of [needle] in [s], and
    the text that follows it. *)
Definition upTo (s needle : string) : string :=
  match indexOf s needle with
  | Some i => takeString i s
  | None => s
  end.

Definition after (s needle : string) : string :=
  match indexOf s needle with
  | Some i => dropString (i + String.length needle) s
  | None => EmptyString
  end.

(** ** PromptTemplateService: validation of a template

    [validateTemplate] compares the placeholders found in a template body
    with the declared variables. [extractVariablesFromTemplate] finds them
    with the global pattern [/\{\{(\w+)\}\}/g]: two opening braces, a
    non-empty run of word characters (the captured name) and two closing
    braces. The run is greedy; a shorter run would be followed by a word
    character, so a match at a position takes the longest run there. *)

(** The longest run of word characters at the head of a string, and the
    rest of the string. *)
Fixpoint wordRun (s : string) : string * string :=
  match s with
  | EmptyString => (EmptyString, EmptyString)
  | String c s' =>
      if isWordChar c then
        let (w, r) := wordRun s' in (String c w, r)
      else (EmptyString, s)
  end.

(** A match of the pattern anchored at the head of [s]: the captured
    name. *)
Definition placeholderAt (s : string) : option string :=
  if startsWith s "{{" then
    match wordRun (dropString 2 s) with
    | (String c w, r) =>
        if startsWith r "}}" then Some (String c w) else None
    | (EmptyString, _) => None
    end
  else None.

(** A template body cut at the matches of the pattern: the placeholders,
    by their captured name, and the characters between them. *)
Inductive Segment : Type :=
| Char (c : ascii)
| Hole (name : string).

(** The matches are found from left to right without overlap; [skip] is
    the number of bytes still covered by the last match. *)
Fixpoint segmentsFrom (s : string) (skip : nat) : list Segment :=
  match s with
  | EmptyString => []
  | String c s' =>
      match skip with
      | S k => segmentsFrom s' k
      | O =>
          match placeholderAt s with
          | Some w => Hole w :: segmentsFrom s' (String.length w + 3)
          | None => Char c :: segmentsFrom s' 0
          end
      end
  end.

Definition segments (s : string) : list Segment := segmentsFrom s 0.

Definition holeName (segment : Segment) : option string :=
  match segment with
  | Hole w => Some w
  | Char _ => None
  end.

(** [match[1]] for the successive matches of [template.matchAll(regex)]. *)
Definition placeholderNames (template : string) : list string :=
  omap holeName (segments template).

(** [Array.prototype.includes] on an array of strings. *)
Definition listIncludes (l : list string) (s : string) : bool :=
  existsb (String.eqb s) l.

Definition extractVariablesFromTemplate (template : string) : list string :=
  foldl (fun variables name =>
           if listIncludes variables name then variables else variables ++ [name])
    [] (placeholderNames template).

(** [!s || s.trim() === ''] *)
Definition isBlank (s : string) : bool :=
  match s with
  | EmptyString => true
  | _ => match trim s with EmptyString => true | _ => false end
  end.

(** [template.variables.includes(variable)] *)
Definition declares (template : PromptTemplate.t) (variable : string) : bool :=
  listIncludes (PromptTemplate.variables template) variable.

Definition undeclaredVariables (template : PromptTemplate.t) : list string :=
  filter (fun variable => declares template variable = false)
    (extractVariablesFromTemplate (PromptTemplate.template template)).

(** The errors are pushed in this order. The variables of a
    [PromptTemplate.t] are a list, so the check [Array.isArray] passes. *)
Definition validateTemplate (template : PromptTemplate.t) : list string :=
  (if isBlank (PromptTemplate.id template) then ["Template ID is required"] else [])
  ++ (if isBlank (PromptTemplate.name template) then ["Template name is required"] else [])
  ++ (if isBlank (PromptTemplate.template template)
      then ["Template content is required"] else [])
  ++ (match undeclaredVariables template with
      | [] => []
      | undeclared => ["Undeclared variables found: " +:+ join ", " undeclared]
      end).

(** The characters that [trim] removes, white space and line terminators,
    each by the bytes of its UTF-8 encoding: U+0009 to U+000D, U+0020,
    U+00A0, U+1680, U+2000 to U+200A, U+2028, U+2029, U+202F, U+205F,
    U+3000 and U+FEFF. *)
Definition utf8 (bytes : list nat) : string :=
  foldr (fun n rest => String (byte n) rest) EmptyString bytes.

Definition whiteSpace : list string :=
  map utf8
    [[9]; [10]; [11]; [12]; [13]; [32]; [194; 160]; [225; 154; 128];
     [226; 128; 128]; [226; 128; 129]; [226; 128; 130]; [226; 128; 131];
     [226; 128; 132]; [226; 128; 133]; [226; 128; 134]; [226; 128; 135];
     [226; 128; 136]; [226; 128; 137]; [226; 128; 138]; [226; 128; 168];
     [226; 128; 169]; [226; 128; 175]; [226; 129; 159]; [227; 128; 128];
     [239; 187; 191]].

(** The text of a cut body in which every placeholder is replaced by the
    value given to its name. *)
Definition fillSegment (value : string -> string) (segment : Segment) : string :=
  match segment with
  | Char c => String c EmptyString
  | Hole w => value w
  end.

Definition fill (value : string -> string) (body : list Segment) : string :=
  foldr (fun segment text => fillSegment value segment +:+ text) EmptyString body.

(** An opening brace that belongs to no placeholder. *)
Definition strayBrace (segment : Segment) : bool :=
  match segment with
  | Char c => Ascii.eqb c "{"
  | Hole _ => false
  end.

(** The value of a placeholder while the declared variables are being
    substituted: its own text until the variable has had its turn. *)
Definition filled (value : string -> string) (done : list string) (name : string)
    : string :=
  if listIncludes done name then value name else placeholder name.

(** A value that substitution inserts as it is, and that brings no
    opening brace with it. *)
Definition inert (value : string) : bool :=
  lacks "{" value && negb (hasReplacementPattern value).

(** A replacement value that is such a text. *)
Definition inertValue (value : ReplaceValue) : bool :=
  match value with
  | Text text => inert text
  | Inherited _ => false
  end.

(** The text of a value that is a string. *)
Definition variableText (context : PromptContext.t) (variable : string) : string :=
  match variableValue context variable with
  | Text text => text
  | Inherited _ => EmptyString
  end.

(** The declared variables: each a name of word characters, not all of
    them digits, whose value is [inert]. *)
Definition inertVariables (template : PromptTemplate.t) (context : PromptContext.t)
    : bool :=
  forallb (fun variable : string =>
             isWord variable && negb (isQuantifier variable)
             && inertValue (variableValue context variable))
    (PromptTemplate.variables template).

(** A text without opening brace and without dollar sign. *)
Definition plainText (s : string) : bool := lacks "{" s && lacks "$" s.

Definition plainOption (o : option string) : bool :=
  match o with
  | Some s => plainText s
  | None => true
  end.

(** ** AIProviderService: models and providers *)

(** [Object.values(AIProvider)] *)
Definition providers : list string := [AIProvider.OPENAI; AIProvider.ANTHROPIC].

Definition getAvailableModels (defaultProvider : string) (provider : option string)
    : list string :=
  let targetProvider := orElse provider defaultProvider in
  if String.eqb targetProvider AIProvider.OPENAI then
    [ "gpt-4o-mini"; "gpt-4o"; "gpt-4-turbo"; "gpt-4"; "gpt-3.5-turbo";
      "gpt-3.5-turbo-16k" ]
  else [].

(** ** OpenAIService: the completion call ([openai.service.ts])

    [generateCompletion] builds the body of
    [openai.chat.completions.create], awaits the call and maps the
    completion to an [AICompletionResponse]. The call itself, [create], is
    a parameter of the model. *)

Module ChatCompletionRequest.
Record t : Type := {
  model : string;
  messages : list (Role.t * string);
  temperature : number;
  max_tokens : Z
}.
End ChatCompletionRequest.

Module Choice.
(** [content] is [None] when the message or its content is missing or
    null. *)
Record t : Type := {
  content : option string;
  finish_reason : option string
}.
End Choice.

Module CompletionUsage.
Record t : Type := {
  prompt_tokens : Z;
  completion_tokens : Z;
  total_tokens : Z
}.
End CompletionUsage.

Module ChatCompletion.
Record t : Type := {
  model : string;
  choices : list Choice.t;
  usage : option CompletionUsage.t
}.
End ChatCompletion.

(** [x || undefined] on an optional string. *)
Definition truthy (o : option string) : option string :=
  match o with
  | Some (String c s) => Some (String c s)
  | _ => None
  end.

Module OpenAI.
Section Adapter.
(** [this.openai.chat.completions.create] *)
Variable create : ChatCompletionRequest.t -> Result ChatCompletion.t.
(** [this.defaultModel], read from the configuration. *)
Variable defaultModel : string.

Definition completionRequest (messages : list AIMessage) (options : option Options.t)
    : ChatCompletionRequest.t :=
  {| ChatCompletionRequest.model := orElse (options ≫= Options.model) defaultModel;
     ChatCompletionRequest.messages := map (fun msg => (role msg, content msg)) messages;
     ChatCompletionRequest.temperature := default 0.7%Q (options ≫= Options.temperature);
     ChatCompletionRequest.max_tokens := default 1000%Z (options ≫= Options.maxTokens) |}.

Definition completionResponse (completion : ChatCompletion.t) : Response.t :=
  {| Response.content :=
       orElse (head (ChatCompletion.choices completion) ≫= Choice.content) EmptyString;
     Response.model := ChatCompletion.model completion;
     Response.finishReason :=
       truthy (head (ChatCompletion.choices completion) ≫= Choice.finish_reason);
     Response.usage :=
       match ChatCompletion.usage completion with
       | Some usage =>
           Some {| Usage.promptTokens := CompletionUsage.prompt_tokens usage;
                   Usage.completionTokens := CompletionUsage.completion_tokens usage;
                   Usage.totalTokens := CompletionUsage.total_tokens usage |}
       | None => None
       end |}.

(** The [catch] block logs the error and throws it again. *)
Definition generateCompletion (messages : list AIMessage) (options : option Options.t)
    : Result Response.t :=
  match create (completionRequest messages options) with
  | Returned completion => Returned (completionResponse completion)
  | Thrown error => Thrown error
  end.
End Adapter.
End OpenAI.

(** ** AIProvidersController ([ai-providers.controller.ts])

    The controller copies the messages of the request body, stamping each
    copy with [new Date()], and calls the orchestrator. The clock is a
    parameter: [now i] is the reading taken for the message at index
    [i]. *)

Module AIMessageDto.
Record t : Type := {
  role : Role.t;
  content : string
}.
End AIMessageDto.

Module ChatResponseRequestDto.
Record t : Type := {
  messages : list AIMessageDto.t;
  systemPrompt : option string;
  temperature : option number;
  maxTokens : option Z
}.
End ChatResponseRequestDto.

Module TextAnalysisRequestDto.
Record t : Type := {
  text : string;
  analysisType : AnalysisType.t;
  model : option string
}.
End TextAnalysisRequestDto.

Module HealthReport.
Record t : Type := {
  timestamp : string;
  providers : list (string * bool);
  overall : bool
}.
End HealthReport.

(** [Promise.allSettled] on one promise: its outcome, fulfilled or
    rejected; the operation itself does not throw. *)
Definition settled {A : Type} (m : Async A) : Async (Result A) :=
  fun calls => let (outcome, calls') := m calls in (Returned outcome, calls').

(** The operations started one after the other, in the order of the
    array. *)
Fixpoint allSettled {A : Type} (ms : list (Async A)) : Async (list (Result A)) :=
  match ms with
  | [] => ret []
  | m :: ms' =>
      outcome <- settled m ;;
      outcomes <- allSettled ms' ;;
      ret (outcome :: outcomes)
  end.

Module AIProvidersController.
Section Controller.
Variable regExpReplace : string -> ReplaceValue -> string -> Result string.
Variable openaiService : list AIMessage -> option Options.t -> Result Response.t.
Variable templates : gmap string PromptTemplate.t.
Variable defaultProvider : string.
Variable now : nat -> Z.

(** [messages.map(msg => ({ role, content, timestamp: new Date() }))] *)
Definition stamped (messages : list AIMessageDto.t) : list AIMessage :=
  imap (fun i msg =>
          {| role := AIMessageDto.role msg;
             content := AIMessageDto.content msg;
             timestamp := Some (now i) |})
    messages.

(** [{ temperature: request.temperature, maxTokens: request.maxTokens }] *)
Definition requestOptions (request : ChatResponseRequestDto.t) : Options.t :=
  {| Options.temperature := ChatResponseRequestDto.temperature request;
     Options.maxTokens := ChatResponseRequestDto.maxTokens request;
     Options.model := None;
     Options.conversationId := None;
     Options.userId := None;
     Options.provider := None |}.

(** [request.messages[request.messages.length - 1]?.content || ''] *)
Definition lastContent (request : ChatResponseRequestDto.t) : string :=
  orElse (AIMessageDto.content <$> last (ChatResponseRequestDto.messages request))
    EmptyString.

(** [request.messages.slice(0, -1)], stamped. *)
Definition earlierMessages (request : ChatResponseRequestDto.t) : list AIMessage :=
  let messages := ChatResponseRequestDto.messages request in
  stamped (take (length messages - 1) messages).

Definition queryContext (language level userId conversationId : option string)
    : ConversationContext.t :=
  {| ConversationContext.language := language;
     ConversationContext.level := level;
     ConversationContext.userId := userId;
     ConversationContext.conversationId := conversationId |}.

Definition generateChatResponse (request : ChatResponseRequestDto.t)
    : Async Response.t :=
  let messages := stamped (ChatResponseRequestDto.messages request) in
  match ChatResponseRequestDto.systemPrompt request with
  | Some (String c s) =>
      generateChatResponse openaiService defaultProvider
        (systemMessage (String c s) :: messages) (Some (requestOptions request))
  | _ =>
      generateChatResponse openaiService defaultProvider
        messages (Some (requestOptions request))
  end.

Definition generateTutorResponse (request : ChatResponseRequestDto.t)
    (language level userId conversationId : option string) : Async Response.t :=
  let userMessage := lastContent request in
  let conversationHistory := earlierMessages request in
  generateTutorResponse regExpReplace openaiService templates defaultProvider
    userMessage conversationHistory
    (queryContext language level userId conversationId)
    (Some (requestOptions request)).

Definition generateConversationPartnerResponse (request : ChatResponseRequestDto.t)
    (language level userId conversationId : option string) : Async Response.t :=
  let userMessage := lastContent request in
  let conversationHistory := earlierMessages request in
  generateConversationPartnerResponse regExpReplace openaiService templates defaultProvider
    userMessage conversationHistory
    (queryContext language level userId conversationId)
    (Some (requestOptions request)).

Definition analyzeText (request : TextAnalysisRequestDto.t)
    (language level : option string) : Async Response.t :=
  analyzeText regExpReplace openaiService templates defaultProvider
    (TextAnalysisRequestDto.text request)
    (TextAnalysisRequestDto.analysisType request)
    {| AnalysisContext.language := language; AnalysisContext.level := level |}
    (Some {| Options.model := TextAnalysisRequestDto.model request;
             Options.temperature := None;
             Options.maxTokens := None;
             Options.conversationId := None;
             Options.userId := None;
             Options.provider := None |}).

Definition generateConversationStarters (language level topics : option string)
    : Async Response.t :=
  generateConversationStarters regExpReplace openaiService templates defaultProvider
    {| StarterContext.language := language;
       StarterContext.level := level;
       StarterContext.topics := topics |}
    None.

(** [{ provider: provider || default, models }] *)
Definition getAvailableModels (provider : option string) : string * list string :=
  (orElse provider defaultProvider, getAvailableModels defaultProvider provider).

(** [{ providers: Object.values(AIProvider), default }] *)
Definition getAvailableProviders : list string * string :=
  (providers, defaultProvider).

(** [timestamp] is the reading of the clock taken when the report is
    built. Of the checks started by [providers.map], only the one of a
    provider with an adapter reaches the adapter, so the order in which
    they complete does not show in the record of calls. *)
Definition checkHealth (timestamp : string) : Async HealthReport.t :=
  healthChecks <-
    allSettled
      (map (fun provider =>
              status <- validateProviderConnection openaiService defaultProvider
                          (Some provider) ;;
              ret (provider, status))
         providers) ;;
  ret {| HealthReport.timestamp := timestamp;
         HealthReport.providers :=
           map (fun result : Result (string * bool) =>
                  match result with
                  | Returned value => value
                  | Thrown _ => ("unknown", false)
                  end)
             healthChecks;
         HealthReport.overall :=
           forallb (fun result : Result (string * bool) =>
                      match result with
                      | Returned value => snd value
                      | Thrown _ => false
                      end)
             healthChecks |}.
End Controller.
End AIProvidersController.

(** ** DemoController: the chat demo *)

Module ChatDemoRequestDto.
Record t : Type := {
  message : string;
  language : option string;
  level : option string;
  mode : option string
}.
End ChatDemoRequestDto.

Module ChatDemoData.
Record t : Type := {
  userMessage : string;
  corrections : Corrections;
  aiResponse : string;
  language : string;
  level : string;
  mode : string
}.
End ChatDemoData.

(** The two shapes of the object that [chatDemo] returns, told apart by
    [success]. *)
Inductive ChatDemoResponse : Type :=
| ChatDemoSuccess (data : ChatDemoData.t) (timestamp : string)
| ChatDemoFailure (message details : string) (timestamp : string).

Inductive QuickTestResponse : Type :=
| QuickTestSuccess (message : string) (example : ChatDemoResponse) (timestamp : string)
| QuickTestFailure (message details : string) (timestamp : string).

(** [error.message] *)
Definition errorMessage (error : Exception) : string :=
  match error with
  | Error message => message
  | TypeError message => message
  | SyntaxError message => message
  | HttpException message _ => message
  end.

(** The default of a destructuring pattern: used for [undefined] only. *)
Definition defaulted (o : option string) (d : string) : string :=
  match o with
  | Some s => s
  | None => d
  end.

Section ChatDemo.
Variable exec : RegExpLiteral.t -> string -> nat -> option MatchResult.
Variable regExpReplace : string -> ReplaceValue -> string -> Result string.
Variable openaiService : list AIMessage -> option Options.t -> Result Response.t.
Variable templates : gmap string PromptTemplate.t.
Variable defaultProvider : string.

(** [timestamp] is the reading of the clock taken when the result is
    built. *)
Definition chatDemo (request : ChatDemoRequestDto.t) (timestamp : string)
    : Async ChatDemoResponse :=
  tryCatch
    (let message := ChatDemoRequestDto.message request in
     let language := defaulted (ChatDemoRequestDto.language request) "English" in
     let level := defaulted (ChatDemoRequestDto.level request) "intermediate" in
     let mode := defaulted (ChatDemoRequestDto.mode request) "tutor" in
     grammarAnalysis <-
       analyzeText regExpReplace openaiService templates defaultProvider message AnalysisType.grammar
         {| AnalysisContext.language := Some language;
            AnalysisContext.level := Some level |}
         (Some {| Options.temperature := Some 0.3%Q;
                  Options.maxTokens := None;
                  Options.model := None;
                  Options.conversationId := None;
                  Options.userId := None;
                  Options.provider := None |}) ;;
     let corrections :=
       parseGrammarCorrections exec (Response.content grammarAnalysis) message in
     let context :=
       {| ConversationContext.language := Some language;
          ConversationContext.level := Some level;
          ConversationContext.userId := None;
          ConversationContext.conversationId := None |} in
     aiResponse <-
       (if String.eqb mode "conversation-partner" then
          generateConversationPartnerResponse regExpReplace openaiService templates defaultProvider
            message [] context None
        else
          generateTutorResponse regExpReplace openaiService templates defaultProvider
            message [] context None) ;;
     ret (ChatDemoSuccess
            {| ChatDemoData.userMessage := message;
               ChatDemoData.corrections :=
                 {| hasErrors := hasErrors corrections;
                    correctedText := correctedText corrections;
                    errors := errors corrections;
                    explanation := explanation corrections |};
               ChatDemoData.aiResponse := Response.content aiResponse;
               ChatDemoData.language := language;
               ChatDemoData.level := level;
               ChatDemoData.mode := mode |}
            timestamp))
    (fun error =>
       ret (ChatDemoFailure "Erreur lors du traitement de votre message"
              (errorMessage error) timestamp)).

(** [inner] and [outer] are the readings of the clock taken by [chatDemo]
    and by [quickTest]. *)
Definition quickTest (inner outer : string) : Async QuickTestResponse :=
  tryCatch
    (let testMessage := "Hello, I want practice English conversation with you!" in
     result <-
       chatDemo {| ChatDemoRequestDto.message := testMessage;
                   ChatDemoRequestDto.language := Some "English";
                   ChatDemoRequestDto.level := Some "intermediate";
                   ChatDemoRequestDto.mode := Some "tutor" |}
         inner ;;
     ret (QuickTestSuccess "API AI fonctionne correctement !" result outer))
    (fun error =>
       ret (QuickTestFailure "L'API AI n'est pas disponible" (errorMessage error) outer)).
End ChatDemo.


(** The store after the constructor and any later calls of
    [addTemplate]. *)
Definition storeAfter (added : list PromptTemplate.t) : gmap string PromptTemplate.t :=
  foldl addTemplate initializeDefaultTemplates added.

(** The role and the content of a message of a request body. *)
Definition sentAs (message : AIMessageDto.t) : Role.t * string :=
  (AIMessageDto.role message, AIMessageDto.content message).

(** The record of adapter calls after an operation: the calls made
    before, then at most [n] more. *)
Definition grows (n : nat) (calls after : list AdapterCall) : Prop :=
  exists extra : list AdapterCall, after = calls ++ extra /\ length extra <= n.

(** The request that [quickTest] passes to [chatDemo]. *)
Definition quickTestRequest : ChatDemoRequestDto.t :=
  {| ChatDemoRequestDto.message := "Hello, I want practice English conversation with you!";
     ChatDemoRequestDto.language := Some "English";
     ChatDemoRequestDto.level := Some "intermediate";
     ChatDemoRequestDto.mode := Some "tutor" |}.

(** ** PromptTemplateService: the templates in the order of the [Map]

    A JavaScript [Map] keeps its keys in the order of their first
    insertion, and setting a key that is present replaces its value in
    place. [getAllTemplates] and [getTemplatesByCategory] show this
    order, which the [gmap] of the lookups forgets. For them the store is
    modelled once more, as the list of its entries; [contents] gives the
    store of the lookups back. *)

Definition TemplateMap : Type := list (string * PromptTemplate.t).

(** [Map.prototype.set] *)
Fixpoint mapSet (entries : TemplateMap) (key : string) (value : PromptTemplate.t)
    : TemplateMap :=
  match entries with
  | [] => [(key, value)]
  | (k, v) :: entries' =>
      if String.eqb k key then (key, value) :: entries'
      else (k, v) :: mapSet entries' key value
  end.

Definition contents (entries : TemplateMap) : gmap string PromptTemplate.t :=
  list_to_map entries.

(** [a === b] on categories. *)
Definition sameCategory (a b : Category.t) : bool :=
  match a, b with
  | Category.conversation, Category.conversation
  | Category.correction, Category.correction
  | Category.analysis, Category.analysis
  | Category.system, Category.system => true
  | _, _ => false
  end.

Module Listing.
Definition addTemplate (templates : TemplateMap) (template : PromptTemplate.t)
    : TemplateMap :=
  mapSet templates (PromptTemplate.id template) template.

Definition initializeDefaultTemplates : TemplateMap :=
  foldl addTemplate [] defaultTemplates.

(** The entries after the constructor and any later calls of
    [addTemplate]. *)
Definition storeAfter (added : list PromptTemplate.t) : TemplateMap :=
  foldl addTemplate initializeDefaultTemplates added.

(** [Array.from(this.templates.values())] *)
Definition getAllTemplates (templates : TemplateMap) : list PromptTemplate.t :=
  map snd templates.

Definition getTemplatesByCategory (templates : TemplateMap) (category : Category.t)
    : list PromptTemplate.t :=
  filter (fun template => sameCategory (PromptTemplate.category template) category = true)
    (getAllTemplates templates).
End Listing.

(** Each key is listed once, and it is the id of its template. *)
Definition keyed (entries : TemplateMap) : Prop :=
  NoDup (map fst entries)
  /\ Forall (fun entry => fst entry = PromptTemplate.id (snd entry)) entries.

(** What the completion call keeps of a message: its role and its
    content. *)
Definition sent (message : AIMessage) : Role.t * string :=
  (role message, content message).

(** The values that the tutor and the conversation-partner operations
    give to the placeholders of their templates. *)
Definition conversationValue (message : string) (history : list AIMessage)
    (context : ConversationContext.t) (name : string) : string :=
  if String.eqb name "language" then
    orElse (ConversationContext.language context) "English"
  else if String.eqb name "level" then
    orElse (ConversationContext.level context) "intermediate"
  else if String.eqb name "conversationHistory" then formatConversationHistory history
  else message.

(** The values that the starter and the analysis operations give to the
    placeholders of their templates. *)
Definition starterValue (language level topics : option string) (name : string)
    : string :=
  if String.eqb name "language" then orElse language "English"
  else if String.eqb name "level" then orElse level "intermediate"
  else orElse topics "general conversation, daily life, hobbies, travel".

Definition analysisValue (language level : option string) (text : string)
    (name : string) : string :=
  if String.eqb name "language" then orElse language "English"
  else if String.eqb name "level" then orElse level "intermediate"
  else text.

(** The built-in template of an analysis type. *)
Definition analysisTemplate (analysisType : AnalysisType.t) : PromptTemplate.t :=
  match analysisType with
  | AnalysisType.grammar => grammar_correction
  | AnalysisType.style => style_improvement
  | AnalysisType.vocabulary => vocabulary_analysis
  end.

(** ** Further example inputs *)

(** A runtime whose [RegExp] constructor rejects every source that the
    model hands over to it. The examples below declare names of word
    characters only: none of them reaches it. *)
Definition rejecting : string -> ReplaceValue -> string -> Result string :=
  fun source _ _ =>
    Thrown (SyntaxError ("Invalid regular expression: /" +:+ source +:+ "/")).

(** Two templates that take the ids of built-in templates, each with a
    variable that bears the name of a member of [Object.prototype]. *)
Definition memberStarter : PromptTemplate.t :=
  {| PromptTemplate.id := "conversation_starter";
     PromptTemplate.name := "Conversation Starter";
     PromptTemplate.description := "Starters about a property";
     PromptTemplate.template := "Suggest topics about {{hasOwnProperty}}.";
     PromptTemplate.variables := ["hasOwnProperty"];
     PromptTemplate.category := Category.system;
     PromptTemplate.language := None;
     PromptTemplate.level := None |}.

Definition memberGrammar : PromptTemplate.t :=
  {| PromptTemplate.id := "grammar_correction";
     PromptTemplate.name := "Grammar Correction";
     PromptTemplate.description := "Corrections about a property";
     PromptTemplate.template := "Correct the use of {{hasOwnProperty}}.";
     PromptTemplate.variables := ["hasOwnProperty"];
     PromptTemplate.category := Category.correction;
     PromptTemplate.language := None;
     PromptTemplate.level := None |}.

(** A template whose body uses a placeholder that it does not declare. *)
Definition greeting : PromptTemplate.t :=
  {| PromptTemplate.id := "greeting";
     PromptTemplate.name := "Greeting";
     PromptTemplate.description := "A greeting with an undeclared name";
     PromptTemplate.template := "Dear {{name}}, practise {{language}}.";
     PromptTemplate.variables := ["language"];
     PromptTemplate.category := Category.system;
     PromptTemplate.language := None;
     PromptTemplate.level := None |}.

(** A template that declares a variable which its body does not use. *)
Definition notice : PromptTemplate.t :=
  {| PromptTemplate.id := "notice";
     PromptTemplate.name := "Notice";
     PromptTemplate.description := "A fixed text";
     PromptTemplate.template := "Please answer briefly.";
     PromptTemplate.variables := ["language"];
     PromptTemplate.category := Category.system;
     PromptTemplate.language := None;
     PromptTemplate.level := None |}.

(** A completion call that answers, and its answer. *)
Definition sampleCompletion : ChatCompletion.t :=
  {| ChatCompletion.model := "gpt-4o-mini";
     ChatCompletion.choices :=
       [{| Choice.content := Some "Hello! How are you today?";
           Choice.finish_reason := Some "stop" |}];
     ChatCompletion.usage := None |}.

Definition completing : ChatCompletionRequest.t -> Result ChatCompletion.t :=
  fun _ => Returned sampleCompletion.

(** A request body of three messages that ends with a message of the
    assistant, and one without messages. *)
Definition earlierTwo : list AIMessageDto.t :=
  [ {| AIMessageDto.role := Role.user; AIMessageDto.content := "Hi" |};
    {| AIMessageDto.role := Role.assistant;
       AIMessageDto.content := "Hello! How can I help?" |} ].

Definition finalOne : AIMessageDto.t :=
  {| AIMessageDto.role := Role.assistant; AIMessageDto.content := "I want to practise." |}.

Definition requestOf (messages : list AIMessageDto.t) : ChatResponseRequestDto.t :=
  {| ChatResponseRequestDto.messages := messages;
     ChatResponseRequestDto.systemPrompt := None;
     ChatResponseRequestDto.temperature := None;
     ChatResponseRequestDto.maxTokens := Some 200%Z |}.

Definition midnight : nat -> Z := fun _ => 0%Z.

Definition grammarRequest : TextAnalysisRequestDto.t :=
  {| TextAnalysisRequestDto.text := "I are fine.";
     TextAnalysisRequestDto.analysisType := AnalysisType.grammar;
     TextAnalysisRequestDto.model := Some "gpt-4o" |}.

(** ** Strings and global replacement *)

#[local] Arguments Ascii.eqb : simpl never.

Lemma append_assoc (a b c : string) : (a +:+ b) +:+ c = a +:+ (b +:+ c).
Proof. induction a as [| x a IH]; simpl; [reflexivity | rewrite IH; reflexivity]. Qed.

Lemma length_append (a b : string) :
  String.length (a +:+ b) = String.length a + String.length b.
Proof. induction a as [| x a IH]; simpl; [reflexivity | rewrite IH; reflexivity]. Qed.

Lemma ascii_not_byte (c : ascii) (n : nat) :
  nat_of_ascii c < 128 -> 128 <= n < 256 -> Ascii.eqb c (byte n) = false.
Proof.
  intros Hc Hn. destruct (Ascii.eqb_spec c (byte n)) as [-> | _]; [| reflexivity].
  unfold byte in Hc. rewrite nat_ascii_embedding in Hc by lia. lia.
Qed.

(** A one-byte character is lowered on its own, whatever precedes it. *)
Lemma toLowerCase_app_ascii (a : string) (c : ascii) (r : string) :
  nat_of_ascii c < 128 ->
  toLowerCase (a +:+ String c r) = toLowerCase a +:+ toLowerCase (String c r).
Proof.
  intros Hc.
  assert (H176 := ascii_not_byte c 176 Hc ltac:(lia)).
  assert (H132 := ascii_not_byte c 132 Hc ltac:(lia)).
  assert (H170 := ascii_not_byte c 170 Hc ltac:(lia)).
  remember (String.length a) as n eqn:Hn. revert a Hn.
  induction n as [n IH] using lt_wf_ind. intros a Hn.
  destruct a as [| x [| y [| z a]]].
  - reflexivity.
  - change (String x EmptyString +:+ String c r) with (String x (String c r)).
    cbn [toLowerCase]. rewrite H176, andb_false_r.
    destruct r as [| e r]; [reflexivity |].
    rewrite H132, andb_false_r. reflexivity.
  - change (String x (String y EmptyString) +:+ String c r)
      with (String x (String y (String c r))).
    pose proof (IH 1 ltac:(simpl in Hn; lia) (String y EmptyString) eq_refl) as IHy.
    change (String y EmptyString +:+ String c r) with (String y (String c r)) in IHy.
    cbn [toLowerCase] in *.
    destruct (Ascii.eqb x (byte 196) && Ascii.eqb y (byte 176)); [reflexivity |].
    rewrite H170, andb_false_r.
    rewrite IHy. reflexivity.
  - change (String x (String y (String z a)) +:+ String c r)
      with (String x (String y (String z (a +:+ String c r)))).
    simpl in Hn.
    pose proof (IH (String.length a) ltac:(lia) a eq_refl) as IHa.
    pose proof (IH (S (String.length a)) ltac:(lia) (String z a) eq_refl) as IHz.
    pose proof (IH (S (S (String.length a))) ltac:(lia) (String y (String z a)) eq_refl)
      as IHy.
    change (String z a +:+ String c r) with (String z (a +:+ String c r)) in IHz.
    change (String y (String z a) +:+ String c r)
      with (String y (String z (a +:+ String c r))) in IHy.
    rewrite (eq_refl : toLowerCase (String x (String y (String z (a +:+ String c r))))
                       = let other := String (lowerChar x)
                                        (toLowerCase (String y (String z (a +:+ String c r)))) in
                         if Ascii.eqb x (byte 196) && Ascii.eqb y (byte 176)
                         then String "i" (String (byte 204) (String (byte 135)
                                (toLowerCase (String z (a +:+ String c r)))))
                         else if Ascii.eqb x (byte 226) && Ascii.eqb y (byte 132)
                                 && Ascii.eqb z (byte 170)
                              then String "k" (toLowerCase (a +:+ String c r))
                              else other).
    rewrite (eq_refl : toLowerCase (String x (String y (String z a)))
                       = let other := String (lowerChar x)
                                        (toLowerCase (String y (String z a))) in
                         if Ascii.eqb x (byte 196) && Ascii.eqb y (byte 176)
                         then String "i" (String (byte 204) (String (byte 135)
                                (toLowerCase (String z a))))
                         else if Ascii.eqb x (byte 226) && Ascii.eqb y (byte 132)
                                 && Ascii.eqb z (byte 170)
                              then String "k" (toLowerCase a)
                              else other).
    cbv zeta. rewrite IHa, IHz, IHy.
    destruct (Ascii.eqb x (byte 196) && Ascii.eqb y (byte 176)); [reflexivity |].
    destruct (Ascii.eqb x (byte 226) && Ascii.eqb y (byte 132) && Ascii.eqb z (byte 170));
      reflexivity.
Qed.

(** Text without capitals and of one-byte characters is its own lower
    case. *)
Lemma toLowerCase_plain (w r : string) :
  allChars plainLower w = true -> toLowerCase (w +:+ r) = w +:+ toLowerCase r.
Proof.
  induction w as [| c w IH]; intros Hw; [reflexivity |].
  cbn [allChars] in Hw. apply andb_true_iff in Hw as [Hc Hw].
  unfold plainLower in Hc. apply andb_true_iff in Hc as [Hc Hlow].
  apply Nat.ltb_lt in Hc.
  assert (H196 := ascii_not_byte c 196 Hc ltac:(lia)).
  assert (H226 := ascii_not_byte c 226 Hc ltac:(lia)).
  assert (Hl : lowerChar c = c).
  { unfold lowerChar. apply negb_true_iff in Hlow. rewrite Hlow. reflexivity. }
  change (String c w +:+ r) with (String c (w +:+ r)).
  specialize (IH Hw).
  destruct (w +:+ r) as [| d [| e s3]] eqn:Hs; cbn [toLowerCase] in *;
    rewrite ?H196, ?H226, ?andb_false_l, ?Hl; rewrite ?IH; reflexivity.
Qed.

Lemma includes_app_r (a b needle : string) :
  includes b needle = true -> includes (a +:+ b) needle = true.
Proof.
  intros Hb. induction a as [| c a IH]; simpl; [exact Hb |].
  rewrite IH. apply orb_true_r.
Qed.

Lemma startsWith_append (p s : string) : startsWith (p +:+ s) p = true.
Proof.
  induction p as [| x p IH]; simpl; [reflexivity |].
  rewrite Ascii.eqb_refl. exact IH.
Qed.

Lemma startsWith_append_l (t r p : string) :
  startsWith t p = true -> startsWith (t +:+ r) p = true.
Proof.
  revert t. induction p as [| x p IH]; intros t H; simpl; [reflexivity |].
  destruct t as [| y t]; simpl in *; [discriminate |].
  apply andb_true_iff in H as [Hxy Hp]. rewrite Hxy. simpl. apply IH. exact Hp.
Qed.

Lemma startsWith_length (t p : string) :
  startsWith t p = true -> String.length p <= String.length t.
Proof.
  revert t. induction p as [| x p IH]; intros t H; simpl; [lia |].
  destruct t as [| y t]; simpl in *; [discriminate |].
  apply andb_true_iff in H as [_ Hp]. apply IH in Hp. lia.
Qed.

Lemma startsWith_split (t p : string) :
  startsWith t p = true -> exists b, t = p +:+ b.
Proof.
  revert t. induction p as [| x p IH]; intros t H; simpl.
  - exists t. reflexivity.
  - destruct t as [| y t]; simpl in *; [discriminate |].
    apply andb_true_iff in H as [Hxy Hp].
    apply Ascii.eqb_eq in Hxy as ->.
    destruct (IH _ Hp) as [b ->]. exists b. reflexivity.
Qed.

Lemma includes_split (s p : string) :
  includes s p = true -> exists a b, s = a +:+ p +:+ b.
Proof.
  induction s as [| c s IH]; simpl; intros H.
  - rewrite orb_false_r in H. destruct (startsWith_split _ _ H) as [b Hb].
    exists EmptyString, b. exact Hb.
  - apply orb_true_iff in H as [H | H].
    + destruct (startsWith_split _ _ H) as [b Hb].
      exists EmptyString, b. exact Hb.
    + destruct (IH H) as (a & b & ->). exists (String c a), b. reflexivity.
Qed.

Lemma includes_here (p b : string) : includes (p +:+ b) p = true.
Proof.
  destruct (p +:+ b) eqn:E; simpl; rewrite <- E, startsWith_append; reflexivity.
Qed.

Lemma includes_occurrence (a p b : string) : includes (a +:+ p +:+ b) p = true.
Proof. apply includes_app_r, includes_here. Qed.

(** *** Replacement texts without patterns *)

Lemma GetSubstitution_plain (matched before after replacement : string) :
  hasReplacementPattern replacement = false ->
  GetSubstitution matched before after replacement = replacement.
Proof.
  induction replacement as [| c r IH]; intros H; [reflexivity |].
  simpl in H. apply orb_false_iff in H as [Hhere Hrest].
  specialize (IH Hrest). simpl.
  destruct (Ascii.eqb c "$") eqn:Hc; [| rewrite IH; reflexivity].
  destruct r as [| d r']; [reflexivity |].
  simpl in Hhere.
  apply orb_false_iff in Hhere as [Hhere H4].
  apply orb_false_iff in Hhere as [Hhere H3].
  apply orb_false_iff in Hhere as [H1 H2].
  rewrite H1, H2, H3, H4, IH. reflexivity.
Qed.

Section PlainReplacement.
Variable re : RegExp.
Variable x : string.
Hypothesis x_plain : hasReplacementPattern x = false.

(** With such a text the part of the subject already passed plays no
    role. *)
Lemma replaceFrom_before (before before' rest : string) (skip : nat) :
  replaceFrom re x before rest skip = replaceFrom re x before' rest skip.
Proof.
  revert before before' skip.
  induction rest as [| c rest IH]; intros before before' skip; [reflexivity |].
  simpl. destruct skip as [| k].
  - destruct (execAt re (String c rest)) as [[| k] |].
    + f_equal. apply IH.
    + rewrite !GetSubstitution_plain by exact x_plain. f_equal. apply IH.
    + f_equal. apply IH.
  - apply IH.
Qed.

Lemma replaceFrom_skip (before t s : string) :
  replaceFrom re x before (t +:+ s) (String.length t)
    = replaceFrom re x EmptyString s 0.
Proof.
  revert before. induction t as [| c t IH]; intros before; simpl.
  - apply replaceFrom_before.
  - apply IH.
Qed.

(** A match at the head of the subject is replaced by [x] and the search
    resumes after it. *)
Lemma replaceFrom_match (before s : string) :
  matchText re <> EmptyString ->
  replaceFrom re x before (matchText re +:+ s) 0
    = x +:+ replaceFrom re x EmptyString s 0.
Proof.
  intros Hne. destruct (matchText re) as [| c p] eqn:Hp; [contradiction |].
  simpl. unfold execAt. rewrite Hp.
  change (String c (p +:+ s)) with (String c p +:+ s).
  rewrite startsWith_append. simpl.
  rewrite GetSubstitution_plain by exact x_plain.
  rewrite replaceFrom_skip. reflexivity.
Qed.

(** A character at which no match starts is copied. *)
Lemma replaceFrom_copy (before : string) (c : ascii) (s : string) :
  startsWith (String c s) (matchText re) = false ->
  replaceFrom re x before (String c s) 0
    = String c (replaceFrom re x EmptyString s 0).
Proof.
  intros Hno. simpl. unfold execAt. rewrite Hno.
  f_equal. apply replaceFrom_before.
Qed.

End PlainReplacement.

(** *** Placeholders of word names *)

Lemma wordChar_not_brace (c : ascii) :
  isWordChar c = true -> Ascii.eqb c "{" = false /\ Ascii.eqb c "}" = false.
Proof.
  destruct c as [[] [] [] [] [] [] [] []]; intros H; try discriminate H;
    split; reflexivity.
Qed.

Lemma word_lacks_braces (s : string) :
  isWord s = true -> lacks "{" s = true /\ lacks "}" s = true.
Proof.
  unfold isWord, lacks. induction s as [| c s IH]; simpl; intros H; [split; reflexivity |].
  apply andb_true_iff in H as [Hc Hs].
  destruct (wordChar_not_brace c Hc) as [Ho Hc'], (IH Hs) as [IHo IHc].
  rewrite Ho, Hc', IHo, IHc. split; reflexivity.
Qed.

Lemma placeholder_unfold (v : string) :
  placeholder v = String "{" (String "{" (v +:+ "}}")).
Proof. reflexivity. Qed.

Lemma newRegExp_literal (v : string) :
  isQuantifier v = false -> matchText (newRegExp v) = placeholder v.
Proof. intros H. unfold newRegExp. rewrite H. reflexivity. Qed.

(** A match of the closing part [v}}] that starts inside [t] and would
    run into a following text that starts with an opening brace lies
    within [t]. *)
Lemma closing_within (v t r : string) :
  lacks "{" v = true ->
  startsWith (t +:+ String "{" r) (v +:+ "}}") = true ->
  startsWith t (v +:+ "}}") = true.
Proof.
  intros Hv. revert t. unfold lacks in Hv.
  induction v as [| d v IH]; intros t H.
  - destruct t as [| c [| c' t]]; simpl in *.
    + discriminate H.
    + rewrite andb_false_r in H. discriminate H.
    + rewrite andb_true_r in *. exact H.
  - simpl in Hv. apply andb_true_iff in Hv as [Hd Hv].
    destruct t as [| c t]; simpl in *.
    + apply negb_true_iff in Hd. rewrite Hd in H. discriminate H.
    + apply andb_true_iff in H as [Hdc H]. rewrite Hdc. simpl.
      apply IH; assumption.
Qed.

(** The same for a whole placeholder: a match that starts inside a
    non-empty [t] does not run into a following pair of opening
    braces. *)
Lemma placeholder_within (v t r : string) :
  lacks "{" v = true ->
  t <> EmptyString ->
  startsWith (t +:+ String "{" (String "{" r)) (placeholder v) = true ->
  startsWith t (placeholder v) = true.
Proof.
  intros Hv Ht H. rewrite placeholder_unfold in *.
  destruct t as [| c0 t]; [contradiction |].
  simpl in H. apply andb_true_iff in H as [H0 H].
  simpl. rewrite H0. simpl.
  destruct t as [| c1 t].
  - exfalso. simpl in H.
    unfold lacks in Hv.
    destruct v as [| d v]; simpl in *.
    + discriminate H.
    + apply andb_true_iff in Hv as [Hd _]. apply negb_true_iff in Hd.
      rewrite Hd in H. discriminate H.
  - simpl in H. apply andb_true_iff in H as [H1 H]. rewrite H1. simpl.
    apply (closing_within v t (String "{" r)); assumption.
Qed.

(** Two closing parts of brace-free names agree only for equal names. *)
Lemma closing_same_name (u v s : string) :
  lacks "}" u = true -> lacks "}" v = true ->
  startsWith (u +:+ "}}" +:+ s) (v +:+ "}}") = true -> u = v.
Proof.
  unfold lacks. revert u. induction v as [| e v IH]; intros u Hu Hv H.
  - destruct u as [| d u]; [reflexivity |].
    simpl in *. apply andb_true_iff in Hu as [Hd _]. apply negb_true_iff in Hd.
    rewrite Ascii.eqb_sym in Hd. rewrite Hd in H. discriminate H.
  - simpl in Hv. apply andb_true_iff in Hv as [He Hv].
    destruct u as [| d u]; simpl in *.
    + apply negb_true_iff in He. rewrite He in H. discriminate H.
    + apply andb_true_iff in Hu as [_ Hu].
      apply andb_true_iff in H as [Hed H].
      apply Ascii.eqb_eq in Hed as ->. f_equal. apply IH; assumption.
Qed.

Lemma lacks_append (c : ascii) (a b : string) :
  lacks c (a +:+ b) = lacks c a && lacks c b.
Proof.
  unfold lacks. induction a as [| d a IH]; simpl; [reflexivity |].
  rewrite IH. apply andb_assoc.
Qed.

Section PlaceholderReplacement.
Variable v : string.
Variable x : string.
Hypothesis v_word : isWord v = true.
Hypothesis v_name : isQuantifier v = false.
Hypothesis x_plain : hasReplacementPattern x = false.

Let re : RegExp := newRegExp v.

Lemma placeholder_pattern : matchText re = placeholder v.
Proof. apply newRegExp_literal. exact v_name. Qed.

Lemma placeholder_pattern_length :
  String.length (matchText re) = S (S (S (S (String.length v)))).
Proof.
  rewrite placeholder_pattern, placeholder_unfold. simpl.
  rewrite length_append. simpl. lia.
Qed.

Lemma replaceFrom_found (before : string) (c : ascii) (rest : string) :
  startsWith (String c rest) (matchText re) = true ->
  replaceFrom re x before (String c rest) 0
    = x +:+ replaceFrom re x EmptyString rest (S (S (S (String.length v)))).
Proof.
  intros Hfound. simpl. unfold execAt. rewrite Hfound, placeholder_pattern_length.
  rewrite GetSubstitution_plain by exact x_plain. f_equal.
  apply replaceFrom_before. exact x_plain.
Qed.

(** Splitting the subject in front of a pair of opening braces: no match
    of the placeholder reaches across. *)
Lemma replaceFrom_split (a r before : string) (k : nat) :
  k <= String.length a ->
  replaceFrom re x before (a +:+ String "{" (String "{" r)) k
    = replaceFrom re x EmptyString a k
      +:+ replaceFrom re x EmptyString (String "{" (String "{" r)) 0.
Proof.
  revert before k. induction a as [| c a IH]; intros before k Hk.
  - simpl in Hk. replace k with 0 by lia.
    change (replaceFrom re x before (String "{" (String "{" r)) 0
            = replaceFrom re x EmptyString (String "{" (String "{" r)) 0).
    apply replaceFrom_before. exact x_plain.
  - destruct k as [| k].
    + destruct (startsWith (String c a +:+ String "{" (String "{" r)) (matchText re))
        eqn:Hfound.
      * assert (Hin : startsWith (String c a) (matchText re) = true).
        { rewrite placeholder_pattern in *.
          apply (placeholder_within v (String c a) r);
            [apply word_lacks_braces; exact v_word | discriminate | exact Hfound]. }
        change (String c a +:+ String "{" (String "{" r))
          with (String c (a +:+ String "{" (String "{" r))) in *.
        rewrite (replaceFrom_found _ _ _ Hfound), (replaceFrom_found _ _ _ Hin).
        rewrite IH.
        -- symmetry. apply append_assoc.
        -- apply startsWith_length in Hin.
           rewrite placeholder_pattern_length in Hin. simpl in Hin. lia.
      * assert (Hout : startsWith (String c a) (matchText re) = false).
        { destruct (startsWith (String c a) (matchText re)) eqn:E; [| reflexivity].
          apply (startsWith_append_l _ (String "{" (String "{" r))) in E.
          rewrite E in Hfound. discriminate Hfound. }
        change (String c a +:+ String "{" (String "{" r))
          with (String c (a +:+ String "{" (String "{" r))) in *.
        rewrite (replaceFrom_copy re x x_plain _ _ _ Hfound).
        rewrite (replaceFrom_copy re x x_plain _ _ _ Hout).
        rewrite IH by lia. reflexivity.
    + simpl. rewrite IH by (simpl in Hk; lia).
      f_equal. apply replaceFrom_before. exact x_plain.
Qed.

(** Characters other than the opening brace are copied. *)
Lemma replaceFrom_lacking (t s before : string) :
  lacks "{" t = true ->
  replaceFrom re x before (t +:+ s) 0 = t +:+ replaceFrom re x EmptyString s 0.
Proof.
  unfold lacks. revert before. induction t as [| c t IH]; intros before Ht.
  - change (replaceFrom re x before s 0 = replaceFrom re x EmptyString s 0).
    apply replaceFrom_before. exact x_plain.
  - simpl in Ht. apply andb_true_iff in Ht as [Hc Ht]. apply negb_true_iff in Hc.
    change (String c t +:+ s) with (String c (t +:+ s)).
    rewrite (replaceFrom_copy re x x_plain).
    + rewrite IH by exact Ht. reflexivity.
    + rewrite placeholder_pattern, placeholder_unfold. simpl.
      rewrite Ascii.eqb_sym, Hc. reflexivity.
Qed.

(** Every occurrence of the placeholder of [v] is replaced by [x]. *)
Lemma replace_occurrence (a b : string) :
  replace re x (a +:+ placeholder v +:+ b)
    = replace re x a +:+ x +:+ replace re x b.
Proof.
  unfold replace. rewrite placeholder_unfold at 1.
  change (String "{" (String "{" (v +:+ "}}")) +:+ b)
    with (String "{" (String "{" ((v +:+ "}}") +:+ b))).
  rewrite replaceFrom_split by lia. f_equal.
  change (String "{" (String "{" ((v +:+ "}}") +:+ b)))
    with (String "{" (String "{" (v +:+ "}}")) +:+ b).
  rewrite <- placeholder_unfold, <- placeholder_pattern.
  apply replaceFrom_match; [exact x_plain |].
  rewrite placeholder_pattern. discriminate.
Qed.

(** The placeholder of another word name is left as it is. *)
Lemma replace_other_placeholder (u a b : string) :
  isWord u = true -> u <> v ->
  replace re x (a +:+ placeholder u +:+ b)
    = replace re x a +:+ placeholder u +:+ replace re x b.
Proof.
  intros Hu Huv. unfold replace.
  destruct (word_lacks_braces u Hu) as [Hu_open Hu_close].
  destruct (word_lacks_braces v v_word) as [Hv_open Hv_close].
  rewrite placeholder_unfold.
  change (String "{" (String "{" (u +:+ "}}")) +:+ b)
    with (String "{" (String "{" ((u +:+ "}}") +:+ b))).
  rewrite replaceFrom_split by lia. f_equal.
  rewrite (replaceFrom_copy re x x_plain).
  2:{ rewrite placeholder_pattern, placeholder_unfold. simpl.
      destruct (startsWith ((u +:+ "}}") +:+ b) (v +:+ "}}")) eqn:E; [| reflexivity].
      rewrite append_assoc in E.
      apply closing_same_name in E; [contradiction | assumption | assumption]. }
  rewrite (replaceFrom_copy re x x_plain).
  2:{ rewrite placeholder_pattern, placeholder_unfold. simpl.
      destruct u as [| d u]; [reflexivity |].
      unfold lacks in Hu_open. simpl in Hu_open.
      apply andb_true_iff in Hu_open as [Hd _]. apply negb_true_iff in Hd.
      simpl. rewrite Ascii.eqb_sym, Hd. reflexivity. }
  rewrite replaceFrom_lacking.
  - reflexivity.
  - rewrite lacks_append, Hu_open. reflexivity.
Qed.

End PlaceholderReplacement.
(** ** The template store and the transcript *)

(** C3. Whatever templates are registered, rendering an id that is not
    registered throws the template-not-found error, for every context; it
    returns no string. *)
Theorem renderTemplate_unknown_id
    (regExpReplace : string -> ReplaceValue -> string -> Result string)
    (templates : gmap string PromptTemplate.t) (templateId : string) :
  templates !! templateId = None ->
  forall context : PromptContext.t,
    renderTemplate regExpReplace templates templateId context
      = Thrown (Error ("Template not found: " +:+ templateId))
    /\ forall text,
         renderTemplate regExpReplace templates templateId context <> Returned text.
Proof.
  intros Habsent context. unfold renderTemplate, getTemplate.
  rewrite Habsent. split; [reflexivity | discriminate].
Qed.

Lemma renderTemplate_unknown_id_witness :
  initializeDefaultTemplates !! "weekly_report" = None
  /\ forall context : PromptContext.t,
       renderTemplate rejecting initializeDefaultTemplates "weekly_report" context
         = Thrown (Error "Template not found: weekly_report")
       /\ forall text,
            renderTemplate rejecting initializeDefaultTemplates "weekly_report" context
              <> Returned text.
Proof.
  split; [vm_compute; reflexivity |].
  apply (renderTemplate_unknown_id rejecting initializeDefaultTemplates "weekly_report").
  vm_compute; reflexivity.
Defined.

Lemma slice_last_app {A : Type} (n : nat) (earlier recent : list A) :
  length recent = n -> slice_last n (earlier ++ recent) = recent.
Proof.
  intros Hn. unfold slice_last. rewrite length_app, Hn.
  replace (length earlier + n - n) with (length earlier) by lia.
  apply drop_app_length.
Qed.

Lemma slice_last_short {A : Type} (n : nat) (l : list A) :
  length l <= n -> slice_last n l = l.
Proof.
  intros Hn. unfold slice_last.
  replace (length l - n) with 0 by lia. reflexivity.
Qed.

Lemma slice_last_length {A : Type} (n : nat) (l : list A) :
  length (slice_last n l) = Nat.min n (length l).
Proof. unfold slice_last. rewrite length_drop. lia. Qed.

(** The window is a suffix of the history: same messages, same order. *)
Lemma slice_last_suffix {A : Type} (n : nat) (l : list A) :
  take (length l - n) l ++ slice_last n l = l.
Proof. unfold slice_last. apply take_drop. Qed.

Lemma variableValue_conversationHistory (context : PromptContext.t) :
  variableValue context "conversationHistory"
    = Text (formatConversationHistory
              (match PromptContext.conversationHistory context with
               | Some messages => messages
               | None => []
               end)).
Proof. reflexivity. Qed.

(** C2. The value of the conversationHistory variable: the fixed sentence
    for an absent or empty history; otherwise one line per message of the
    last five, in their order, "Student: ..." for the user role and
    "Tutor: ..." for the other roles, joined by line feeds. *)
Theorem conversationHistory_transcript (context : PromptContext.t) :
  (PromptContext.conversationHistory context = None
   \/ PromptContext.conversationHistory context = Some [] ->
   variableValue context "conversationHistory" = Text "No previous conversation.")
  /\ (forall earlier recent : list AIMessage,
        PromptContext.conversationHistory context = Some (earlier ++ recent) ->
        length recent = 5 ->
        variableValue context "conversationHistory"
          = Text (join nl (map formatMessage recent)))
  /\ (forall messages : list AIMessage,
        PromptContext.conversationHistory context = Some messages ->
        messages <> [] -> length messages <= 5 ->
        variableValue context "conversationHistory"
          = Text (join nl (map formatMessage messages)))
  /\ (forall msg : AIMessage,
        formatMessage msg
          = match role msg with
            | Role.user => "Student: " +:+ content msg
            | Role.system | Role.assistant => "Tutor: " +:+ content msg
            end).
Proof.
  rewrite variableValue_conversationHistory.
  split; [| split; [| split]].
  - intros [-> | ->]; reflexivity.
  - intros earlier recent -> Hlen.
    unfold formatConversationHistory.
    rewrite slice_last_app by exact Hlen.
    destruct (earlier ++ recent) eqn:Happ; [| reflexivity].
    apply app_eq_nil in Happ as [_ ->]. discriminate Hlen.
  - intros messages -> Hne Hlen.
    unfold formatConversationHistory.
    rewrite slice_last_short by exact Hlen.
    destruct messages; [contradiction | reflexivity].
  - intros [[] text stamp]; reflexivity.
Qed.

Lemma conversationHistory_transcript_witness :
  variableValue emptyContext "conversationHistory" = Text "No previous conversation."
  /\ variableValue (historyContext sevenMessages) "conversationHistory"
       = Text (lines [ "Student: three"; "Tutor: four"; "Student: five";
                       "Tutor: six"; "Student: seven" ]).
Proof.
  split.
  - apply (conversationHistory_transcript emptyContext). left; reflexivity.
  - apply (proj1 (proj2 (conversationHistory_transcript (historyContext sevenMessages)))
             (take 2 sevenMessages) (drop 2 sevenMessages)); reflexivity.
Defined.

(** ** Rendering *)

(** The switch of [renderTemplate], case by case: the six well-known
    names come first, every other name is read from [additionalContext],
    and what is not found there is the empty string. *)
Lemma variableValue_precedence (context : PromptContext.t) :
  variableValue context "language"
    = Text (orElse (PromptContext.language context) "English")
  /\ variableValue context "level"
     = Text (orElse (PromptContext.level context) "intermediate")
  /\ variableValue context "userMessage"
     = Text (orElse (PromptContext.userMessage context) EmptyString)
  /\ variableValue context "conversationHistory"
     = Text (formatConversationHistory
               (match PromptContext.conversationHistory context with
                | Some messages => messages
                | None => []
                end))
  /\ variableValue context "text"
     = Text (orElse (PromptContext.userMessage context) EmptyString)
  /\ variableValue context "topics"
     = valueOr (additional context "topics") "general conversation"
  /\ (forall variable : string,
        variable ∉ ["language"; "level"; "userMessage"; "conversationHistory";
                    "text"; "topics"] ->
        variableValue context variable
          = valueOr (additional context variable) EmptyString).
Proof.
  repeat (split; [reflexivity |]).
  intros variable Hother. unfold variableValue.
  repeat match goal with
         | |- context [String.eqb variable ?name] =>
             destruct (String.eqb_spec variable name) as [-> | _];
               [exfalso; apply Hother; set_solver |]
         end.
  reflexivity.
Qed.

Section Passes.
Variable regExpReplace : string -> ReplaceValue -> string -> Result string.

(** A registered template is rendered by the loop over its variables. *)
Lemma renderTemplate_registered (templates : gmap string PromptTemplate.t)
    (templateId : string) (template : PromptTemplate.t) (context : PromptContext.t) :
  templates !! templateId = Some template ->
  renderTemplate regExpReplace templates templateId context
    = render regExpReplace template context.
Proof. intros Ht. unfold renderTemplate, getTemplate. rewrite Ht. reflexivity. Qed.

(** The pass for a name of word characters whose value is a string is a
    replacement by that string. *)
Lemma substitute_text (context : PromptContext.t) (text v x : string) :
  isWord v = true ->
  variableValue context v = Text x ->
  substitute regExpReplace context text v = Returned (replace (newRegExp v) x text).
Proof. intros Hv Hx. unfold substitute. rewrite Hv, Hx. reflexivity. Qed.

Lemma plainValue_text (value : ReplaceValue) :
  plainValue value = true ->
  exists x : string, value = Text x /\ hasReplacementPattern x = false.
Proof.
  destruct value as [x | member]; [| discriminate].
  intros H. exists x. split; [reflexivity | apply negb_true_iff; exact H].
Qed.

(** The loop over two lists of variables, one after the other. *)
Lemma renderFrom_app (context : PromptContext.t) (text : string)
    (earlier later : list string) :
  renderFrom regExpReplace context text (earlier ++ later)
    = match renderFrom regExpReplace context text earlier with
      | Returned reached => renderFrom regExpReplace context reached later
      | Thrown e => Thrown e
      end.
Proof.
  revert text. induction earlier as [| v earlier IH]; intros text; [reflexivity |].
  simpl. destruct (substitute regExpReplace context text v) as [next | e];
    [apply IH | reflexivity].
Qed.

(** Outside the patterns of the replacement text the substitution does
    what its name says: for a name of word characters that is not a
    number and a string value without [$] pattern, every occurrence of the
    placeholder is replaced by the value, not only the first. *)
Lemma substitute_every_occurrence (context : PromptContext.t) (v x a b : string) :
  isWord v = true ->
  isQuantifier v = false ->
  variableValue context v = Text x ->
  hasReplacementPattern x = false ->
  substitute regExpReplace context (a +:+ placeholder v +:+ b) v
    = Returned (replace (newRegExp v) x a +:+ x +:+ replace (newRegExp v) x b).
Proof.
  intros Hw Hv Hvalue Hx. rewrite (substitute_text _ _ _ x) by assumption.
  f_equal. apply replace_occurrence; assumption.
Qed.

(** A placeholder that no later pass is about survives the later
    passes. *)
Lemma placeholder_survives (context : PromptContext.t) (u : string)
    (later : list string) (text : string) :
  isWord u = true ->
  Forall (fun w : string =>
            w <> u
            /\ isWord w = true
            /\ isQuantifier w = false
            /\ plainValue (variableValue context w) = true) later ->
  includes text (placeholder u) = true ->
  exists output : string,
    renderFrom regExpReplace context text later = Returned output
    /\ includes output (placeholder u) = true.
Proof.
  intros Hu Hlater. revert text.
  induction Hlater as [| w later (Hwu & Hword & Hw & Hx) _ IH]; intros text Hin;
    [exists text; split; [reflexivity | exact Hin] |].
  destruct (plainValue_text _ Hx) as (x & Hvalue & Hplain).
  simpl. rewrite (substitute_text _ _ _ x) by assumption.
  apply IH.
  destruct (includes_split _ _ Hin) as (a & b & ->).
  rewrite replace_other_placeholder; try assumption.
  - apply includes_occurrence.
  - intros E. apply Hwu. symmetry. exact E.
Qed.

End Passes.

(** The constructor registers the six built-in templates under their ids,
    and each declares names of word characters, none of them a number. *)
Lemma defaultTemplates_names :
  Forall (fun template : PromptTemplate.t =>
            initializeDefaultTemplates !! PromptTemplate.id template = Some template
            /\ Forall (fun w : string => isWord w = true /\ isQuantifier w = false)
                 (PromptTemplate.variables template))
    defaultTemplates.
Proof.
  repeat (apply Forall_cons; split;
          [split; [vm_compute; reflexivity | repeat constructor] |]).
  constructor.
Qed.

(** C1, at a failing input. A request for conversation starters whose
    topics are the two characters [$&]: the variable resolves to that
    text, yet the rendered prompt still reads [{{topics}}], because
    [String.prototype.replace] takes [$&] in the replacement text for the
    matched placeholder. *)
Theorem renderTemplate_dollar_topics
    (regExpReplace : string -> ReplaceValue -> string -> Result string) :
  variableValue dollarTopics "topics" = Text "$&"
  /\ renderTemplate regExpReplace initializeDefaultTemplates "conversation_starter"
       dollarTopics
     = Returned
         (lines
            [ "Generate engaging conversation starters for a intermediate level English learner.";
              EmptyString;
              "Topic interests: {{topics}}";
              EmptyString;
              "Create 5 conversation starters that are:";
              "- Appropriate for intermediate level";
              "- Engaging and interesting";
              "- Encourage extended dialogue";
              "- Cover different conversation skills (asking questions, expressing opinions, describing experiences)";
              EmptyString;
              "Format each starter with a brief explanation of what conversation skills it practices." ]).
Proof. split; vm_compute; reflexivity. Qed.

(** The same defect for a name made of digits: the pattern built from
    [{{1}}] is a quantified brace, so the placeholder stays and the text
    [{}] goes. *)
Lemma render_numbered_name
    (regExpReplace : string -> ReplaceValue -> string -> Result string) :
  render regExpReplace numbered emptyContext = Returned "First: {{1}} ".
Proof. vm_compute. reflexivity. Qed.

(** C10, as stated, fails for a template that declares a variable twice:
    [language] has been processed when the value of [topics] brings in
    [{{language}}], and the second pass for [language] replaces it. *)
Lemma declared_twice_is_replaced :
  variableValue languageTopic "topics" = Text "{{language}}"
  /\ render rejecting twiceDeclared languageTopic = Returned "Talk about French."
  /\ includes "Talk about French." "{{language}}" = false.
Proof. repeat split; vm_compute; reflexivity. Qed.

Lemma includes_middle (a x b p : string) :
  includes x p = true -> includes (a +:+ x +:+ b) p = true.
Proof.
  intros H. destruct (includes_split _ _ H) as (c & d & ->).
  rewrite !append_assoc, <- (append_assoc a c). apply includes_occurrence.
Qed.

(** C10, amended. The variables are substituted one after the other, in
    the order of the array, each over the text left by the passes before
    it. When [v] and the variables declared after it have names of word
    characters that are not numbers and string values without [$]
    patterns: an occurrence of [{{v}}] that is in the text when the turn
    of [v] comes, wherever it came from, is replaced by the value of [v];
    and when that value brings in the placeholder of a variable that is
    not declared after [v], the placeholder is still in the output. *)
Theorem sequential_substitution
    (regExpReplace : string -> ReplaceValue -> string -> Result string)
    (template : PromptTemplate.t) (context : PromptContext.t)
    (earlier later : list string) (v x a b : string) :
  PromptTemplate.variables template = earlier ++ v :: later ->
  Forall (fun w : string =>
            isWord w = true
            /\ isQuantifier w = false
            /\ plainValue (variableValue context w) = true)
    (v :: later) ->
  variableValue context v = Text x ->
  renderFrom regExpReplace context (PromptTemplate.template template) earlier
    = Returned (a +:+ placeholder v +:+ b) ->
  substitute regExpReplace context (a +:+ placeholder v +:+ b) v
    = Returned (replace (newRegExp v) x a +:+ x +:+ replace (newRegExp v) x b)
  /\ render regExpReplace template context
     = renderFrom regExpReplace context
         (replace (newRegExp v) x a +:+ x +:+ replace (newRegExp v) x b) later
  /\ forall u : string,
       isWord u = true ->
       Forall (fun w : string => w <> u) later ->
       includes x (placeholder u) = true ->
       exists output : string,
         render regExpReplace template context = Returned output
         /\ includes output (placeholder u) = true.
Proof.
  intros Hvars Hall Hvalue Hreached.
  apply Forall_cons in Hall as [(Hword & Hv & Hx) Hlater].
  rewrite Hvalue in Hx. apply negb_true_iff in Hx.
  assert (Hpass := substitute_every_occurrence regExpReplace context v x a b
                     Hword Hv Hvalue Hx).
  assert (Hrender :
    render regExpReplace template context
      = renderFrom regExpReplace context
          (replace (newRegExp v) x a +:+ x +:+ replace (newRegExp v) x b) later).
  { unfold render. rewrite Hvars, renderFrom_app, Hreached.
    cbn [renderFrom]. rewrite Hpass. reflexivity. }
  split; [exact Hpass |]. split; [exact Hrender |].
  intros u Hu Hdistinct Hbrings. rewrite Hrender.
  apply placeholder_survives; [exact Hu | | apply includes_middle; exact Hbrings].
  apply Forall_forall. intros w Hw.
  rewrite Forall_forall in Hlater, Hdistinct.
  destruct (Hlater w Hw) as (Hww & Hq & Hp). auto.
Qed.

Lemma sequential_substitution_witness :
  let earlier := take 3 (PromptTemplate.variables conversation_tutor) in
  let asked := tutoring "What does {{userMessage}} mean?" "Hello" in
  let reached := returned (renderFrom rejecting asked conversation_tutor_template earlier) in
  let answered := tutoring "Hello" "I am at the {{level}} level" in
  variableValue asked "userMessage" = Text "Hello"
  /\ includes reached "Student: What does {{userMessage}} mean?" = true
  /\ render rejecting conversation_tutor asked
     = Returned
         (replace (newRegExp "userMessage") "Hello" (upTo reached "{{userMessage}}")
          +:+ "Hello"
          +:+ replace (newRegExp "userMessage") "Hello" (after reached "{{userMessage}}"))
  /\ includes (returned (render rejecting conversation_tutor asked))
       "Student: What does Hello mean?" = true
  /\ exists output : string,
       render rejecting conversation_tutor answered = Returned output
       /\ includes output "{{level}}" = true.
Proof.
  intros earlier asked reached answered.
  split; [reflexivity |]. split; [vm_compute; reflexivity |]. split; [| split].
  - apply (sequential_substitution rejecting conversation_tutor asked earlier []
             "userMessage" "Hello"
             (upTo reached "{{userMessage}}") (after reached "{{userMessage}}")).
    + reflexivity.
    + repeat (apply Forall_cons; split; [repeat split; vm_compute; reflexivity |]).
      constructor.
    + reflexivity.
    + vm_compute. reflexivity.
  - vm_compute. reflexivity.
  - pose (reached' :=
            returned (renderFrom rejecting answered conversation_tutor_template earlier)).
    refine (proj2 (proj2 (sequential_substitution rejecting conversation_tutor answered
                            earlier [] "userMessage" "I am at the {{level}} level"
                            (upTo reached' "{{userMessage}}")
                            (after reached' "{{userMessage}}") _ _ _ _))
              "level" _ _ _).
    + reflexivity.
    + repeat (apply Forall_cons; split; [repeat split; vm_compute; reflexivity |]).
      constructor.
    + reflexivity.
    + vm_compute. reflexivity.
    + reflexivity.
    + constructor.
    + vm_compute. reflexivity.
Defined.

(** ** The orchestrator *)

Section Orchestrator.
Variable regExpReplace : string -> ReplaceValue -> string -> Result string.
Variable openaiService : list AIMessage -> option Options.t -> Result Response.t.
Variable templates : gmap string PromptTemplate.t.
Variable defaultProvider : string.

(** The outcome of the rendering decides how an operation starts. *)
Ltac rendering Hr := unfold bind, lift; rewrite Hr; reflexivity.

Lemma tryCatch_rethrow {A : Type} (body : Async A) (calls : list AdapterCall) :
  tryCatch body (fun error => throw error) calls = body calls.
Proof.
  unfold tryCatch, throw. destruct (body calls) as [[a | e] calls']; reflexivity.
Qed.

Lemma chat_supported (messages : list AIMessage) (options : option Options.t)
    (calls : list AdapterCall) :
  selectProvider defaultProvider options = AIProvider.OPENAI ->
  generateChatResponse openaiService defaultProvider messages options calls
    = (normalized "Failed to generate AI response" (openaiService messages options),
       calls ++ [{| sentMessages := messages; sentOptions := options |}]).
Proof.
  intros Hp. unfold generateChatResponse, tryCatch, generateCompletion.
  rewrite Hp. simpl.
  destruct (openaiService messages options) as [r | e]; [reflexivity |].
  simpl. destruct (isHttpException e); reflexivity.
Qed.

Lemma chat_unsupported (messages : list AIMessage) (options : option Options.t)
    (calls : list AdapterCall) :
  selectProvider defaultProvider options <> AIProvider.OPENAI ->
  generateChatResponse openaiService defaultProvider messages options calls
    = (Thrown (HttpException
                 ("Unsupported AI provider: " +:+ selectProvider defaultProvider options)
                 BAD_REQUEST),
       calls).
Proof.
  intros Hp. unfold generateChatResponse, tryCatch.
  apply String.eqb_neq in Hp. rewrite Hp. reflexivity.
Qed.

Lemma selectProvider_withTemperature (options : option Options.t) (t : number) :
  selectProvider defaultProvider (Some (withTemperature options t))
    = selectProvider defaultProvider options.
Proof. destruct options; reflexivity. Qed.

Lemma tutor_rendered (prompt message : string)
    (history : list AIMessage) (context : ConversationContext.t)
    (options : option Options.t) (calls : list AdapterCall) :
  renderTemplate regExpReplace templates "conversation_tutor"
    (conversationPromptContext message history context) = Returned prompt ->
  generateTutorResponse regExpReplace openaiService templates defaultProvider
      message history context options calls
    = generateChatResponse openaiService defaultProvider
        ([systemMessage prompt] ++ slice_last 10 history ++ [userMessage message])
        options calls.
Proof.
  intros Hr. unfold generateTutorResponse. rewrite tryCatch_rethrow.
  rendering Hr.
Qed.

Lemma tutor_thrown (error : Exception) (message : string)
    (history : list AIMessage) (context : ConversationContext.t)
    (options : option Options.t) (calls : list AdapterCall) :
  renderTemplate regExpReplace templates "conversation_tutor"
    (conversationPromptContext message history context) = Thrown error ->
  generateTutorResponse regExpReplace openaiService templates defaultProvider
      message history context options calls
    = (Thrown error, calls).
Proof.
  intros Hr. unfold generateTutorResponse. rewrite tryCatch_rethrow.
  rendering Hr.
Qed.

Lemma partner_rendered (prompt message : string)
    (history : list AIMessage) (context : ConversationContext.t)
    (options : option Options.t) (calls : list AdapterCall) :
  renderTemplate regExpReplace templates "conversation_friend"
    (conversationPromptContext message history context) = Returned prompt ->
  generateConversationPartnerResponse regExpReplace openaiService templates
      defaultProvider message history context options calls
    = generateChatResponse openaiService defaultProvider
        ([systemMessage prompt] ++ slice_last 8 history ++ [userMessage message])
        (Some (withTemperature options 0.8%Q)) calls.
Proof.
  intros Hr. unfold generateConversationPartnerResponse. rewrite tryCatch_rethrow.
  rendering Hr.
Qed.

Lemma partner_thrown (error : Exception) (message : string)
    (history : list AIMessage) (context : ConversationContext.t)
    (options : option Options.t) (calls : list AdapterCall) :
  renderTemplate regExpReplace templates "conversation_friend"
    (conversationPromptContext message history context) = Thrown error ->
  generateConversationPartnerResponse regExpReplace openaiService templates
      defaultProvider message history context options calls
    = (Thrown error, calls).
Proof.
  intros Hr. unfold generateConversationPartnerResponse. rewrite tryCatch_rethrow.
  rendering Hr.
Qed.

Lemma starters_rendered (prompt : string)
    (context : StarterContext.t) (options : option Options.t)
    (calls : list AdapterCall) :
  renderTemplate regExpReplace templates "conversation_starter"
    (starterPromptContext context) = Returned prompt ->
  generateConversationStarters regExpReplace openaiService templates defaultProvider
      context options calls
    = generateChatResponse openaiService defaultProvider
        [userMessage prompt] (Some (withTemperature options 0.8%Q)) calls.
Proof.
  intros Hr. unfold generateConversationStarters. rewrite tryCatch_rethrow.
  rendering Hr.
Qed.

Lemma starters_thrown (error : Exception)
    (context : StarterContext.t) (options : option Options.t)
    (calls : list AdapterCall) :
  renderTemplate regExpReplace templates "conversation_starter"
    (starterPromptContext context) = Thrown error ->
  generateConversationStarters regExpReplace openaiService templates defaultProvider
      context options calls
    = (Thrown error, calls).
Proof.
  intros Hr. unfold generateConversationStarters. rewrite tryCatch_rethrow.
  rendering Hr.
Qed.

Lemma analyze_supported (prompt text : string)
    (analysisType : AnalysisType.t) (context : AnalysisContext.t)
    (options : option Options.t) (calls : list AdapterCall) :
  renderTemplate regExpReplace templates (analysisTemplateId analysisType)
    (analysisPromptContext text context) = Returned prompt ->
  selectProvider defaultProvider options = AIProvider.OPENAI ->
  let messages := [userMessage prompt] in
  let forwarded := Some (withTemperature options 0.3%Q) in
  analyzeText regExpReplace openaiService templates defaultProvider
      text analysisType context options calls
    = (normalized "Failed to analyze text" (openaiService messages forwarded),
       calls ++ [{| sentMessages := messages; sentOptions := forwarded |}]).
Proof.
  intros Hr Hp messages forwarded.
  unfold analyzeText, tryCatch, bind, lift.
  rewrite Hr, Hp. simpl. unfold generateCompletion.
  fold messages. fold forwarded.
  destruct (openaiService messages forwarded) as [r | e]; [reflexivity |].
  simpl. destruct (isHttpException e); reflexivity.
Qed.

Lemma analyze_unsupported (prompt text : string)
    (analysisType : AnalysisType.t) (context : AnalysisContext.t)
    (options : option Options.t) (calls : list AdapterCall) :
  renderTemplate regExpReplace templates (analysisTemplateId analysisType)
    (analysisPromptContext text context) = Returned prompt ->
  selectProvider defaultProvider options <> AIProvider.OPENAI ->
  analyzeText regExpReplace openaiService templates defaultProvider
      text analysisType context options calls
    = (Thrown (HttpException
                 ("Unsupported AI provider: " +:+ selectProvider defaultProvider options)
                 BAD_REQUEST),
       calls).
Proof.
  intros Hr Hp.
  unfold analyzeText, tryCatch, bind, lift.
  rewrite Hr. apply String.eqb_neq in Hp. rewrite Hp. reflexivity.
Qed.

Lemma analyze_thrown (error : Exception) (text : string)
    (analysisType : AnalysisType.t) (context : AnalysisContext.t)
    (options : option Options.t) (calls : list AdapterCall) :
  renderTemplate regExpReplace templates (analysisTemplateId analysisType)
    (analysisPromptContext text context) = Thrown error ->
  analyzeText regExpReplace openaiService templates defaultProvider
      text analysisType context options calls
    = (normalized "Failed to analyze text" (Thrown error), calls).
Proof.
  intros Hr.
  unfold analyzeText, tryCatch, bind, lift.
  rewrite Hr. simpl. destruct (isHttpException error); reflexivity.
Qed.

End Orchestrator.

(** C7. When the conversation_tutor prompt renders and the openai provider
    is selected, the tutor operation calls the adapter once, with this
    list and the caller's options: first one message of role [system]
    whose content is the rendered prompt, then the last ten messages of
    the history at most, in their order, then one message of role [user]
    whose content is the new user message; [min 10 (length history) + 2]
    messages. *)
Theorem generateTutorResponse_message_list
    (regExpReplace : string -> ReplaceValue -> string -> Result string)
    (openaiService : list AIMessage -> option Options.t -> Result Response.t)
    (templates : gmap string PromptTemplate.t) (defaultProvider : string)
    (prompt message : string) (history : list AIMessage)
    (context : ConversationContext.t) (options : option Options.t)
    (calls : list AdapterCall) :
  renderTemplate regExpReplace templates "conversation_tutor"
    (conversationPromptContext message history context) = Returned prompt ->
  selectProvider defaultProvider options = AIProvider.OPENAI ->
  let messages :=
    {| role := Role.system; content := prompt; timestamp := None |}
      :: slice_last 10 history
      ++ [{| role := Role.user; content := message; timestamp := None |}] in
  snd (generateTutorResponse regExpReplace openaiService templates defaultProvider
         message history context options calls)
    = calls ++ [{| sentMessages := messages; sentOptions := options |}]
  /\ fst (generateTutorResponse regExpReplace openaiService templates defaultProvider
            message history context options calls)
     = normalized "Failed to generate AI response" (openaiService messages options)
  /\ take (length history - 10) history ++ slice_last 10 history = history
  /\ length (slice_last 10 history) = Nat.min 10 (length history)
  /\ length messages = Nat.min 10 (length history) + 2.
Proof.
  intros Hr Hp messages.
  rewrite (tutor_rendered _ _ _ _ prompt) by exact Hr.
  rewrite chat_supported by exact Hp.
  split; [reflexivity |]. split; [reflexivity |].
  split; [apply slice_last_suffix |]. split; [apply slice_last_length |].
  unfold messages. simpl. rewrite length_app, slice_last_length. simpl. lia.
Qed.

Lemma generateTutorResponse_message_list_witness :
  let prompt :=
    returned (render rejecting conversation_tutor
                (conversationPromptContext "Hello" twelveMessages noConversationContext)) in
  renderTemplate rejecting initializeDefaultTemplates "conversation_tutor"
    (conversationPromptContext "Hello" twelveMessages noConversationContext)
    = Returned prompt
  /\ includes prompt ("Student's message: " +:+ dq +:+ "Hello" +:+ dq) = true
  /\ selectProvider AIProvider.OPENAI None = AIProvider.OPENAI
  /\ snd (generateTutorResponse rejecting answering initializeDefaultTemplates
            AIProvider.OPENAI "Hello" twelveMessages noConversationContext None [])
     = [{| sentMessages :=
             {| role := Role.system; content := prompt; timestamp := None |}
               :: drop 2 twelveMessages
               ++ [{| role := Role.user; content := "Hello"; timestamp := None |}];
           sentOptions := None |}].
Proof.
  intros prompt.
  split; [vm_compute; reflexivity |].
  split; [vm_compute; reflexivity |].
  split; [reflexivity |].
  refine (proj1 (generateTutorResponse_message_list rejecting answering
            initializeDefaultTemplates AIProvider.OPENAI prompt "Hello"
            twelveMessages noConversationContext None [] _ _));
    vm_compute; reflexivity.
Defined.

(** C5, as stated, fails: a caller who set the temperature to 0.2 sees the
    conversation-partner operation call the adapter with 0.8. *)
Lemma partner_replaces_caller_temperature :
  Options.temperature (callerOptions 0.2%Q) = Some 0.2%Q
  /\ map sentTemperature
       (snd (generateConversationPartnerResponse rejecting answering
               initializeDefaultTemplates AIProvider.OPENAI "Hello" []
               noConversationContext (Some (callerOptions 0.2%Q)) []))
     = [Some 0.8%Q]
  /\ Some 0.8%Q <> Some 0.2%Q.
Proof.
  split; [reflexivity |]. split; [vm_compute; reflexivity | discriminate].
Qed.

(** C5, amended. When the conversation_friend prompt renders and the
    openai provider is selected, the conversation-partner operation sends
    the adapter the rendered prompt as a system message, the last eight
    messages of the history at most, in their order, and the new user
    message; the options it forwards are the caller's with the
    temperature set to 0.8, whether or not the caller had set one. *)
Theorem generateConversationPartnerResponse_call
    (regExpReplace : string -> ReplaceValue -> string -> Result string)
    (openaiService : list AIMessage -> option Options.t -> Result Response.t)
    (templates : gmap string PromptTemplate.t) (defaultProvider : string)
    (prompt message : string) (history : list AIMessage)
    (context : ConversationContext.t) (options : option Options.t)
    (calls : list AdapterCall) :
  renderTemplate regExpReplace templates "conversation_friend"
    (conversationPromptContext message history context) = Returned prompt ->
  selectProvider defaultProvider options = AIProvider.OPENAI ->
  let messages :=
    {| role := Role.system; content := prompt; timestamp := None |}
      :: slice_last 8 history
      ++ [{| role := Role.user; content := message; timestamp := None |}] in
  let forwarded := withTemperature options 0.8%Q in
  snd (generateConversationPartnerResponse regExpReplace openaiService templates
         defaultProvider message history context options calls)
    = calls ++ [{| sentMessages := messages; sentOptions := Some forwarded |}]
  /\ Options.temperature forwarded = Some 0.8%Q
  /\ take (length history - 8) history ++ slice_last 8 history = history
  /\ length (slice_last 8 history) = Nat.min 8 (length history).
Proof.
  intros Hr Hp messages forwarded.
  split; [| split; [| split]].
  - rewrite (partner_rendered _ _ _ _ prompt) by exact Hr.
    rewrite chat_supported by (rewrite selectProvider_withTemperature; exact Hp).
    reflexivity.
  - unfold forwarded. destruct options; reflexivity.
  - apply slice_last_suffix.
  - apply slice_last_length.
Qed.

Lemma generateConversationPartnerResponse_call_witness :
  let prompt :=
    returned (render rejecting conversation_friend
                (conversationPromptContext "Hello" twelveMessages noConversationContext)) in
  renderTemplate rejecting initializeDefaultTemplates "conversation_friend"
    (conversationPromptContext "Hello" twelveMessages noConversationContext)
    = Returned prompt
  /\ selectProvider AIProvider.OPENAI (Some (callerOptions 0.2%Q)) = AIProvider.OPENAI
  /\ snd (generateConversationPartnerResponse rejecting answering
            initializeDefaultTemplates AIProvider.OPENAI "Hello" twelveMessages
            noConversationContext (Some (callerOptions 0.2%Q)) [])
     = [{| sentMessages :=
             {| role := Role.system; content := prompt; timestamp := None |}
               :: drop 4 twelveMessages
               ++ [{| role := Role.user; content := "Hello"; timestamp := None |}];
           sentOptions := Some (callerOptions 0.8%Q) |}].
Proof.
  intros prompt.
  split; [vm_compute; reflexivity |].
  split; [reflexivity |].
  refine (proj1 (generateConversationPartnerResponse_call rejecting answering
            initializeDefaultTemplates AIProvider.OPENAI prompt "Hello"
            twelveMessages noConversationContext (Some (callerOptions 0.2%Q)) [] _ _));
    vm_compute; reflexivity.
Defined.

(** C6. Whatever options the caller passes, every call that [analyzeText]
    makes to the adapter carries the temperature 0.3 and every call that
    [generateConversationStarters] makes carries 0.8; when the prompt
    renders and the OpenAI provider is selected each makes exactly one
    call. *)
Theorem forced_temperatures
    (regExpReplace : string -> ReplaceValue -> string -> Result string)
    (openaiService : list AIMessage -> option Options.t -> Result Response.t)
    (templates : gmap string PromptTemplate.t) (defaultProvider : string)
    (options : option Options.t) (calls : list AdapterCall) :
  (forall (text : string) (analysisType : AnalysisType.t) (context : AnalysisContext.t),
     exists made : list AdapterCall,
       snd (analyzeText regExpReplace openaiService templates defaultProvider
              text analysisType context options calls) = calls ++ made
       /\ Forall (fun call => sentTemperature call = Some 0.3%Q) made
       /\ ((exists prompt : string,
              renderTemplate regExpReplace templates (analysisTemplateId analysisType)
                (analysisPromptContext text context) = Returned prompt) ->
           selectProvider defaultProvider options = AIProvider.OPENAI ->
           length made = 1))
  /\ (forall context : StarterContext.t,
        exists made : list AdapterCall,
          snd (generateConversationStarters regExpReplace openaiService templates
                 defaultProvider context options calls) = calls ++ made
          /\ Forall (fun call => sentTemperature call = Some 0.8%Q) made
          /\ ((exists prompt : string,
                 renderTemplate regExpReplace templates "conversation_starter"
                   (starterPromptContext context) = Returned prompt) ->
              selectProvider defaultProvider options = AIProvider.OPENAI ->
              length made = 1)).
Proof.
  split.
  - intros text analysisType context.
    destruct (renderTemplate regExpReplace templates (analysisTemplateId analysisType)
                (analysisPromptContext text context)) as [prompt | error] eqn:Hr.
    + destruct (String.eqb_spec (selectProvider defaultProvider options) AIProvider.OPENAI)
        as [Hp | Hp].
      * rewrite (analyze_supported _ _ _ _ prompt) by assumption.
        eexists; split; [reflexivity |]. split; [| reflexivity].
        constructor; [| constructor]. destruct options; reflexivity.
      * rewrite (analyze_unsupported _ _ _ _ prompt) by assumption.
        exists []. rewrite app_nil_r. split; [reflexivity |].
        split; [constructor | intros _ Hq; contradiction].
    + rewrite (analyze_thrown _ _ _ _ error) by assumption.
      exists []. rewrite app_nil_r. split; [reflexivity |].
      split; [constructor | intros [? Hsome]; discriminate Hsome].
  - intros context.
    destruct (renderTemplate regExpReplace templates "conversation_starter"
                (starterPromptContext context)) as [prompt | error] eqn:Hr.
    + rewrite (starters_rendered _ _ _ _ prompt) by assumption.
      destruct (String.eqb_spec (selectProvider defaultProvider options) AIProvider.OPENAI)
        as [Hp | Hp].
      * rewrite chat_supported by (rewrite selectProvider_withTemperature; exact Hp).
        eexists; split; [reflexivity |]. split; [| reflexivity].
        constructor; [| constructor]. destruct options; reflexivity.
      * rewrite chat_unsupported by (rewrite selectProvider_withTemperature; exact Hp).
        exists []. rewrite app_nil_r. split; [reflexivity |].
        split; [constructor | intros _ Hq; contradiction].
    + rewrite (starters_thrown _ _ _ _ error) by assumption.
      exists []. rewrite app_nil_r. split; [reflexivity |].
      split; [constructor | intros [? Hsome]; discriminate Hsome].
Qed.

Lemma forced_temperatures_witness :
  map sentTemperature
    (snd (analyzeText rejecting answering initializeDefaultTemplates AIProvider.OPENAI
            "I are fine." AnalysisType.grammar noAnalysisContext
            (Some (callerOptions 1.5%Q)) []))
    = [Some 0.3%Q]
  /\ map sentTemperature
       (snd (generateConversationStarters rejecting answering initializeDefaultTemplates
               AIProvider.OPENAI noStarterContext (Some (callerOptions 1.5%Q)) []))
     = [Some 0.8%Q].
Proof.
  destruct (forced_temperatures rejecting answering initializeDefaultTemplates
              AIProvider.OPENAI (Some (callerOptions 1.5%Q)) []) as [Hanalyze Hstarters].
  split.
  - destruct (Hanalyze "I are fine." AnalysisType.grammar noAnalysisContext)
      as (made & -> & Hall & Hone).
    destruct made as [| call [| other made]];
      [ specialize (Hone ltac:(vm_compute; eauto) ltac:(reflexivity)); discriminate Hone
      | simpl; inversion Hall as [| ? ? Hcall _]; rewrite Hcall; reflexivity
      | specialize (Hone ltac:(vm_compute; eauto) ltac:(reflexivity)); discriminate Hone ].
  - destruct (Hstarters noStarterContext) as (made & -> & Hall & Hone).
    destruct made as [| call [| other made]];
      [ specialize (Hone ltac:(vm_compute; eauto) ltac:(reflexivity)); discriminate Hone
      | simpl; inversion Hall as [| ? ? Hcall _]; rewrite Hcall; reflexivity
      | specialize (Hone ltac:(vm_compute; eauto) ltac:(reflexivity)); discriminate Hone ].
Defined.

(** A replacer that throws makes [replace] throw as soon as the pattern
    matches somewhere. *)
Lemma replaceCall_throws (before after : string) :
  lacks "{" before = true ->
  replaceCall (newRegExp "hasOwnProperty") (callInherited "hasOwnProperty")
    (before +:+ "{{hasOwnProperty}}" +:+ after) 0
  = Thrown (TypeError "Cannot convert undefined or null to object").
Proof.
  intros Hbefore. induction before as [| c before IH]; [reflexivity |].
  cbn [lacks allChars] in Hbefore. apply andb_true_iff in Hbefore as [Hc Hbefore].
  change (String c before +:+ "{{hasOwnProperty}}" +:+ after)
    with (String c (before +:+ "{{hasOwnProperty}}" +:+ after)).
  cbn [replaceCall].
  assert (Hno : execAt (newRegExp "hasOwnProperty")
                  (String c (before +:+ "{{hasOwnProperty}}" +:+ after)) = None).
  { unfold execAt. change (matchText (newRegExp "hasOwnProperty"))
      with (String "{" "{hasOwnProperty}}").
    cbn [startsWith]. apply negb_true_iff in Hc.
    rewrite Ascii.eqb_sym, Hc. reflexivity. }
  rewrite Hno, (IH Hbefore). reflexivity.
Qed.

(** A variable named [hasOwnProperty] finds the inherited function in
    every [additionalContext] object that has no property of that name;
    called as replacer it throws. *)
Lemma member_throws
    (regExpReplace : string -> ReplaceValue -> string -> Result string)
    (template : PromptTemplate.t) (context : PromptContext.t)
    (extra : gmap string string) (before after : string) :
  PromptTemplate.variables template = ["hasOwnProperty"] ->
  PromptTemplate.template template = before +:+ "{{hasOwnProperty}}" +:+ after ->
  lacks "{" before = true ->
  PromptContext.additionalContext context = Some extra ->
  extra !! "hasOwnProperty" = None ->
  render regExpReplace template context
    = Thrown (TypeError "Cannot convert undefined or null to object").
Proof.
  intros Hvars Hbody Hbefore Hextra Hown.
  unfold render. rewrite Hvars, Hbody. cbn [renderFrom].
  assert (Hvalue : variableValue context "hasOwnProperty" = Inherited "hasOwnProperty").
  { unfold variableValue, additional. cbn. rewrite Hextra, Hown. reflexivity. }
  unfold substitute. rewrite Hvalue.
  change (isWord "hasOwnProperty") with true. cbv iota.
  unfold replaceWith. change ("hasOwnProperty" =? "__proto__")%string with false.
  cbv iota. rewrite replaceCall_throws by exact Hbefore. reflexivity.
Qed.

(** C4, at a failing input. [addTemplate] has replaced the
    conversation_starter template by one whose variable is named
    [hasOwnProperty]. Rendering it throws a [TypeError], and
    [generateConversationStarters] lets that exception through as it is,
    for every adapter, provider and options and without calling the
    adapter: it is no [HttpException], and it is not replaced by the
    failure of the operation. [analyzeText] does replace it, by "Failed to
    analyze text", when the same happens to its template. *)
Theorem generateConversationStarters_rethrows
    (regExpReplace : string -> ReplaceValue -> string -> Result string)
    (openaiService : list AIMessage -> option Options.t -> Result Response.t)
    (defaultProvider : string) (options : option Options.t)
    (calls : list AdapterCall) :
  let error := TypeError "Cannot convert undefined or null to object" in
  (forall context : StarterContext.t,
     generateConversationStarters regExpReplace openaiService
       (addTemplate initializeDefaultTemplates memberStarter) defaultProvider
       context options calls
     = (Thrown error, calls))
  /\ isHttpException error = false
  /\ (forall (text : string) (context : AnalysisContext.t),
        analyzeText regExpReplace openaiService
          (addTemplate initializeDefaultTemplates memberGrammar) defaultProvider
          text AnalysisType.grammar context options calls
        = (Thrown (HttpException "Failed to analyze text" INTERNAL_SERVER_ERROR),
           calls)).
Proof.
  intros error. split; [| split; [reflexivity |]].
  - intros context. apply starters_thrown.
    rewrite (renderTemplate_registered _ _ _ memberStarter) by (vm_compute; reflexivity).
    apply (member_throws regExpReplace memberStarter _
             (<["topics" := orElse (StarterContext.topics context)
                               "general conversation, daily life, hobbies, travel"]> ∅)
             "Suggest topics about " ".");
      first [reflexivity | rewrite lookup_insert_ne by discriminate; apply lookup_empty].
  - intros text context.
    rewrite (analyze_thrown _ _ _ _ error).
    + reflexivity.
    + change (analysisTemplateId AnalysisType.grammar) with "grammar_correction".
      rewrite (renderTemplate_registered _ _ _ memberGrammar) by (vm_compute; reflexivity).
      apply (member_throws regExpReplace memberGrammar _
               (<["level" := orElse (AnalysisContext.level context) "intermediate"]>
                  (<["text" := text]> ∅))
               "Correct the use of " ".");
        first [reflexivity | rewrite !lookup_insert_ne by discriminate; apply lookup_empty].
Qed.


(** ** The cost of a completion *)

(** The four priced models. *)
Lemma pricing_models (model : string) :
  is_Some (pricing !! model)
  <-> model ∈ ["gpt-4o-mini"; "gpt-4o"; "gpt-4"; "gpt-3.5-turbo"].
Proof.
  unfold pricing. rewrite <- elem_of_dom, dom_list_to_map_L. simpl.
  set_solver.
Qed.

(** The members that an object literal inherits from [Object.prototype],
    by name. *)
Lemma inherited_members (key : string) :
  inherited key = true
  <-> key ∈ ["constructor"; "__defineGetter__"; "__defineSetter__";
             "hasOwnProperty"; "__lookupGetter__"; "__lookupSetter__";
             "isPrototypeOf"; "propertyIsEnumerable"; "toString"; "valueOf";
             "__proto__"; "toLocaleString"].
Proof.
  unfold inherited, objectPrototype. rewrite existsb_exists. split.
  - intros (member & Hin & Heq). apply String.eqb_eq in Heq. subst member.
    apply list_elem_of_In. exact Hin.
  - intros Hin. exists key. split; [apply list_elem_of_In; exact Hin |].
    apply String.eqb_refl.
Qed.

(** A model name that the price table neither holds nor inherits costs
    zero; the lookup does not fail. *)
Lemma calculateCost_unknown_model (model : string) (promptTokens completionTokens : N) :
  pricing !! model = None ->
  inherited model = false ->
  calculateCost model promptTokens completionTokens = SpecFloat.S754_zero false.
Proof.
  intros Hnone Hown. unfold calculateCost, modelPricing. rewrite Hnone, Hown.
  reflexivity.
Qed.

(** A model that bears the name of a member of [Object.prototype] finds
    that member in the price table: the cost is NaN. *)
Lemma calculateCost_inherited (model : string) (promptTokens completionTokens : N) :
  pricing !! model = None ->
  inherited model = true ->
  calculateCost model promptTokens completionTokens = Double.NaN.
Proof.
  intros Hnone Hown. unfold calculateCost, modelPricing. rewrite Hnone, Hown.
  destruct (Double.divide (Double.ofInteger (Z.of_N promptTokens)) _); reflexivity.
Qed.

(** C8, at a failing input. For gpt-4o-mini, priced 0.15 and 0.6, and 130
    prompt tokens without completion tokens, the formula gives 0.0000195,
    which rounds to 20 millionths; the sum computed in binary64 lies just
    below the tie, so [toFixed(6)] writes 0.000019 and [calculateCost]
    returns the number nearest to 19 millionths, [0x1.3ec460ed80a18p-16],
    where the number nearest to 20 millionths is [0x1.4f8b588e368f1p-16].
    And a model named [toString] has no price entry, yet its cost is NaN,
    not zero, for all token counts. *)
Theorem calculateCost_diverges :
  pricing !! "gpt-4o-mini" = Some (0.15%Q, 0.6%Q)
  /\ costFormula 0.15 0.6 130 0 == 195 # 10000000
  /\ millionths (costFormula 0.15 0.6 130 0) = 20%Z
  /\ calculateCost "gpt-4o-mini" 130 0 = Double.nearest false 19 (10 ^ 6)
  /\ Double.nearest false 19 (10 ^ 6) <> Double.nearest false 20 (10 ^ 6)
  /\ calculateCost "gpt-4o-mini" 130 0
     = SpecFloat.S754_finite false 5607810198407704 (-68)
  /\ Double.nearest false 20 (10 ^ 6)
     = SpecFloat.S754_finite false 5902958103587057 (-68)
  /\ pricing !! "toString" = None
  /\ forall promptTokens completionTokens : N,
       calculateCost "toString" promptTokens completionTokens = Double.NaN.
Proof.
  split; [vm_compute; reflexivity |].
  split; [reflexivity |].
  split; [vm_compute; reflexivity |].
  split; [vm_compute; reflexivity |].
  split; [vm_compute; discriminate |].
  split; [vm_compute; reflexivity |].
  split; [vm_compute; reflexivity |].
  split; [vm_compute; reflexivity |].
  intros promptTokens completionTokens.
  apply calculateCost_inherited; vm_compute; reflexivity.
Qed.

(** ** The correction extractor *)

Section Extractor.
Variable exec : RegExpLiteral.t -> string -> nat -> option MatchResult.

(** The first pattern of [errorPatterns] carries the flags [is], without
    [g]: [matchAll] throws as soon as the loop over the error patterns
    starts. *)
Lemma extractErrors_throws (aiResponse : string) (errors : list string) :
  extractErrors exec errorPatterns aiResponse errors
    = Thrown (TypeError "String.prototype.matchAll called with a non-global RegExp argument").
Proof. reflexivity. Qed.

(** Whenever the reply holds a marker word, the [catch] block supplies the
    result. *)
Lemma parseGrammarCorrections_marker (aiResponse originalText : string) :
  hasCorrectionMarker aiResponse = true ->
  parseGrammarCorrections exec aiResponse originalText
    = {| hasErrors := false;
         correctedText := originalText;
         errors := [];
         explanation := "Analyse des corrections indisponible." |}.
Proof.
  intros Hmarker. unfold parseGrammarCorrections, extractCorrections.
  rewrite Hmarker, extractErrors_throws. reflexivity.
Qed.



(** C9, at the input of scenario C. For every reply that contains
    [corrected version: "I am fine."] and the original text "I are fine.",
    whatever the matcher finds, the extractor returns [hasErrors = false]
    and the original text: the marker word is found, the first pattern of
    the error loop is not global, [matchAll] throws and the [catch] block
    answers. *)
Theorem parseGrammarCorrections_scenario_C (before after : string) :
  parseGrammarCorrections exec
    (before +:+ "corrected version: " +:+ dq +:+ "I am fine." +:+ dq +:+ after)
    "I are fine."
  = {| hasErrors := false;
       correctedText := "I are fine.";
       errors := [];
       explanation := "Analyse des corrections indisponible." |}.
Proof.
  apply parseGrammarCorrections_marker.
  unfold hasCorrectionMarker.
  change (before +:+ "corrected version: " +:+ dq +:+ "I am fine." +:+ dq +:+ after)
    with (before +:+ String "c"
            ("orrected version: " +:+ dq +:+ "I am fine." +:+ dq +:+ after)).
  rewrite toLowerCase_app_ascii by (vm_compute; lia).
  change (String "c" ("orrected version: " +:+ dq +:+ "I am fine." +:+ dq +:+ after))
    with ("corrected" +:+ (" version: " +:+ dq +:+ "I am fine." +:+ dq +:+ after)).
  rewrite toLowerCase_plain by reflexivity.
  rewrite includes_app_r; [reflexivity | apply includes_here].
Qed.

End Extractor.

(** ** Placeholders of a template body *)

Lemma dropString_append (a r : string) : dropString (String.length a) (a +:+ r) = r.
Proof. induction a as [| c a IH]; simpl; [destruct r; reflexivity | exact IH]. Qed.

Lemma wordRun_split (s : string) : s = fst (wordRun s) +:+ snd (wordRun s).
Proof.
  induction s as [| c s IH]; simpl; [reflexivity |].
  destruct (isWordChar c); [| reflexivity].
  destruct (wordRun s) as [w r]. simpl in *. rewrite IH at 1. reflexivity.
Qed.

Lemma wordRun_word (s : string) : isWord (fst (wordRun s)) = true.
Proof.
  unfold isWord. induction s as [| c s IH]; simpl; [reflexivity |].
  destruct (isWordChar c) eqn:Hc; [| reflexivity].
  destruct (wordRun s) as [w r]. simpl in *. rewrite Hc, IH. reflexivity.
Qed.

(** The run of a word stops at a closing brace. *)
Lemma wordRun_closing (w r : string) :
  isWord w = true -> wordRun (w +:+ String "}" r) = (w, String "}" r).
Proof.
  unfold isWord. induction w as [| c w IH]; simpl; intros Hw; [reflexivity |].
  apply andb_true_iff in Hw as [Hc Hw]. rewrite Hc, (IH Hw). reflexivity.
Qed.

Lemma placeholderAt_Some (s w : string) :
  placeholderAt s = Some w ->
  w <> EmptyString /\ isWord w = true /\ exists r, s = placeholder w +:+ r.
Proof.
  unfold placeholderAt. intros H.
  destruct (startsWith s "{{") eqn:Hopen; [| discriminate H].
  destruct (startsWith_split _ _ Hopen) as [t ->].
  change (dropString 2 ("{{" +:+ t)) with t in H.
  pose proof (wordRun_split t) as Hsplit.
  pose proof (wordRun_word t) as Hword.
  destruct (wordRun t) as [[| c u] r]; [discriminate H |].
  simpl in Hsplit, Hword.
  destruct (startsWith r "}}") eqn:Hclose; [| discriminate H].
  injection H as <-.
  destruct (startsWith_split _ _ Hclose) as [b ->].
  split; [discriminate |]. split; [exact Hword |].
  exists b. rewrite Hsplit. unfold placeholder.
  rewrite !append_assoc. reflexivity.
Qed.

Lemma placeholderAt_placeholder (w r : string) :
  w <> EmptyString -> isWord w = true ->
  placeholderAt (placeholder w +:+ r) = Some w.
Proof.
  intros Hne Hw. unfold placeholderAt, placeholder.
  rewrite !append_assoc.
  change (startsWith ("{{" +:+ w +:+ "}}" +:+ r) "{{") with true.
  change (dropString 2 ("{{" +:+ w +:+ "}}" +:+ r)) with (w +:+ String "}" (String "}" r)).
  cbv iota.
  rewrite (wordRun_closing w _ Hw).
  destruct w as [| c w]; [contradiction | reflexivity].
Qed.

Lemma placeholder_length (w : string) :
  String.length (placeholder w) = String.length w + 4.
Proof. unfold placeholder. rewrite !length_append. simpl. lia. Qed.

(** Putting the placeholders back gives the body: the cut loses
    nothing. *)
Lemma fill_segmentsFrom (s : string) (k : nat) :
  fill placeholder (segmentsFrom s k) = dropString k s.
Proof.
  revert k. induction s as [| c s IH]; intros k; [destruct k; reflexivity |].
  destruct k as [| k]; [| simpl; apply IH].
  change (segmentsFrom (String c s) 0)
    with (match placeholderAt (String c s) with
          | Some w => Hole w :: segmentsFrom s (String.length w + 3)
          | None => Char c :: segmentsFrom s 0
          end).
  destruct (placeholderAt (String c s)) as [w |] eqn:Hat.
  - destruct (placeholderAt_Some _ _ Hat) as (_ & _ & r & Hs).
    change (fill placeholder (Hole w :: segmentsFrom s (String.length w + 3)))
      with (placeholder w +:+ fill placeholder (segmentsFrom s (String.length w + 3))).
    rewrite IH.
    change (dropString 0 (String c s)) with (String c s).
    change (dropString (String.length w + 3) s)
      with (dropString (S (String.length w + 3)) (String c s)).
    rewrite Hs. f_equal. replace (S (String.length w + 3)) with (String.length (placeholder w))
      by (rewrite placeholder_length; lia).
    apply dropString_append.
  - change (fill placeholder (Char c :: segmentsFrom s 0))
      with (String c (fill placeholder (segmentsFrom s 0))).
    rewrite IH. destruct s; reflexivity.
Qed.

Lemma fill_segments (s : string) : fill placeholder (segments s) = s.
Proof. unfold segments. rewrite fill_segmentsFrom. destruct s; reflexivity. Qed.

(** The names found are non-empty words. *)
Lemma segmentsFrom_names (s : string) (k : nat) (w : string) :
  Hole w ∈ segmentsFrom s k -> w <> EmptyString /\ isWord w = true.
Proof.
  revert k. induction s as [| c s IH]; intros k H; [inversion H |].
  destruct k as [| k]; [| exact (IH _ H)].
  change (segmentsFrom (String c s) 0)
    with (match placeholderAt (String c s) with
          | Some w => Hole w :: segmentsFrom s (String.length w + 3)
          | None => Char c :: segmentsFrom s 0
          end) in H.
  destruct (placeholderAt (String c s)) as [u |] eqn:Hat.
  - apply elem_of_cons in H as [H | H]; [| exact (IH _ H)].
    injection H as ->. destruct (placeholderAt_Some _ _ Hat) as (? & ? & _). split; assumption.
  - apply elem_of_cons in H as [H | H]; [discriminate H | exact (IH _ H)].
Qed.

(** A placeholder found by the scan occurs in the body. *)
Lemma segmentsFrom_occurs (s : string) (k : nat) (w : string) :
  Hole w ∈ segmentsFrom s k -> includes s (placeholder w) = true.
Proof.
  revert k. induction s as [| c s IH]; intros k H; [inversion H |].
  assert (Htail : forall j, Hole w ∈ segmentsFrom s j ->
                            includes (String c s) (placeholder w) = true).
  { intros j Hj. simpl. rewrite (IH _ Hj). apply orb_true_r. }
  destruct k as [| k]; [| exact (Htail _ H)].
  change (segmentsFrom (String c s) 0)
    with (match placeholderAt (String c s) with
          | Some w => Hole w :: segmentsFrom s (String.length w + 3)
          | None => Char c :: segmentsFrom s 0
          end) in H.
  destruct (placeholderAt (String c s)) as [u |] eqn:Hat.
  - apply elem_of_cons in H as [H | H]; [| exact (Htail _ H)].
    injection H as ->. destruct (placeholderAt_Some _ _ Hat) as (_ & _ & r & ->).
    apply includes_here.
  - apply elem_of_cons in H as [H | H]; [discriminate H | exact (Htail _ H)].
Qed.

(** A match that starts in front of a placeholder ends in front of it. *)
Lemma placeholderAt_within (t r w : string) :
  t <> EmptyString ->
  placeholderAt (t +:+ String "{" (String "{" r)) = Some w ->
  String.length w + 4 <= String.length t.
Proof.
  intros Ht Hat.
  destruct (placeholderAt_Some _ _ Hat) as (_ & Hw & b & Hs).
  assert (Hstart : startsWith (t +:+ String "{" (String "{" r)) (placeholder w) = true).
  { rewrite Hs. apply startsWith_append. }
  apply placeholder_within in Hstart;
    [| apply word_lacks_braces; exact Hw | exact Ht].
  apply startsWith_length in Hstart. rewrite placeholder_length in Hstart. exact Hstart.
Qed.

(** Every placeholder of a non-empty word that occurs in the body is
    found by the scan. *)
Lemma segmentsFrom_finds (a b v : string) (k : nat) :
  v <> EmptyString -> isWord v = true -> k <= String.length a ->
  Hole v ∈ segmentsFrom (a +:+ placeholder v +:+ b) k.
Proof.
  intros Hne Hv. revert k. induction a as [| c a IH]; intros k Hk.
  - simpl in Hk. replace k with 0 by lia.
    change (EmptyString +:+ placeholder v +:+ b) with (placeholder v +:+ b).
    pose proof (placeholderAt_placeholder v b Hne Hv) as Hat.
    rewrite placeholder_unfold in *.
    change (String "{" (String "{" (v +:+ "}}")) +:+ b)
      with (String "{" (String "{" (v +:+ "}}") +:+ b)) in *.
    change (segmentsFrom (String "{" (String "{" (v +:+ "}}") +:+ b)) 0)
      with (match placeholderAt (String "{" (String "{" (v +:+ "}}") +:+ b)) with
            | Some w => Hole w :: segmentsFrom (String "{" (v +:+ "}}") +:+ b)
                                   (String.length w + 3)
            | None => Char "{" :: segmentsFrom (String "{" (v +:+ "}}") +:+ b) 0
            end).
    rewrite Hat. apply list_elem_of_here.
  - change (String c a +:+ placeholder v +:+ b) with (String c (a +:+ placeholder v +:+ b)).
    destruct k as [| k]; [| simpl; apply IH; simpl in Hk; lia].
    change (segmentsFrom (String c (a +:+ placeholder v +:+ b)) 0)
      with (match placeholderAt (String c (a +:+ placeholder v +:+ b)) with
            | Some w => Hole w :: segmentsFrom (a +:+ placeholder v +:+ b)
                                   (String.length w + 3)
            | None => Char c :: segmentsFrom (a +:+ placeholder v +:+ b) 0
            end).
    destruct (placeholderAt (String c (a +:+ placeholder v +:+ b))) as [w |] eqn:Hat.
    + apply list_elem_of_further, IH.
      change (String c (a +:+ placeholder v +:+ b))
        with (String c a +:+ placeholder v +:+ b) in Hat.
      rewrite placeholder_unfold in Hat.
      change (String "{" (String "{" (v +:+ "}}")) +:+ b)
        with (String "{" (String "{" ((v +:+ "}}") +:+ b))) in Hat.
      apply placeholderAt_within in Hat; [| discriminate].
      simpl in Hat. lia.
    + apply list_elem_of_further, IH. lia.
Qed.

(** ** Extraction of the variables of a template *)

Lemma listIncludes_elem (l : list string) (s : string) :
  listIncludes l s = true <-> s ∈ l.
Proof.
  unfold listIncludes. rewrite existsb_exists. split.
  - intros (x & Hin & Heq). apply String.eqb_eq in Heq as ->.
    apply list_elem_of_In. exact Hin.
  - intros Hin. exists s. split; [apply list_elem_of_In; exact Hin | apply String.eqb_refl].
Qed.

Lemma listIncludes_not_elem (l : list string) (s : string) :
  listIncludes l s = false <-> s ∉ l.
Proof.
  rewrite <- listIncludes_elem. destruct (listIncludes l s); split; congruence.
Qed.

Lemma listIncludes_app (l k : list string) (s : string) :
  listIncludes (l ++ k) s = listIncludes l s || listIncludes k s.
Proof. apply existsb_app. Qed.

Section Dedup.
Let step (variables : list string) (name : string) : list string :=
  if listIncludes variables name then variables else variables ++ [name].

Lemma dedup_elem (names acc : list string) (v : string) :
  v ∈ foldl step acc names <-> v ∈ acc \/ v ∈ names.
Proof.
  revert acc. induction names as [| n names IH]; intros acc; simpl.
  - rewrite elem_of_nil. tauto.
  - rewrite IH, elem_of_cons. unfold step.
    destruct (listIncludes acc n) eqn:Hn.
    + apply listIncludes_elem in Hn. split; [tauto |].
      intros [H | [-> | H]]; tauto.
    + rewrite elem_of_app, list_elem_of_singleton. tauto.
Qed.

Lemma dedup_NoDup (names acc : list string) :
  NoDup acc -> NoDup (foldl step acc names).
Proof.
  revert acc. induction names as [| n names IH]; intros acc Hacc; simpl; [exact Hacc |].
  apply IH. unfold step. destruct (listIncludes acc n) eqn:Hn; [exact Hacc |].
  apply listIncludes_not_elem in Hn.
  apply NoDup_app. split; [exact Hacc |]. split.
  - intros x Hx Hx'. apply list_elem_of_singleton in Hx' as ->. contradiction.
  - apply NoDup_singleton.
Qed.

Lemma extractVariables_elem (template v : string) :
  v ∈ extractVariablesFromTemplate template <-> Hole v ∈ segments template.
Proof.
  unfold extractVariablesFromTemplate. fold step.
  rewrite dedup_elem, elem_of_nil. unfold placeholderNames.
  rewrite list_elem_of_omap. split.
  - intros [[] | ([c | w] & Hin & Hname)]; simpl in Hname; [discriminate |].
    injection Hname as ->. exact Hin.
  - intros Hin. right. exists (Hole v). split; [exact Hin | reflexivity].
Qed.

Lemma extractVariables_NoDup (template : string) :
  NoDup (extractVariablesFromTemplate template).
Proof. apply dedup_NoDup, NoDup_nil_2. Qed.
End Dedup.

Lemma segments_hole_iff (template v : string) :
  Hole v ∈ segments template
  <-> v <> EmptyString /\ isWord v = true /\ includes template (placeholder v) = true.
Proof.
  split.
  - intros H. destruct (segmentsFrom_names _ _ _ H) as [Hne Hw].
    split; [exact Hne |]. split; [exact Hw |]. exact (segmentsFrom_occurs _ _ _ H).
  - intros (Hne & Hw & Hin). destruct (includes_split _ _ Hin) as (a & b & ->).
    apply segmentsFrom_finds; [exact Hne | exact Hw | lia].
Qed.

(** X1. [extractVariablesFromTemplate] returns, without repetition,
    exactly the non-empty names of word characters whose placeholder
    [{{name}}] occurs in the template body. *)
Theorem extractVariablesFromTemplate_exact (template : string) :
  NoDup (extractVariablesFromTemplate template)
  /\ forall v : string,
       v ∈ extractVariablesFromTemplate template
       <-> v <> EmptyString /\ isWord v = true
           /\ includes template (placeholder v) = true.
Proof.
  split; [apply extractVariables_NoDup |].
  intros v. rewrite extractVariables_elem. apply segments_hole_iff.
Qed.

Lemma undeclared_elem (template : PromptTemplate.t) (v : string) :
  v ∈ undeclaredVariables template
  <-> declares template v = false
      /\ Hole v ∈ segments (PromptTemplate.template template).
Proof.
  unfold undeclaredVariables. rewrite list_elem_of_filter, extractVariables_elem.
  reflexivity.
Qed.

Lemma validateTemplate_nil (template : PromptTemplate.t) :
  validateTemplate template = []
  <-> isBlank (PromptTemplate.id template) = false
      /\ isBlank (PromptTemplate.name template) = false
      /\ isBlank (PromptTemplate.template template) = false
      /\ undeclaredVariables template = [].
Proof.
  unfold validateTemplate.
  destruct (isBlank (PromptTemplate.id template)),
    (isBlank (PromptTemplate.name template)),
    (isBlank (PromptTemplate.template template)),
    (undeclaredVariables template); simpl; split;
    try (intros H; discriminate H);
    try (intros (H1 & H2 & H3 & H4); discriminate);
    tauto.
Qed.

(** ** Blank texts *)

Lemma byte_of (c : ascii) (n : nat) : nat_of_ascii c = n -> c = byte n.
Proof. intros H. subst n. unfold byte. symmetry. apply ascii_nat_embedding. Qed.

Lemma isSpace_whiteSpace (c : ascii) :
  isSpace c = true -> In (String c EmptyString) whiteSpace.
Proof.
  unfold isSpace. intros Hn.
  apply orb_true_iff in Hn as [Hn | Hn].
  - apply andb_true_iff in Hn as [Hlo Hhi].
    apply Nat.leb_le in Hlo, Hhi.
    assert (Hcases : nat_of_ascii c = 9 \/ nat_of_ascii c = 10
                     \/ nat_of_ascii c = 11 \/ nat_of_ascii c = 12
                     \/ nat_of_ascii c = 13) by lia.
    decompose [or] Hcases; clear Hcases;
      match goal with H : nat_of_ascii c = _ |- _ => rewrite (byte_of _ _ H) end;
      simpl; auto 30.
  - apply Nat.eqb_eq in Hn. rewrite (byte_of _ _ Hn). simpl. auto 30.
Qed.

Lemma isSpace2_whiteSpace (c d : ascii) :
  isSpace2 c d = true -> In (String c (String d EmptyString)) whiteSpace.
Proof.
  unfold isSpace2. intros H. apply andb_true_iff in H as [Hc Hd].
  apply Nat.eqb_eq in Hc, Hd.
  rewrite (byte_of _ _ Hc), (byte_of _ _ Hd). simpl. auto 30.
Qed.

Lemma isSpace3_whiteSpace (c d e : ascii) :
  isSpace3 c d e = true -> In (String c (String d (String e EmptyString))) whiteSpace.
Proof.
  unfold isSpace3. intros H.
  repeat match type of H with
         | (_ || _)%bool = true => apply orb_true_iff in H as [H | H]
         end;
    repeat match goal with
           | H : (_ && _)%bool = true |- _ => apply andb_true_iff in H as [? ?]
           | H : (_ || _)%bool = true |- _ => apply orb_true_iff in H as [H | H]
           | H : (_ =? _)%nat = true |- _ => apply Nat.eqb_eq in H
           | H : (_ <=? _)%nat = true |- _ => apply Nat.leb_le in H
           end;
    try match goal with
        | Hlo : 128 <= nat_of_ascii e, Hhi : nat_of_ascii e <= 138 |- _ =>
            assert (Hcases : nat_of_ascii e = 128 \/ nat_of_ascii e = 129
                             \/ nat_of_ascii e = 130 \/ nat_of_ascii e = 131
                             \/ nat_of_ascii e = 132 \/ nat_of_ascii e = 133
                             \/ nat_of_ascii e = 134 \/ nat_of_ascii e = 135
                             \/ nat_of_ascii e = 136 \/ nat_of_ascii e = 137
                             \/ nat_of_ascii e = 138) by lia;
            clear Hlo Hhi; decompose [or] Hcases; clear Hcases
        end;
    repeat match goal with
           | H : nat_of_ascii ?x = _ |- _ => rewrite (byte_of _ _ H); clear H
           end;
    simpl; auto 40.
Qed.

(** A white-space character at the head is removed. *)
Lemma trimStart_whiteSpace (w rest : string) :
  In w whiteSpace -> trimStart (w +:+ rest) = trimStart rest.
Proof.
  intros Hin. simpl in Hin.
  repeat match type of Hin with
         | _ \/ _ => destruct Hin as [Hin | Hin]
         end;
    try (subst w; reflexivity).
  destruct Hin.
Qed.

(** The text that [trimStart] leaves is the subject itself or what it
    leaves of a shorter text. *)
Lemma trimStart_steps (n : nat) (s : string) :
  String.length s <= n ->
  (trimStart s = EmptyString
   -> exists spaces : list string,
        Forall (fun w => In w whiteSpace) spaces
        /\ s = foldr String.append EmptyString spaces)
  /\ trimStart (trimStart s) = trimStart s.
Proof.
  revert s. induction n as [| n IH]; intros s Hlen.
  - destruct s; [| simpl in Hlen; lia].
    split; [| reflexivity]. intros _. exists []. split; [constructor | reflexivity].
  - destruct s as [| c s1].
    { split; [| reflexivity]. intros _. exists []. split; [constructor | reflexivity]. }
    simpl in Hlen.
    cbn [trimStart]. destruct (isSpace c) eqn:H1.
    { destruct (IH s1 ltac:(lia)) as [Hall Hidem]. split; [| exact Hidem].
      intros He. destruct (Hall He) as (spaces & Hf & Hs).
      exists (String c EmptyString :: spaces). split.
      - constructor; [apply isSpace_whiteSpace; exact H1 | exact Hf].
      - simpl. rewrite Hs. reflexivity. }
    destruct s1 as [| d s2].
    { split; [intros He; discriminate He |]. cbn [trimStart]. rewrite H1. reflexivity. }
    simpl in Hlen.
    destruct (isSpace2 c d) eqn:H2.
    { destruct (IH s2 ltac:(lia)) as [Hall Hidem]. split; [| exact Hidem].
      intros He. destruct (Hall He) as (spaces & Hf & Hs).
      exists (String c (String d EmptyString) :: spaces). split.
      - constructor; [apply isSpace2_whiteSpace; exact H2 | exact Hf].
      - simpl. rewrite Hs. reflexivity. }
    destruct s2 as [| e s3].
    { split; [intros He; discriminate He |]. cbn [trimStart]. rewrite H1, H2. reflexivity. }
    simpl in Hlen.
    destruct (isSpace3 c d e) eqn:H3.
    { destruct (IH s3 ltac:(lia)) as [Hall Hidem]. split; [| exact Hidem].
      intros He. destruct (Hall He) as (spaces & Hf & Hs).
      exists (String c (String d (String e EmptyString)) :: spaces). split.
      - constructor; [apply isSpace3_whiteSpace; exact H3 | exact Hf].
      - simpl. rewrite Hs. reflexivity. }
    split; [intros He; discriminate He |]. cbn [trimStart]. rewrite H1, H2, H3. reflexivity.
Qed.

Lemma trimEnd_empty (s : string) : trimEnd s = EmptyString <-> trimStart s = EmptyString.
Proof.
  destruct s as [| c s1]; [split; reflexivity |].
  cbn [trimEnd]. destruct (trimStart (String c s1)); split; intros H;
    first [reflexivity | discriminate H].
Qed.

(** A text is blank exactly when it is made of white-space characters
    only. *)
Lemma isBlank_whiteSpace (s : string) :
  isBlank s = true
  <-> exists spaces : list string,
        Forall (fun w => In w whiteSpace) spaces
        /\ s = foldr String.append EmptyString spaces.
Proof.
  assert (Hblank : isBlank s = true <-> trimStart s = EmptyString).
  { unfold isBlank, trim. destruct s as [| c s1]; [split; reflexivity |].
    destruct (trimStart_steps _ (String c s1) (le_n _)) as [_ Hidem].
    pose proof (trimEnd_empty (trimStart (String c s1))) as He.
    rewrite Hidem in He.
    destruct (trimEnd (trimStart (String c s1))).
    - split; [intros _; apply He; reflexivity | reflexivity].
    - split; [intros H; discriminate H |].
      intros H. apply He in H. discriminate H. }
  rewrite Hblank. clear Hblank. split.
  - apply (trimStart_steps _ s (le_n _)).
  - intros (spaces & Hf & ->). induction Hf as [| w spaces Hw _ IH]; [reflexivity |].
    simpl. change (trimStart (w +:+ foldr String.append EmptyString spaces) = EmptyString).
    rewrite trimStart_whiteSpace by exact Hw. exact IH.
Qed.

(** X2. [validateTemplate] reports no error exactly when the id, the name
    and the body are not blank and every placeholder [{{name}}] of a
    non-empty word name that occurs in the body is declared. A text is
    blank when it is empty or made only of the white-space and
    line-terminator characters that [trim] removes. *)
Theorem validateTemplate_accepts (template : PromptTemplate.t) :
  (validateTemplate template = []
   <-> isBlank (PromptTemplate.id template) = false
       /\ isBlank (PromptTemplate.name template) = false
       /\ isBlank (PromptTemplate.template template) = false
       /\ forall v : string,
            v <> EmptyString -> isWord v = true ->
            includes (PromptTemplate.template template) (placeholder v) = true ->
            declares template v = true)
  /\ forall s : string,
       isBlank s = true
       <-> exists spaces : list string,
             Forall (fun w => In w whiteSpace) spaces
             /\ s = foldr String.append EmptyString spaces.
Proof.
  split; [| exact isBlank_whiteSpace].
  rewrite validateTemplate_nil. split.
  - intros (Hid & Hname & Hbody & Hnone). repeat (split; [assumption |]).
    intros v Hne Hw Hin.
    destruct (declares template v) eqn:Hd; [reflexivity |].
    assert (Hv : v ∈ undeclaredVariables template).
    { apply undeclared_elem. split; [exact Hd |].
      apply segments_hole_iff. repeat split; assumption. }
    rewrite Hnone in Hv. inversion Hv.
  - intros (Hid & Hname & Hbody & Hall). repeat (split; [assumption |]).
    apply elem_of_nil_inv. intros v Hv.
    apply undeclared_elem in Hv as [Hd Hhole].
    apply segments_hole_iff in Hhole as (Hne & Hw & Hin).
    rewrite (Hall v Hne Hw Hin) in Hd. discriminate Hd.
Qed.

(** X3. When the body uses a placeholder that the template does not
    declare, the last error of [validateTemplate] lists the undeclared
    names: each non-empty name of word characters whose placeholder
    occurs in the body and which is not declared, once, and no other
    name, separated by a comma and a space. *)
Theorem validateTemplate_undeclared (template : PromptTemplate.t) (v : string) :
  v <> EmptyString -> isWord v = true ->
  includes (PromptTemplate.template template) (placeholder v) = true ->
  declares template v = false ->
  exists names : list string,
    last (validateTemplate template)
      = Some ("Undeclared variables found: " +:+ join ", " names)
    /\ NoDup names
    /\ forall w : string,
         w ∈ names
         <-> w <> EmptyString /\ isWord w = true
             /\ includes (PromptTemplate.template template) (placeholder w) = true
             /\ declares template w = false.
Proof.
  intros Hne Hw Hin Hd.
  assert (Hv : v ∈ undeclaredVariables template).
  { apply undeclared_elem. split; [exact Hd |].
    apply segments_hole_iff. repeat split; assumption. }
  exists (undeclaredVariables template). split; [| split].
  - unfold validateTemplate. rewrite !app_assoc.
    destruct (undeclaredVariables template) as [| n names]; [inversion Hv |].
    apply last_snoc.
  - unfold undeclaredVariables. apply NoDup_filter, extractVariables_NoDup.
  - intros w. rewrite undeclared_elem, segments_hole_iff. tauto.
Qed.

(** An id that is a no-break space, U+00A0, is blank. *)
Lemma isBlank_no_break_space :
  isBlank (String (byte 194) (String (byte 160) EmptyString)) = true
  /\ isBlank "a b" = false.
Proof. split; reflexivity. Qed.

(** ** Rendering as the filling of placeholders *)

Lemma replace_empty (re : RegExp) (x : string) : replace re x EmptyString = EmptyString.
Proof. reflexivity. Qed.

Lemma inert_lacks (value : string) : inert value = true -> lacks "{" value = true.
Proof. unfold inert. intros H. apply andb_true_iff in H as [H _]. exact H. Qed.

Lemma inert_plain (value : string) :
  inert value = true -> hasReplacementPattern value = false.
Proof.
  unfold inert. intros H. apply andb_true_iff in H as [_ H].
  apply negb_true_iff in H. exact H.
Qed.

Lemma inertValue_text (value : ReplaceValue) :
  inertValue value = true -> exists x : string, value = Text x /\ inert x = true.
Proof.
  destruct value as [x | member]; [| discriminate].
  intros H. exists x. split; [reflexivity | exact H].
Qed.

Lemma variableText_value (context : PromptContext.t) (v x : string) :
  variableValue context v = Text x -> variableText context v = x.
Proof. intros H. unfold variableText. rewrite H. reflexivity. Qed.

Section OnePass.
Variable context : PromptContext.t.
Variable done : list string.
Variable v : string.
Hypothesis v_word : isWord v = true.
Hypothesis v_name : isQuantifier v = false.
Hypothesis v_plain : hasReplacementPattern (variableText context v) = false.
Hypothesis done_lack :
  forall u : string, listIncludes done u = true -> lacks "{" (variableText context u) = true.

(** One turn of the loop of [renderTemplate] on a body without stray
    opening brace: the placeholders of the variable take its value, the
    rest of the text stays. *)
Lemma substitute_fill (body : list Segment) :
  existsb strayBrace body = false ->
  (forall w : string, Hole w ∈ body -> isWord w = true) ->
  replace (newRegExp v) (variableText context v)
    (fill (filled (variableText context) done) body)
    = fill (filled (variableText context) (done ++ [v])) body.
Proof.
  induction body as [| segment body IH]; intros Hstray Hwords; [reflexivity |].
  simpl in Hstray. apply orb_false_iff in Hstray as [Hhere Hstray].
  assert (Hwords' : forall w : string, Hole w ∈ body -> isWord w = true).
  { intros w Hw. apply Hwords. apply list_elem_of_further. exact Hw. }
  specialize (IH Hstray Hwords').
  destruct segment as [c | u].
  - change (fill (filled (variableText context) done) (Char c :: body))
      with (String c (fill (filled (variableText context) done) body)).
    change (fill (filled (variableText context) (done ++ [v])) (Char c :: body))
      with (String c (fill (filled (variableText context) (done ++ [v])) body)).
    unfold replace in *. rewrite (replaceFrom_copy _ _ v_plain).
    + rewrite IH. reflexivity.
    + rewrite (newRegExp_literal _ v_name), placeholder_unfold.
      simpl in Hhere. simpl. rewrite Ascii.eqb_sym, Hhere. reflexivity.
  - change (fill (filled (variableText context) done) (Hole u :: body))
      with (filled (variableText context) done u
            +:+ fill (filled (variableText context) done) body).
    change (fill (filled (variableText context) (done ++ [v])) (Hole u :: body))
      with (filled (variableText context) (done ++ [v]) u
            +:+ fill (filled (variableText context) (done ++ [v])) body).
    unfold filled at 1 3. rewrite listIncludes_app.
    destruct (listIncludes done u) eqn:Hdone.
    + simpl. unfold replace in *.
      rewrite (replaceFrom_lacking _ _ v_name v_plain) by (apply done_lack; exact Hdone).
      rewrite IH. reflexivity.
    + unfold listIncludes. simpl. rewrite orb_false_r.
      destruct (String.eqb u v) eqn:Huv.
      * apply String.eqb_eq in Huv as ->.
        pose proof (replace_occurrence v _ v_word v_name v_plain EmptyString
                      (fill (filled (variableText context) done) body)) as Hocc.
        rewrite replace_empty in Hocc.
        change (EmptyString +:+ ?s) with s in Hocc.
        rewrite <- IH. exact Hocc.
      * apply String.eqb_neq in Huv.
        pose proof (replace_other_placeholder v _ v_word v_name v_plain u EmptyString
                      (fill (filled (variableText context) done) body)
                      (Hwords u (list_elem_of_here _ _)) Huv) as Hother.
        rewrite replace_empty in Hother.
        change (EmptyString +:+ ?s) with s in Hother.
        rewrite <- IH. exact Hother.
Qed.
End OnePass.

Section Filling.
Variable regExpReplace : string -> ReplaceValue -> string -> Result string.

(** The whole loop. *)
Lemma renderFrom_fill (context : PromptContext.t) (body : list Segment)
    (variables : list string) (done : list string) :
  existsb strayBrace body = false ->
  (forall w : string, Hole w ∈ body -> isWord w = true) ->
  (forall u : string, listIncludes done u = true ->
                      lacks "{" (variableText context u) = true) ->
  forallb (fun variable : string =>
             isWord variable && negb (isQuantifier variable)
             && inertValue (variableValue context variable))
    variables = true ->
  renderFrom regExpReplace context (fill (filled (variableText context) done) body)
    variables
    = Returned (fill (filled (variableText context) (done ++ variables)) body).
Proof.
  intros Hstray Hwords. revert done.
  induction variables as [| v variables IH]; intros done Hdone Hinert.
  - simpl. rewrite app_nil_r. reflexivity.
  - simpl in Hinert. apply andb_true_iff in Hinert as [Hv Hinert].
    apply andb_true_iff in Hv as [Hv Hvalue].
    apply andb_true_iff in Hv as [Hword Hname]. apply negb_true_iff in Hname.
    destruct (inertValue_text _ Hvalue) as (x & Hx & Hinertx).
    pose proof (variableText_value _ _ _ Hx) as Htext.
    cbn [renderFrom]. rewrite (substitute_text _ _ _ _ x Hword Hx).
    rewrite <- Htext in Hinertx |- *.
    rewrite (substitute_fill context done v Hword Hname (inert_plain _ Hinertx) Hdone body
               Hstray Hwords).
    rewrite IH; [| | exact Hinert].
    + rewrite <- app_assoc. reflexivity.
    + intros u Hu. rewrite listIncludes_app in Hu. apply orb_true_iff in Hu as [Hu | Hu].
      * apply Hdone. exact Hu.
      * unfold listIncludes in Hu. simpl in Hu. rewrite orb_false_r in Hu.
        apply String.eqb_eq in Hu as ->. apply inert_lacks. exact Hinertx.
Qed.

Lemma render_filled (template : PromptTemplate.t) (context : PromptContext.t) :
  existsb strayBrace (segments (PromptTemplate.template template)) = false ->
  inertVariables template context = true ->
  render regExpReplace template context
    = Returned
        (fill (filled (variableText context) (PromptTemplate.variables template))
           (segments (PromptTemplate.template template))).
Proof.
  intros Hstray Hinert. unfold render.
  rewrite <- (fill_segments (PromptTemplate.template template)) at 1.
  change placeholder with (filled (variableText context) []).
  rewrite renderFrom_fill; [reflexivity | exact Hstray | | | exact Hinert].
  - intros w Hw. apply (segmentsFrom_names _ _ _ Hw).
  - intros u Hu. discriminate Hu.
Qed.

End Filling.

(** X4. Rendering fills the placeholders all at once when the values are
    inert: on a body without stray opening brace, with declared names of
    word characters that are not numbers and values that are strings
    with neither an opening brace nor a replacement pattern, the result
    is the body in which each placeholder of a declared name is replaced
    by the value and every other placeholder is kept. *)
Theorem render_fills_declared
    (regExpReplace : string -> ReplaceValue -> string -> Result string)
    (template : PromptTemplate.t) (context : PromptContext.t) :
  existsb strayBrace (segments (PromptTemplate.template template)) = false ->
  inertVariables template context = true ->
  render regExpReplace template context
    = Returned
        (fill (fun name : string =>
                 if declares template name then variableText context name
                 else placeholder name)
           (segments (PromptTemplate.template template))).
Proof. exact (render_filled regExpReplace template context). Qed.

Lemma fill_ext (f g : string -> string) (body : list Segment) :
  (forall w : string, Hole w ∈ body -> f w = g w) ->
  fill f body = fill g body.
Proof.
  induction body as [| segment body IH]; intros H; [reflexivity |].
  simpl. rewrite IH.
  - destruct segment as [c | w]; simpl; [reflexivity |].
    rewrite (H w (list_elem_of_here _ _)). reflexivity.
  - intros w Hw. apply H, list_elem_of_further, Hw.
Qed.

Lemma lacks_fill (c : ascii) (f : string -> string) (body : list Segment) :
  (forall segment : Segment, segment ∈ body -> lacks c (fillSegment f segment) = true) ->
  lacks c (fill f body) = true.
Proof.
  induction body as [| segment body IH]; intros H; [reflexivity |].
  simpl. rewrite lacks_append, (H segment (list_elem_of_here _ _)), IH; [reflexivity |].
  intros s Hs. apply H, list_elem_of_further, Hs.
Qed.

Lemma strayBrace_lacks (body : list Segment) (c : ascii) :
  existsb strayBrace body = false -> Char c ∈ body ->
  lacks "{" (String c EmptyString) = true.
Proof.
  intros Hstray Hc.
  destruct (Ascii.eqb c "{") eqn:E.
  - assert (Hex : existsb strayBrace body = true).
    { apply existsb_exists. exists (Char c). split; [apply list_elem_of_In, Hc | exact E]. }
    rewrite Hex in Hstray. discriminate Hstray.
  - unfold lacks. simpl. rewrite E. reflexivity.
Qed.

Lemma declares_inert (template : PromptTemplate.t) (context : PromptContext.t)
    (w : string) :
  inertVariables template context = true -> declares template w = true ->
  inert (variableText context w) = true.
Proof.
  unfold inertVariables, declares. intros Hall Hw.
  apply listIncludes_elem in Hw.
  rewrite forallb_forall in Hall. apply list_elem_of_In, Hall in Hw.
  apply andb_true_iff in Hw as [_ Hw].
  destruct (inertValue_text _ Hw) as (x & Hx & Hinert).
  rewrite (variableText_value _ _ _ Hx). exact Hinert.
Qed.

Lemma validated_declares (template : PromptTemplate.t) (w : string) :
  validateTemplate template = [] ->
  Hole w ∈ segments (PromptTemplate.template template) ->
  declares template w = true.
Proof.
  intros Hvalid Hw. apply validateTemplate_nil in Hvalid as (_ & _ & _ & Hnone).
  destruct (declares template w) eqn:Hd; [reflexivity |].
  assert (Hin : w ∈ undeclaredVariables template)
    by (apply undeclared_elem; split; assumption).
  rewrite Hnone in Hin. inversion Hin.
Qed.

Lemma render_complete
    (regExpReplace : string -> ReplaceValue -> string -> Result string)
    (template : PromptTemplate.t) (context : PromptContext.t) :
  validateTemplate template = [] ->
  existsb strayBrace (segments (PromptTemplate.template template)) = false ->
  inertVariables template context = true ->
  render regExpReplace template context
    = Returned (fill (variableText context) (segments (PromptTemplate.template template)))
  /\ lacks "{" (fill (variableText context) (segments (PromptTemplate.template template)))
     = true.
Proof.
  intros Hvalid Hstray Hinert. split.
  - rewrite (render_filled _ _ _ Hstray Hinert). f_equal. apply fill_ext.
    intros w Hw. unfold filled.
    change (listIncludes (PromptTemplate.variables template) w)
      with (declares template w).
    rewrite (validated_declares _ _ Hvalid Hw). reflexivity.
  - apply lacks_fill.
    intros [c | w] Hs; simpl.
    + exact (strayBrace_lacks _ _ Hstray Hs).
    + apply inert_lacks, (declares_inert template); [exact Hinert |].
      exact (validated_declares _ _ Hvalid Hs).
Qed.

(** X5. A template that [validateTemplate] accepts and whose body has no
    stray opening brace renders completely when its declared names are
    names of word characters that are not numbers and their values are
    strings with neither an opening brace nor a replacement pattern: the
    result is the body with every placeholder replaced by its value, and
    no opening brace, hence no placeholder, is left in it. *)
Theorem validated_template_renders_completely
    (regExpReplace : string -> ReplaceValue -> string -> Result string)
    (template : PromptTemplate.t) (context : PromptContext.t) :
  validateTemplate template = [] ->
  existsb strayBrace (segments (PromptTemplate.template template)) = false ->
  inertVariables template context = true ->
  render regExpReplace template context
    = Returned (fill (variableText context) (segments (PromptTemplate.template template)))
  /\ lacks "{" (fill (variableText context) (segments (PromptTemplate.template template)))
     = true.
Proof. exact (render_complete regExpReplace template context). Qed.

(** The built-in templates pass their own validation, and their bodies
    have no stray opening brace. *)
Lemma defaultTemplates_valid :
  Forall (fun template : PromptTemplate.t =>
            validateTemplate template = []
            /\ existsb strayBrace (segments (PromptTemplate.template template)) = false)
    defaultTemplates.
Proof.
  repeat (apply Forall_cons; split; [split; vm_compute; reflexivity |]).
  constructor.
Qed.

Lemma default_render_complete
    (regExpReplace : string -> ReplaceValue -> string -> Result string)
    (template : PromptTemplate.t) (context : PromptContext.t) :
  template ∈ defaultTemplates ->
  forallb (fun variable : string => inertValue (variableValue context variable))
    (PromptTemplate.variables template) = true ->
  exists prompt : string,
    renderTemplate regExpReplace initializeDefaultTemplates (PromptTemplate.id template)
      context
      = Returned prompt
    /\ prompt = fill (variableText context) (segments (PromptTemplate.template template))
    /\ lacks "{" prompt = true.
Proof.
  intros Hin Hvalues.
  pose proof defaultTemplates_names as Hnames.
  pose proof defaultTemplates_valid as Hvalid.
  rewrite Forall_forall in Hnames, Hvalid.
  destruct (Hnames _ Hin) as [Hlookup Hnumbers], (Hvalid _ Hin) as [Hok Hstray].
  assert (Hinert : inertVariables template context = true).
  { unfold inertVariables. rewrite forallb_forall in *.
    intros v Hv. rewrite (Hvalues v Hv), andb_true_r.
    rewrite Forall_forall in Hnumbers.
    destruct (Hnumbers v (proj2 (list_elem_of_In _ _) Hv)) as [Hword Hname].
    rewrite Hword, Hname. reflexivity. }
  destruct (render_complete regExpReplace template context Hok Hstray Hinert)
    as [Hfill Hlacks].
  eexists. split; [| split; [reflexivity | exact Hlacks]].
  rewrite (renderTemplate_registered _ _ _ _ _ Hlookup). exact Hfill.
Qed.

(** X6. Each of the six built-in templates, looked up in the store of the
    constructor, renders completely for every context whose values are
    inert: every placeholder is replaced and none is left. *)
Theorem default_templates_render_completely
    (regExpReplace : string -> ReplaceValue -> string -> Result string)
    (template : PromptTemplate.t) (context : PromptContext.t) :
  template ∈ defaultTemplates ->
  forallb (fun variable : string => inertValue (variableValue context variable))
    (PromptTemplate.variables template) = true ->
  exists prompt : string,
    renderTemplate regExpReplace initializeDefaultTemplates (PromptTemplate.id template)
      context
      = Returned prompt
    /\ prompt = fill (variableText context) (segments (PromptTemplate.template template))
    /\ lacks "{" prompt = true.
Proof. exact (default_render_complete regExpReplace template context). Qed.

(** *** Prompts built from plain input *)

Lemma lacks_dollar_plain (s : string) :
  lacks "$" s = true -> hasReplacementPattern s = false.
Proof.
  unfold lacks. induction s as [| c s IH]; simpl; intros H; [reflexivity |].
  apply andb_true_iff in H as [Hc Hs]. apply negb_true_iff in Hc.
  rewrite Hc, (IH Hs). reflexivity.
Qed.

Lemma plainText_inert (s : string) : plainText s = true -> inert s = true.
Proof.
  unfold plainText, inert. intros H. apply andb_true_iff in H as [Hb Hd].
  rewrite Hb, (lacks_dollar_plain _ Hd). reflexivity.
Qed.

Lemma plainText_orElse (o : option string) (d : string) :
  plainOption o = true -> plainText d = true -> plainText (orElse o d) = true.
Proof. destruct o as [[| c s] |]; simpl; intros Ho Hd; assumption. Qed.

Lemma lacks_join (c : ascii) (sep : string) (l : list string) :
  lacks c sep = true -> Forall (fun s => lacks c s = true) l ->
  lacks c (join sep l) = true.
Proof.
  intros Hsep Hl. unfold join. induction Hl as [| s l Hs Hl IH]; [reflexivity |].
  destruct l as [| s' l]; [exact Hs |].
  change (String.concat sep (s :: s' :: l))
    with (s +:+ sep +:+ String.concat sep (s' :: l)).
  rewrite !lacks_append, Hs, Hsep, IH. reflexivity.
Qed.

Lemma lacks_formatMessage (c : ascii) (message : AIMessage) :
  lacks c "Student: Tutor" = true -> lacks c (content message) = true ->
  lacks c (formatMessage message) = true.
Proof.
  intros Hc Hm. unfold formatMessage. rewrite !lacks_append, Hm, andb_true_r.
  unfold lacks in *. simpl in Hc.
  repeat match type of Hc with
         | (_ && _ = true) => let H := fresh in apply andb_true_iff in Hc as [H Hc]
         end.
  destruct (role message); simpl;
    repeat (apply andb_true_iff; split; try assumption); reflexivity.
Qed.

Lemma plainText_formatConversationHistory (messages : list AIMessage) :
  forallb (fun message => plainText (content message)) messages = true ->
  plainText (formatConversationHistory messages) = true.
Proof.
  intros Hall. unfold formatConversationHistory.
  destruct messages as [| m messages]; [reflexivity |].
  set (history := m :: messages) in *.
  assert (Hlast : Forall (fun message => plainText (content message) = true)
                    (slice_last 5 history)).
  { unfold slice_last. apply Forall_drop. apply Forall_forall. intros x Hx.
    rewrite forallb_forall in Hall. apply Hall, list_elem_of_In, Hx. }
  unfold plainText. apply andb_true_iff.
  split; (apply lacks_join; [reflexivity |]); apply Forall_fmap;
    (eapply Forall_impl; [exact Hlast |]);
    intros x Hx; unfold plainText in Hx; apply andb_true_iff in Hx as [Hb Hd];
    (apply lacks_formatMessage; [reflexivity | assumption]).
Qed.

Lemma conversation_values (message : string) (history : list AIMessage)
    (context : ConversationContext.t) :
  plainText message = true ->
  forallb (fun earlier => plainText (content earlier)) history = true ->
  plainOption (ConversationContext.language context) = true ->
  plainOption (ConversationContext.level context) = true ->
  let promptContext := conversationPromptContext message history context in
  forallb (fun variable : string => inertValue (variableValue promptContext variable))
    ["language"; "level"; "conversationHistory"; "userMessage"] = true
  /\ forall name : string,
       name ∈ ["language"; "level"; "conversationHistory"; "userMessage"] ->
       variableText promptContext name = conversationValue message history context name.
Proof.
  intros Hmessage Hhistory Hlanguage Hlevel promptContext. split.
  - cbn [forallb].
    change (variableValue promptContext "language")
      with (Text (orElse (Some (orElse (ConversationContext.language context) "English"))
                    "English")).
    change (variableValue promptContext "level")
      with (Text (orElse (Some (orElse (ConversationContext.level context) "intermediate"))
                    "intermediate")).
    change (variableValue promptContext "conversationHistory")
      with (Text (formatConversationHistory history)).
    change (variableValue promptContext "userMessage")
      with (Text (orElse (Some message) EmptyString)).
    cbn [inertValue].
    rewrite !plainText_inert; [reflexivity | | | |].
    + apply plainText_orElse; [exact Hmessage | reflexivity].
    + apply plainText_formatConversationHistory. exact Hhistory.
    + apply plainText_orElse; [| reflexivity].
      apply plainText_orElse; [exact Hlevel | reflexivity].
    + apply plainText_orElse; [| reflexivity].
      apply plainText_orElse; [exact Hlanguage | reflexivity].
  - intros name Hname.
    rewrite !elem_of_cons, elem_of_nil in Hname.
    destruct Hname as [-> | [-> | [-> | [-> | []]]]].
    + change (variableText promptContext "language")
        with (orElse (Some (orElse (ConversationContext.language context) "English"))
                "English").
      change (conversationValue message history context "language")
        with (orElse (ConversationContext.language context) "English").
      destruct (ConversationContext.language context) as [[| c l] |]; reflexivity.
    + change (variableText promptContext "level")
        with (orElse (Some (orElse (ConversationContext.level context) "intermediate"))
                "intermediate").
      change (conversationValue message history context "level")
        with (orElse (ConversationContext.level context) "intermediate").
      destruct (ConversationContext.level context) as [[| c l] |]; reflexivity.
    + reflexivity.
    + change (variableText promptContext "userMessage")
        with (orElse (Some message) EmptyString).
      change (conversationValue message history context "userMessage") with message.
      destruct message; reflexivity.
Qed.

Lemma conversation_prompt
    (regExpReplace : string -> ReplaceValue -> string -> Result string)
    (template : PromptTemplate.t) (message : string) (history : list AIMessage)
    (context : ConversationContext.t) :
  template ∈ [conversation_tutor; conversation_friend] ->
  plainText message = true ->
  forallb (fun earlier => plainText (content earlier)) history = true ->
  plainOption (ConversationContext.language context) = true ->
  plainOption (ConversationContext.level context) = true ->
  let prompt :=
    fill (conversationValue message history context)
      (segments (PromptTemplate.template template)) in
  renderTemplate regExpReplace initializeDefaultTemplates (PromptTemplate.id template)
    (conversationPromptContext message history context)
    = Returned prompt
  /\ lacks "{" prompt = true.
Proof.
  intros Hin Hmessage Hhistory Hlanguage Hlevel prompt.
  destruct (conversation_values message history context
              Hmessage Hhistory Hlanguage Hlevel) as [Hinert Hvalues].
  assert (Hvars : PromptTemplate.variables template
                  = ["language"; "level"; "conversationHistory"; "userMessage"]).
  { rewrite !elem_of_cons, elem_of_nil in Hin. destruct Hin as [-> | [-> | []]]; reflexivity. }
  assert (Hdefault : template ∈ defaultTemplates).
  { rewrite !elem_of_cons, elem_of_nil in Hin. destruct Hin as [-> | [-> | []]];
      unfold defaultTemplates; rewrite !elem_of_cons; tauto. }
  destruct (default_render_complete regExpReplace template
              (conversationPromptContext message history context) Hdefault)
    as (rendered & Hrendered & Hfill & Hlacks).
  { rewrite Hvars. exact Hinert. }
  assert (Hsame : rendered = prompt).
  { rewrite Hfill. apply fill_ext. intros w Hw. apply Hvalues.
    pose proof defaultTemplates_valid as Hvalid. rewrite Forall_forall in Hvalid.
    destruct (Hvalid _ Hdefault) as [Hok _].
    pose proof (validated_declares _ _ Hok Hw) as Hd.
    unfold declares in Hd. rewrite Hvars in Hd.
    apply listIncludes_elem in Hd. exact Hd. }
  rewrite <- Hsame. split; assumption.
Qed.

(** X7. When the new message, the contents of the history, the language
    and the level contain neither an opening brace nor a dollar sign and
    the openai provider is selected, the tutor and the conversation-partner
    operations, with the store of the constructor, send the adapter a
    system message whose content is the body of their template with every
    placeholder filled (the language and the level, by default English and
    intermediate; the transcript of the history; the new message), then
    the last ten or eight messages of the history, then a user message
    whose content is the new message. No opening brace is left in the
    prompt. *)
Theorem conversation_prompts_are_filled
    (regExpReplace : string -> ReplaceValue -> string -> Result string)
    (openaiService : list AIMessage -> option Options.t -> Result Response.t)
    (defaultProvider : string) (message : string) (history : list AIMessage)
    (context : ConversationContext.t) (options : option Options.t)
    (calls : list AdapterCall) :
  plainText message = true ->
  forallb (fun earlier => plainText (content earlier)) history = true ->
  plainOption (ConversationContext.language context) = true ->
  plainOption (ConversationContext.level context) = true ->
  selectProvider defaultProvider options = AIProvider.OPENAI ->
  let value := conversationValue message history context in
  let tutorPrompt := fill value (segments conversation_tutor_template) in
  let partnerPrompt := fill value (segments conversation_friend_template) in
  lacks "{" tutorPrompt = true
  /\ lacks "{" partnerPrompt = true
  /\ snd (generateTutorResponse regExpReplace openaiService initializeDefaultTemplates
            defaultProvider message history context options calls)
     = calls ++ [{| sentMessages :=
                      {| role := Role.system; content := tutorPrompt; timestamp := None |}
                        :: slice_last 10 history
                        ++ [{| role := Role.user; content := message;
                               timestamp := None |}];
                    sentOptions := options |}]
  /\ snd (generateConversationPartnerResponse regExpReplace openaiService
            initializeDefaultTemplates defaultProvider message history context
            options calls)
     = calls ++ [{| sentMessages :=
                      {| role := Role.system; content := partnerPrompt;
                         timestamp := None |}
                        :: slice_last 8 history
                        ++ [{| role := Role.user; content := message;
                               timestamp := None |}];
                    sentOptions := Some (withTemperature options 0.8%Q) |}]
  /\ Options.temperature (withTemperature options 0.8%Q) = Some 0.8%Q.
Proof.
  intros Hmessage Hhistory Hlanguage Hlevel Hprovider value tutorPrompt partnerPrompt.
  destruct (conversation_prompt regExpReplace conversation_tutor message history context)
    as [Htutor Htutor_lacks]; try assumption; [set_solver |].
  destruct (conversation_prompt regExpReplace conversation_friend message history context)
    as [Hpartner Hpartner_lacks]; try assumption; [set_solver |].
  split; [exact Htutor_lacks |]. split; [exact Hpartner_lacks |].
  split.
  - rewrite (tutor_rendered _ _ _ _ tutorPrompt) by exact Htutor.
    rewrite chat_supported by exact Hprovider. reflexivity.
  - split; [| destruct options; reflexivity].
    rewrite (partner_rendered _ _ _ _ partnerPrompt) by exact Hpartner.
    rewrite chat_supported
      by (rewrite selectProvider_withTemperature; exact Hprovider).
    reflexivity.
Qed.

(** ** Variables that do not occur *)

Lemma replaceFrom_absent (re : RegExp) (x before s : string) :
  includes s (matchText re) = false -> replaceFrom re x before s 0 = s.
Proof.
  revert before. induction s as [| c s IH]; intros before H; [reflexivity |].
  simpl in H. apply orb_false_iff in H as [Hhere Hrest].
  simpl. unfold execAt. rewrite Hhere. f_equal. apply IH. exact Hrest.
Qed.

Lemma replaceCall_absent (re : RegExp) (replacer : string -> Result string) (s : string) :
  includes s (matchText re) = false -> replaceCall re replacer s 0 = Returned s.
Proof.
  induction s as [| c s IH]; intros H; [reflexivity |].
  simpl in H. apply orb_false_iff in H as [Hhere Hrest].
  cbn [replaceCall]. unfold execAt. rewrite Hhere, (IH Hrest). reflexivity.
Qed.

Lemma replaceWith_absent (re : RegExp) (value : ReplaceValue) (s : string) :
  includes s (matchText re) = false -> replaceWith re value s = Returned s.
Proof.
  intros H. destruct value as [x | member]; unfold replaceWith, replace.
  - rewrite (replaceFrom_absent _ _ _ _ H). reflexivity.
  - destruct (String.eqb member "__proto__").
    + rewrite (replaceFrom_absent _ _ _ _ H). reflexivity.
    + apply replaceCall_absent. exact H.
Qed.

Lemma render_unchanged
    (regExpReplace : string -> ReplaceValue -> string -> Result string)
    (template : PromptTemplate.t) (context : PromptContext.t) :
  forallb (fun variable : string =>
             isWord variable
             && negb (includes (PromptTemplate.template template)
                        (matchText (newRegExp variable))))
    (PromptTemplate.variables template) = true ->
  render regExpReplace template context = Returned (PromptTemplate.template template).
Proof.
  unfold render. generalize (PromptTemplate.template template) as body.
  induction (PromptTemplate.variables template) as [| v variables IH];
    intros body H; [reflexivity |].
  simpl in H. apply andb_true_iff in H as [Hv H].
  apply andb_true_iff in Hv as [Hword Hv]. apply negb_true_iff in Hv.
  cbn [renderFrom]. unfold substitute at 1. rewrite Hword.
  rewrite (replaceWith_absent _ _ _ Hv). apply IH. exact H.
Qed.

(** X8. A declared variable that is a name of word characters and whose
    pattern matches nowhere in the body changes nothing, whatever its
    value, a string or an inherited member: a template whose declared
    variables are such names, none of which occurs, renders as its
    body. *)
Theorem render_without_occurrence
    (regExpReplace : string -> ReplaceValue -> string -> Result string)
    (template : PromptTemplate.t) (context : PromptContext.t) :
  forallb (fun variable : string =>
             isWord variable
             && negb (includes (PromptTemplate.template template)
                        (matchText (newRegExp variable))))
    (PromptTemplate.variables template) = true ->
  render regExpReplace template context = Returned (PromptTemplate.template template).
Proof. exact (render_unchanged regExpReplace template context). Qed.

(** ** The template store *)

(** X9. Registering a template makes it the one that its id looks up and
    that [renderTemplate] renders under that id, in place of a template
    registered before under it, and leaves the lookup and the rendering
    of every other id as they were. *)
Theorem addTemplate_lookup
    (regExpReplace : string -> ReplaceValue -> string -> Result string)
    (templates : gmap string PromptTemplate.t)
    (template : PromptTemplate.t) (templateId : string) (context : PromptContext.t) :
  getTemplate (addTemplate templates template) templateId
    = (if String.eqb templateId (PromptTemplate.id template) then Some template
       else getTemplate templates templateId)
  /\ renderTemplate regExpReplace (addTemplate templates template) templateId context
     = (if String.eqb templateId (PromptTemplate.id template)
        then render regExpReplace template context
        else renderTemplate regExpReplace templates templateId context).
Proof.
  unfold renderTemplate, getTemplate, addTemplate.
  destruct (String.eqb_spec templateId (PromptTemplate.id template)) as [-> | Hne].
  - rewrite lookup_insert_eq. split; reflexivity.
  - rewrite lookup_insert_ne by congruence. split; reflexivity.
Qed.

Lemma addTemplate_keeps (templates : gmap string PromptTemplate.t)
    (added : list PromptTemplate.t) (templateId : string) :
  is_Some (templates !! templateId) ->
  is_Some (foldl addTemplate templates added !! templateId).
Proof.
  revert templates. induction added as [| t added IH]; intros templates H; [exact H |].
  simpl. apply IH. unfold addTemplate.
  destruct (String.eqb_spec templateId (PromptTemplate.id t)) as [-> | Hne].
  - rewrite lookup_insert_eq. eexists. reflexivity.
  - rewrite lookup_insert_ne by congruence. exact H.
Qed.

Lemma builtin_registered (added : list PromptTemplate.t) (template : PromptTemplate.t) :
  template ∈ defaultTemplates ->
  is_Some (storeAfter added !! PromptTemplate.id template).
Proof.
  intros Hin. apply addTemplate_keeps.
  pose proof defaultTemplates_names as Hnames. rewrite Forall_forall in Hnames.
  destruct (Hnames _ Hin) as [Hlookup _]. rewrite Hlookup. eexists. reflexivity.
Qed.

(** X10. No call of [addTemplate] removes a template: after the
    constructor and any sequence of registrations, the id of each of the
    six built-in templates is still registered, and [renderTemplate]
    does not miss it: it runs the loop over the variables of the template
    that the id now names. *)
Theorem builtin_ids_stay_registered
    (regExpReplace : string -> ReplaceValue -> string -> Result string)
    (added : list PromptTemplate.t)
    (template : PromptTemplate.t) (context : PromptContext.t) :
  template ∈ defaultTemplates ->
  exists registered : PromptTemplate.t,
    getTemplate (storeAfter added) (PromptTemplate.id template) = Some registered
    /\ renderTemplate regExpReplace (storeAfter added) (PromptTemplate.id template) context
       = render regExpReplace registered context.
Proof.
  intros Hin. destruct (builtin_registered added template Hin) as [registered Hr].
  exists registered. split; [exact Hr |].
  apply renderTemplate_registered. exact Hr.
Qed.

(** ** The orchestrator: outcomes and adapter calls *)

Section Outcomes.
Variable regExpReplace : string -> ReplaceValue -> string -> Result string.
Variable openaiService : list AIMessage -> option Options.t -> Result Response.t.
Variable defaultProvider : string.


(** The two ways in which [generateChatResponse] ends. *)
Lemma chat_cases (messages : list AIMessage) (options : option Options.t)
    (calls : list AdapterCall) :
  generateChatResponse openaiService defaultProvider messages options calls
    = (normalized "Failed to generate AI response" (openaiService messages options),
       calls ++ [{| sentMessages := messages; sentOptions := options |}])
  \/ generateChatResponse openaiService defaultProvider messages options calls
     = (Thrown (HttpException
                  ("Unsupported AI provider: " +:+ selectProvider defaultProvider options)
                  BAD_REQUEST),
        calls).
Proof.
  destruct (String.eqb_spec (selectProvider defaultProvider options) AIProvider.OPENAI)
    as [Hp | Hp].
  - left. apply chat_supported. exact Hp.
  - right. apply chat_unsupported. exact Hp.
Qed.


Lemma grows_none (n : nat) (calls : list AdapterCall) : grows n calls calls.
Proof. exists []. split; [symmetry; apply app_nil_r | simpl; lia]. Qed.

Lemma grows_one (calls : list AdapterCall) (call : AdapterCall) :
  grows 1 calls (calls ++ [call]).
Proof. exists [call]. split; [reflexivity | simpl; lia]. Qed.

Lemma chat_one_call (messages : list AIMessage) (options : option Options.t)
    (calls : list AdapterCall) :
  grows 1 calls
    (snd (generateChatResponse openaiService defaultProvider messages options calls)).
Proof.
  destruct (chat_cases messages options calls) as [-> | ->];
    [apply grows_one | apply grows_none].
Qed.

Lemma tutor_one_call (templates : gmap string PromptTemplate.t) (message : string)
    (history : list AIMessage) (context : ConversationContext.t)
    (options : option Options.t) (calls : list AdapterCall) :
  grows 1 calls
    (snd (generateTutorResponse regExpReplace openaiService templates defaultProvider
            message history context options calls)).
Proof.
  destruct (renderTemplate regExpReplace templates "conversation_tutor"
              (conversationPromptContext message history context))
    as [prompt | error] eqn:Hr.
  - rewrite (tutor_rendered _ _ _ _ prompt) by exact Hr. apply chat_one_call.
  - rewrite (tutor_thrown _ _ _ _ error) by exact Hr. apply grows_none.
Qed.

Lemma partner_one_call (templates : gmap string PromptTemplate.t) (message : string)
    (history : list AIMessage) (context : ConversationContext.t)
    (options : option Options.t) (calls : list AdapterCall) :
  grows 1 calls
    (snd (generateConversationPartnerResponse regExpReplace openaiService templates
            defaultProvider message history context options calls)).
Proof.
  destruct (renderTemplate regExpReplace templates "conversation_friend"
              (conversationPromptContext message history context))
    as [prompt | error] eqn:Hr.
  - rewrite (partner_rendered _ _ _ _ prompt) by exact Hr. apply chat_one_call.
  - rewrite (partner_thrown _ _ _ _ error) by exact Hr. apply grows_none.
Qed.

Lemma analyze_cases (templates : gmap string PromptTemplate.t) (text : string)
    (analysisType : AnalysisType.t) (context : AnalysisContext.t)
    (options : option Options.t) (calls : list AdapterCall) :
  (exists (messages : list AIMessage) (forwarded : option Options.t),
     analyzeText regExpReplace openaiService templates defaultProvider
         text analysisType context options calls
       = (normalized "Failed to analyze text" (openaiService messages forwarded),
          calls ++ [{| sentMessages := messages; sentOptions := forwarded |}]))
  \/ (exists (message : string) (status : nat),
        analyzeText regExpReplace openaiService templates defaultProvider
            text analysisType context options calls
          = (Thrown (HttpException message status), calls)).
Proof.
  destruct (renderTemplate regExpReplace templates (analysisTemplateId analysisType)
              (analysisPromptContext text context)) as [prompt | error] eqn:Hr.
  - destruct (String.eqb_spec (selectProvider defaultProvider options) AIProvider.OPENAI)
      as [Hp | Hp].
    + left. eexists _, _. apply (analyze_supported _ _ _ _ prompt); assumption.
    + right. eexists _, _. apply (analyze_unsupported _ _ _ _ prompt); assumption.
  - right. rewrite (analyze_thrown _ _ _ _ error) by exact Hr.
    destruct error; eexists _, _; reflexivity.
Qed.





(** X12. No operation of the orchestrator calls the adapter more than
    once, whatever the store, the provider and the outcome: the record of
    adapter calls grows by at most one call, and earlier calls are
    kept. *)
Theorem at_most_one_adapter_call
    (templates : gmap string PromptTemplate.t) (options : option Options.t)
    (calls : list AdapterCall) :
  (forall messages : list AIMessage,
     grows 1 calls
       (snd (generateChatResponse openaiService defaultProvider
               messages options calls)))
  /\ (forall (message : string) (history : list AIMessage)
        (context : ConversationContext.t),
        grows 1 calls
          (snd (generateTutorResponse regExpReplace openaiService templates
                  defaultProvider message history context options calls))
        /\ grows 1 calls
             (snd (generateConversationPartnerResponse regExpReplace openaiService
                     templates defaultProvider message history context options calls)))
  /\ (forall context : StarterContext.t,
        grows 1 calls
          (snd (generateConversationStarters regExpReplace openaiService templates
                  defaultProvider context options calls)))
  /\ (forall (text : string) (analysisType : AnalysisType.t)
        (context : AnalysisContext.t),
        grows 1 calls
          (snd (analyzeText regExpReplace openaiService templates defaultProvider
                  text analysisType context options calls)))
  /\ (forall provider : option string,
        grows 1 calls
          (snd (validateProviderConnection openaiService defaultProvider
                  provider calls))).
Proof.
  split; [| split; [| split; [| split]]].
  - intros messages. apply chat_one_call.
  - intros message history context.
    split; [apply tutor_one_call | apply partner_one_call].
  - intros context.
    destruct (renderTemplate regExpReplace templates "conversation_starter"
                (starterPromptContext context)) as [prompt | error] eqn:Hr.
    + rewrite (starters_rendered _ _ _ _ prompt) by exact Hr. apply chat_one_call.
    + rewrite (starters_thrown _ _ _ _ error) by exact Hr. apply grows_none.
  - intros text analysisType context.
    destruct (analyze_cases templates text analysisType context options calls)
      as [(messages & forwarded & ->) | (message & status & ->)];
      [apply grows_one | apply grows_none].
  - intros provider. unfold validateProviderConnection, tryCatch, bind, ret.
    destruct (chat_cases [userMessage "Hello, this is a connection test."]
                (Some (connectionTestOptions (orElse provider defaultProvider))) calls)
      as [-> | ->].
    + destruct (normalized _ _) as [r | e]; apply grows_one.
    + apply grows_none.
Qed.
End Outcomes.

(** ** From the controller to the completion call *)

Lemma orElse_empty (s : string) : orElse (Some s) EmptyString = s.
Proof. destruct s; reflexivity. Qed.

Lemma slice_last_fmap {A B : Type} (f : A -> B) (n : nat) (l : list A) :
  slice_last n (map f l) = map f (slice_last n l).
Proof. unfold slice_last. rewrite length_map. symmetry. apply fmap_drop. Qed.

Lemma stamped_sentAs (now : nat -> Z) (messages : list AIMessageDto.t) :
  map (fun msg : AIMessage => (role msg, content msg))
    (AIProvidersController.stamped now messages)
  = map sentAs messages.
Proof.
  unfold AIProvidersController.stamped. revert now.
  induction messages as [| m messages IH]; intros now; [reflexivity |].
  simpl. f_equal. apply (IH (now ∘ S)).
Qed.

Lemma lastContent_snoc (request : ChatResponseRequestDto.t)
    (earlier : list AIMessageDto.t) (final : AIMessageDto.t) :
  ChatResponseRequestDto.messages request = earlier ++ [final] ->
  AIProvidersController.lastContent request = AIMessageDto.content final.
Proof.
  intros Hm. unfold AIProvidersController.lastContent. rewrite Hm, last_snoc.
  apply orElse_empty.
Qed.

Lemma earlierMessages_snoc (now : nat -> Z) (request : ChatResponseRequestDto.t)
    (earlier : list AIMessageDto.t) (final : AIMessageDto.t) :
  ChatResponseRequestDto.messages request = earlier ++ [final] ->
  AIProvidersController.earlierMessages now request
    = AIProvidersController.stamped now earlier.
Proof.
  intros Hm. unfold AIProvidersController.earlierMessages. rewrite Hm. f_equal.
  rewrite length_app. simpl.
  replace (length earlier + 1 - 1) with (length earlier) by lia.
  apply take_app_length.
Qed.

Section Endpoints.
Variable regExpReplace : string -> ReplaceValue -> string -> Result string.
Variable create : ChatCompletionRequest.t -> Result ChatCompletion.t.
Variable defaultModel : string.
Variable templates : gmap string PromptTemplate.t.
Variable now : nat -> Z.

Let adapter : list AIMessage -> option Options.t -> Result Response.t :=
  OpenAI.generateCompletion create defaultModel.

(** What the caller of an orchestrator operation sees of a completion
    call. *)
Let answer (failure : string) (request : ChatCompletionRequest.t) : Result Response.t :=
  normalized failure
    match create request with
    | Returned completion => Returned (OpenAI.completionResponse completion)
    | Thrown error => Thrown error
    end.

(** X13. The connection test of the openai provider succeeds exactly
    when one completion call returns: the call for the default model with
    the single user message of the test, at most 10 tokens and the
    temperature 0, which the default 0.7 does not replace. *)
Theorem connection_test_request (defaultProvider : string) (calls : list AdapterCall) :
  fst (validateProviderConnection adapter defaultProvider (Some AIProvider.OPENAI) calls)
  = Returned
      match create {| ChatCompletionRequest.model := defaultModel;
                      ChatCompletionRequest.messages :=
                        [(Role.user, "Hello, this is a connection test.")];
                      ChatCompletionRequest.temperature := 0%Q;
                      ChatCompletionRequest.max_tokens := 10%Z |} with
      | Returned _ => true
      | Thrown _ => false
      end.
Proof.
  unfold validateProviderConnection, tryCatch, bind, ret.
  rewrite chat_supported by reflexivity.
  unfold adapter, OpenAI.generateCompletion, OpenAI.completionRequest. simpl.
  destruct (create _) as [completion | error]; [reflexivity |].
  simpl. destruct (isHttpException error); reflexivity.
Qed.

(** X14. The tutor and the conversation-partner endpoints, with openai
    as default provider and prompts that render: the content of the last
    message of the request becomes the new user message, whatever its
    role, and the messages before it the history. The completion call
    carries the system prompt, the last ten (tutor) or eight (partner)
    earlier messages with their roles, in order and without time stamps,
    and one user message; the default model; the temperature of the
    request or 0.7 (tutor), always 0.8 (partner); the token limit of the
    request or 1000. *)
Theorem conversation_endpoints_request
    (tutor friend : string) (request : ChatResponseRequestDto.t)
    (earlier : list AIMessageDto.t) (final : AIMessageDto.t)
    (language level userId conversationId : option string)
    (calls : list AdapterCall) :
  ChatResponseRequestDto.messages request = earlier ++ [final] ->
  let promptContext :=
    conversationPromptContext (AIMessageDto.content final)
      (AIProvidersController.stamped now earlier)
      (AIProvidersController.queryContext language level userId conversationId) in
  renderTemplate regExpReplace templates "conversation_tutor" promptContext
    = Returned tutor ->
  renderTemplate regExpReplace templates "conversation_friend" promptContext
    = Returned friend ->
  fst (AIProvidersController.generateTutorResponse regExpReplace adapter templates
         AIProvider.OPENAI now request language level userId conversationId calls)
  = answer "Failed to generate AI response"
      {| ChatCompletionRequest.model := defaultModel;
         ChatCompletionRequest.messages :=
           (Role.system, tutor)
             :: slice_last 10 (map sentAs earlier)
             ++ [(Role.user, AIMessageDto.content final)];
         ChatCompletionRequest.temperature :=
           default 0.7%Q (ChatResponseRequestDto.temperature request);
         ChatCompletionRequest.max_tokens :=
           default 1000%Z (ChatResponseRequestDto.maxTokens request) |}
  /\ fst (AIProvidersController.generateConversationPartnerResponse regExpReplace
            adapter templates AIProvider.OPENAI now request language level userId
            conversationId calls)
     = answer "Failed to generate AI response"
         {| ChatCompletionRequest.model := defaultModel;
            ChatCompletionRequest.messages :=
              (Role.system, friend)
                :: slice_last 8 (map sentAs earlier)
                ++ [(Role.user, AIMessageDto.content final)];
            ChatCompletionRequest.temperature := 0.8%Q;
            ChatCompletionRequest.max_tokens :=
              default 1000%Z (ChatResponseRequestDto.maxTokens request) |}.
Proof.
  intros Hmessages promptContext Htutor Hfriend.
  unfold AIProvidersController.generateTutorResponse,
    AIProvidersController.generateConversationPartnerResponse.
  rewrite (lastContent_snoc _ _ _ Hmessages), (earlierMessages_snoc _ _ _ _ Hmessages).
  rewrite (tutor_rendered _ _ _ _ tutor) by exact Htutor.
  rewrite (partner_rendered _ _ _ _ friend) by exact Hfriend.
  rewrite !chat_supported by reflexivity.
  unfold answer, adapter, OpenAI.generateCompletion, OpenAI.completionRequest.
  cbn [fst].
  rewrite !map_app, <- !slice_last_fmap, !stamped_sentAs.
  split; reflexivity.
Qed.

(** X15. With an empty list of messages the two endpoints do not fail
    on that account: the new user message is the empty string and the
    history is empty, so that, when the prompts render, the completion
    call carries the system prompt and one empty user message. *)
Theorem conversation_endpoints_empty_request
    (tutor friend : string) (request : ChatResponseRequestDto.t)
    (language level userId conversationId : option string)
    (calls : list AdapterCall) :
  ChatResponseRequestDto.messages request = [] ->
  let promptContext :=
    conversationPromptContext EmptyString []
      (AIProvidersController.queryContext language level userId conversationId) in
  renderTemplate regExpReplace templates "conversation_tutor" promptContext
    = Returned tutor ->
  renderTemplate regExpReplace templates "conversation_friend" promptContext
    = Returned friend ->
  fst (AIProvidersController.generateTutorResponse regExpReplace adapter templates
         AIProvider.OPENAI now request language level userId conversationId calls)
  = answer "Failed to generate AI response"
      {| ChatCompletionRequest.model := defaultModel;
         ChatCompletionRequest.messages :=
           [(Role.system, tutor); (Role.user, EmptyString)];
         ChatCompletionRequest.temperature :=
           default 0.7%Q (ChatResponseRequestDto.temperature request);
         ChatCompletionRequest.max_tokens :=
           default 1000%Z (ChatResponseRequestDto.maxTokens request) |}
  /\ fst (AIProvidersController.generateConversationPartnerResponse regExpReplace
            adapter templates AIProvider.OPENAI now request language level userId
            conversationId calls)
     = answer "Failed to generate AI response"
         {| ChatCompletionRequest.model := defaultModel;
            ChatCompletionRequest.messages :=
              [(Role.system, friend); (Role.user, EmptyString)];
            ChatCompletionRequest.temperature := 0.8%Q;
            ChatCompletionRequest.max_tokens :=
              default 1000%Z (ChatResponseRequestDto.maxTokens request) |}.
Proof.
  intros Hmessages promptContext Htutor Hfriend.
  unfold AIProvidersController.generateTutorResponse,
    AIProvidersController.generateConversationPartnerResponse,
    AIProvidersController.lastContent, AIProvidersController.earlierMessages.
  rewrite Hmessages.
  change (AIProvidersController.stamped now (take (length (@nil AIMessageDto.t) - 1) []))
    with (@nil AIMessage).
  change (orElse (AIMessageDto.content <$> last []) EmptyString) with EmptyString.
  rewrite (tutor_rendered _ _ _ _ tutor) by exact Htutor.
  rewrite (partner_rendered _ _ _ _ friend) by exact Hfriend.
  rewrite !chat_supported by reflexivity.
  split; reflexivity.
Qed.

(** X16. The chat endpoint, with openai as default provider: the
    completion call carries the messages of the request with their roles,
    in order and without time stamps, after one system message when the
    request has a non-empty system prompt; the default model; the
    temperature of the request or 0.7 and its token limit or 1000. *)
Theorem chat_endpoint_request (request : ChatResponseRequestDto.t)
    (calls : list AdapterCall) :
  fst (AIProvidersController.generateChatResponse adapter AIProvider.OPENAI now
         request calls)
  = answer "Failed to generate AI response"
      {| ChatCompletionRequest.model := defaultModel;
         ChatCompletionRequest.messages :=
           match truthy (ChatResponseRequestDto.systemPrompt request) with
           | Some systemPrompt => [(Role.system, systemPrompt)]
           | None => []
           end ++ map sentAs (ChatResponseRequestDto.messages request);
         ChatCompletionRequest.temperature :=
           default 0.7%Q (ChatResponseRequestDto.temperature request);
         ChatCompletionRequest.max_tokens :=
           default 1000%Z (ChatResponseRequestDto.maxTokens request) |}.
Proof.
  unfold AIProvidersController.generateChatResponse.
  destruct (ChatResponseRequestDto.systemPrompt request) as [[| c s] |];
    rewrite chat_supported by reflexivity;
    unfold answer, adapter, OpenAI.generateCompletion, OpenAI.completionRequest;
    cbn [fst truthy]; cbn [map]; rewrite stamped_sentAs; reflexivity.
Qed.

(** X17. The analysis endpoint, with openai as default provider and the
    prompt of the analysis type rendered: the completion call carries
    one user message, the rendered analysis prompt, with the temperature
    0.3 and at most 1000 tokens, for the model of the request, or the
    default model when the request names none or the empty string. *)
Theorem analysis_endpoint_request (prompt : string)
    (request : TextAnalysisRequestDto.t) (language level : option string)
    (calls : list AdapterCall) :
  renderTemplate regExpReplace templates
    (analysisTemplateId (TextAnalysisRequestDto.analysisType request))
    (analysisPromptContext (TextAnalysisRequestDto.text request)
       {| AnalysisContext.language := language; AnalysisContext.level := level |})
    = Returned prompt ->
  fst (AIProvidersController.analyzeText regExpReplace adapter templates
         AIProvider.OPENAI request language level calls)
  = answer "Failed to analyze text"
      {| ChatCompletionRequest.model :=
           orElse (TextAnalysisRequestDto.model request) defaultModel;
         ChatCompletionRequest.messages := [(Role.user, prompt)];
         ChatCompletionRequest.temperature := 0.3%Q;
         ChatCompletionRequest.max_tokens := 1000%Z |}.
Proof.
  intros Hr. unfold AIProvidersController.analyzeText.
  rewrite (analyze_supported _ _ _ _ prompt) by (exact Hr || reflexivity).
  reflexivity.
Qed.
End Endpoints.

(** ** Health of the providers *)

Section Health.
Variable openaiService : list AIMessage -> option Options.t -> Result Response.t.
Variable defaultProvider : string.

Let testMessages : list AIMessage := [userMessage "Hello, this is a connection test."].

Lemma validate_openai (calls : list AdapterCall) :
  validateProviderConnection openaiService defaultProvider (Some AIProvider.OPENAI) calls
  = (Returned
       match openaiService testMessages (Some (connectionTestOptions AIProvider.OPENAI)) with
       | Returned _ => true
       | Thrown _ => false
       end,
     calls ++ [{| sentMessages := testMessages;
                  sentOptions := Some (connectionTestOptions AIProvider.OPENAI) |}]).
Proof.
  unfold validateProviderConnection, tryCatch, bind, ret.
  rewrite chat_supported by reflexivity. fold testMessages.
  change (orElse (Some AIProvider.OPENAI) defaultProvider) with AIProvider.OPENAI.
  destruct (openaiService testMessages (Some (connectionTestOptions AIProvider.OPENAI)))
    as [r | e]; [reflexivity |].
  simpl. destruct (isHttpException e); reflexivity.
Qed.

Lemma validate_without_adapter (provider : string) (calls : list AdapterCall) :
  orElse (Some provider) defaultProvider <> AIProvider.OPENAI ->
  validateProviderConnection openaiService defaultProvider (Some provider) calls
  = (Returned false, calls).
Proof.
  intros Hp. unfold validateProviderConnection, tryCatch, bind, ret.
  rewrite chat_unsupported; [reflexivity |].
  unfold selectProvider. simpl Options.provider.
  destruct provider as [| c p], defaultProvider as [| d q]; exact Hp.
Qed.

(** X18. The health report never says that all providers are healthy:
    the anthropic provider has no adapter, so its check is false and
    [overall] is false whatever the openai adapter answers. The report
    lists openai with the outcome of one connection test and anthropic
    with false; that test is the only adapter call. *)
Theorem checkHealth_report (timestamp : string) (calls : list AdapterCall) :
  AIProvidersController.checkHealth openaiService defaultProvider timestamp calls
  = (Returned
       {| HealthReport.timestamp := timestamp;
          HealthReport.providers :=
            [ (AIProvider.OPENAI,
               match openaiService testMessages
                       (Some (connectionTestOptions AIProvider.OPENAI)) with
               | Returned _ => true
               | Thrown _ => false
               end);
              (AIProvider.ANTHROPIC, false) ];
          HealthReport.overall := false |},
     calls ++ [{| sentMessages := testMessages;
                  sentOptions := Some (connectionTestOptions AIProvider.OPENAI) |}]).
Proof.
  unfold AIProvidersController.checkHealth, providers.
  cbn [map allSettled]. unfold settled, bind at 1 2 3 4 5.
  rewrite validate_openai. cbn [ret].
  unfold bind, ret. rewrite validate_without_adapter by discriminate.
  cbn [map forallb snd]. rewrite andb_false_r. reflexivity.
Qed.
End Health.

(** ** Models and prices *)

(** X19. Models are listed for the openai provider only, and the price
    table does not cover the list: [gpt-4-turbo] and [gpt-3.5-turbo-16k]
    are offered without a price. For every model name that has no price
    and is not the name of one of the twelve members inherited from
    [Object.prototype], these two among them, [calculateCost] returns the
    number zero whatever the token counts; for the name of such a member
    it returns NaN. Every model with a price is one of the models
    offered. *)
Theorem models_and_prices (defaultProvider : string) :
  (forall provider : option string,
     orElse provider defaultProvider <> AIProvider.OPENAI ->
     getAvailableModels defaultProvider provider = []
     /\ AIProvidersController.getAvailableModels defaultProvider provider
        = (orElse provider defaultProvider, []))
  /\ filter (fun model : string => pricing !! model = None)
       (getAvailableModels defaultProvider (Some AIProvider.OPENAI))
     = ["gpt-4-turbo"; "gpt-3.5-turbo-16k"]
  /\ (forall (model : string) (promptTokens completionTokens : N),
        pricing !! model = None ->
        calculateCost model promptTokens completionTokens
        = if bool_decide
               (model ∈ ["constructor"; "__defineGetter__"; "__defineSetter__";
                         "hasOwnProperty"; "__lookupGetter__";
                         "__lookupSetter__"; "isPrototypeOf";
                         "propertyIsEnumerable"; "toString"; "valueOf";
                         "__proto__"; "toLocaleString"])
          then Double.NaN else SpecFloat.S754_zero false)
  /\ (forall promptTokens completionTokens : N,
        calculateCost "gpt-4-turbo" promptTokens completionTokens
          = SpecFloat.S754_zero false
        /\ calculateCost "gpt-3.5-turbo-16k" promptTokens completionTokens
           = SpecFloat.S754_zero false)
  /\ (forall model : string,
        is_Some (pricing !! model) ->
        model ∈ getAvailableModels defaultProvider (Some AIProvider.OPENAI)).
Proof.
  split; [| split; [| split; [| split]]].
  - intros provider Hp. unfold AIProvidersController.getAvailableModels, getAvailableModels.
    apply String.eqb_neq in Hp. rewrite Hp. split; reflexivity.
  - vm_compute. reflexivity.
  - intros model promptTokens completionTokens Hm.
    case_bool_decide as Hin.
    + apply calculateCost_inherited; [assumption |].
      apply inherited_members. exact Hin.
    + apply calculateCost_unknown_model; [assumption |].
      destruct (inherited model) eqn:Hown; [| reflexivity].
      exfalso. apply Hin, inherited_members. exact Hown.
  - intros promptTokens completionTokens.
    split; apply calculateCost_unknown_model; vm_compute; reflexivity.
  - intros model Hsome. apply pricing_models in Hsome.
    change (getAvailableModels defaultProvider (Some AIProvider.OPENAI))
      with ["gpt-4o-mini"; "gpt-4o"; "gpt-4-turbo"; "gpt-4"; "gpt-3.5-turbo";
            "gpt-3.5-turbo-16k"].
    rewrite !elem_of_cons, elem_of_nil in *. tauto.
Qed.

(** ** The chat demo *)

Section Demo.
Variable exec : RegExpLiteral.t -> string -> nat -> option MatchResult.
Variable regExpReplace : string -> ReplaceValue -> string -> Result string.
Variable openaiService : list AIMessage -> option Options.t -> Result Response.t.
Variable defaultProvider : string.

Lemma chatDemo_returns (templates : gmap string PromptTemplate.t)
    (request : ChatDemoRequestDto.t) (timestamp : string) (calls : list AdapterCall) :
  exists (response : ChatDemoResponse) (after : list AdapterCall),
    chatDemo exec regExpReplace openaiService templates defaultProvider
      request timestamp calls
      = (Returned response, after)
    /\ grows 2 calls after.
Proof.
  unfold chatDemo, tryCatch, bind, ret.
  destruct (analyze_cases regExpReplace openaiService defaultProvider templates
              (ChatDemoRequestDto.message request) AnalysisType.grammar
              {| AnalysisContext.language :=
                   Some (defaulted (ChatDemoRequestDto.language request) "English");
                 AnalysisContext.level :=
                   Some (defaulted (ChatDemoRequestDto.level request) "intermediate") |}
              (Some {| Options.temperature := Some 0.3%Q;
                       Options.maxTokens := None;
                       Options.model := None;
                       Options.conversationId := None;
                       Options.userId := None;
                       Options.provider := None |})
              calls)
    as [(messages & forwarded & ->) | (message & status & ->)].
  - destruct (normalized _ _) as [analysis | error].
    + set (context := {| ConversationContext.language := _ |}).
      set (message := ChatDemoRequestDto.message request).
      set (before := calls ++ _).
      destruct (String.eqb _ "conversation-partner").
      * pose proof (partner_one_call regExpReplace openaiService defaultProvider
                      templates message [] context None before)
          as (extra & Hafter & Hlength).
        destruct (generateConversationPartnerResponse _ _ _ _ _ _ _ _ _)
          as [[reply | error] after]; simpl in Hafter; subst after before;
          (eexists _, _; split; [reflexivity |]);
          (eexists; split; [rewrite <- app_assoc; reflexivity | simpl; lia]).
      * pose proof (tutor_one_call regExpReplace openaiService defaultProvider
                      templates message [] context None before)
          as (extra & Hafter & Hlength).
        destruct (generateTutorResponse _ _ _ _ _ _ _ _ _)
          as [[reply | error] after]; simpl in Hafter; subst after before;
          (eexists _, _; split; [reflexivity |]);
          (eexists; split; [rewrite <- app_assoc; reflexivity | simpl; lia]).
    + eexists _, _. split; [reflexivity |].
      eexists. split; [reflexivity | simpl; lia].
  - eexists _, _. split; [reflexivity |]. apply grows_none.
Qed.

(** X20. [chatDemo] never throws: whatever the request, the store, the
    provider and the adapter do, it returns a response object, after at
    most two adapter calls. *)
Theorem chatDemo_never_throws (templates : gmap string PromptTemplate.t)
    (request : ChatDemoRequestDto.t) (timestamp : string) (calls : list AdapterCall) :
  exists (response : ChatDemoResponse) (after : list AdapterCall),
    chatDemo exec regExpReplace openaiService templates defaultProvider
      request timestamp calls
      = (Returned response, after)
    /\ grows 2 calls after.
Proof. exact (chatDemo_returns templates request timestamp calls). Qed.



(** X22. [quickTest] always reports success: [chatDemo] catches every
    failure itself, so the [catch] block of [quickTest] is never entered
    and the result says "API AI fonctionne correctement !" with the
    response of [chatDemo] as example. When every call of the adapter
    fails, that example is the failure response of [chatDemo]. *)
Theorem quickTest_always_reports_success
    (templates : gmap string PromptTemplate.t) (inner outer : string)
    (calls : list AdapterCall) :
  (exists (example : ChatDemoResponse) (after : list AdapterCall),
     chatDemo exec regExpReplace openaiService templates defaultProvider
       quickTestRequest inner calls
       = (Returned example, after)
     /\ quickTest exec regExpReplace openaiService templates defaultProvider
          inner outer calls
        = (Returned (QuickTestSuccess "API AI fonctionne correctement !" example outer),
           after))
  /\ (forall error : Exception,
        fst (quickTest exec regExpReplace (failing error) templates AIProvider.OPENAI
               inner outer calls)
        = Returned
            (QuickTestSuccess "API AI fonctionne correctement !"
               (ChatDemoFailure "Erreur lors du traitement de votre message"
                  (match
                     renderTemplate regExpReplace templates "grammar_correction"
                       (analysisPromptContext
                          "Hello, I want practice English conversation with you!"
                          {| AnalysisContext.language := Some "English";
                             AnalysisContext.level := Some "intermediate" |})
                   with
                   | Returned _ =>
                       if isHttpException error then errorMessage error
                       else "Failed to analyze text"
                   | Thrown thrown =>
                       if isHttpException thrown then errorMessage thrown
                       else "Failed to analyze text"
                   end)
                  inner)
               outer)).
Proof.
  split.
  - destruct (chatDemo_returns templates quickTestRequest inner calls)
      as (example & after & Hdemo & _).
    exists example, after. split; [exact Hdemo |].
    unfold quickTest, tryCatch, bind, ret. fold quickTestRequest.
    rewrite Hdemo. reflexivity.
  - intros error.
    unfold quickTest, chatDemo, tryCatch, bind, ret.
    cbn [ChatDemoRequestDto.message ChatDemoRequestDto.language
         ChatDemoRequestDto.level ChatDemoRequestDto.mode defaulted].
    destruct (renderTemplate regExpReplace templates "grammar_correction" _)
      as [prompt | thrown] eqn:Hr.
    + rewrite (analyze_supported _ _ _ _ prompt) by (exact Hr || reflexivity).
      unfold failing. cbn [normalized].
      destruct error; reflexivity.
    + rewrite (analyze_thrown _ _ _ _ thrown) by exact Hr.
      destruct thrown; reflexivity.
Qed.
End Demo.

(** ** The templates in the order of their registration *)

Lemma contents_mapSet (entries : TemplateMap) (key : string) (value : PromptTemplate.t) :
  contents (mapSet entries key value) = <[key := value]> (contents entries).
Proof.
  unfold contents. induction entries as [| [k v] entries IH]; [reflexivity |].
  simpl. destruct (String.eqb_spec k key) as [-> | Hne]; simpl.
  - rewrite insert_insert_eq. reflexivity.
  - rewrite IH. apply insert_insert_ne. congruence.
Qed.

Lemma contents_foldl (entries : TemplateMap) (added : list PromptTemplate.t) :
  contents (foldl Listing.addTemplate entries added)
    = foldl addTemplate (contents entries) added.
Proof.
  revert entries. induction added as [| t added IH]; intros entries; [reflexivity |].
  simpl. rewrite IH. unfold Listing.addTemplate. rewrite contents_mapSet.
  reflexivity.
Qed.

(** The lookups work on the content of the listed entries. *)
Lemma contents_storeAfter (added : list PromptTemplate.t) :
  contents (Listing.storeAfter added) = storeAfter added.
Proof.
  unfold Listing.storeAfter, Listing.initializeDefaultTemplates, storeAfter,
    initializeDefaultTemplates.
  rewrite !contents_foldl. reflexivity.
Qed.

Lemma mapSet_keys (entries : TemplateMap) (key : string) (value : PromptTemplate.t) :
  map fst (mapSet entries key value)
    = if listIncludes (map fst entries) key then map fst entries
      else map fst entries ++ [key].
Proof.
  induction entries as [| [k v] entries IH]; [reflexivity |].
  unfold listIncludes in *. simpl.
  rewrite (String.eqb_sym key k).
  destruct (String.eqb_spec k key) as [-> | Hne]; simpl; [reflexivity |].
  rewrite IH. destruct (existsb (String.eqb key) (map fst entries)); reflexivity.
Qed.

Lemma mapSet_entries (entries : TemplateMap) (key : string) (value : PromptTemplate.t)
    (entry : string * PromptTemplate.t) :
  entry ∈ mapSet entries key value -> entry = (key, value) \/ entry ∈ entries.
Proof.
  induction entries as [| [k v] entries IH]; simpl.
  - rewrite list_elem_of_singleton. tauto.
  - destruct (String.eqb k key); rewrite !elem_of_cons; [tauto |].
    intros [H | H]; [tauto |]. destruct (IH H); tauto.
Qed.

Lemma keyed_addTemplate (entries : TemplateMap) (template : PromptTemplate.t) :
  keyed entries -> keyed (Listing.addTemplate entries template).
Proof.
  intros [Hkeys Hids]. unfold Listing.addTemplate. split.
  - rewrite mapSet_keys.
    destruct (listIncludes (map fst entries) (PromptTemplate.id template)) eqn:Hin;
      [exact Hkeys |].
    apply listIncludes_not_elem in Hin.
    apply NoDup_app. split; [exact Hkeys |]. split; [| apply NoDup_singleton].
    intros k Hk Hk'. apply list_elem_of_singleton in Hk' as ->. contradiction.
  - apply Forall_forall. intros entry Hentry.
    apply mapSet_entries in Hentry as [-> | Hentry]; [reflexivity |].
    rewrite Forall_forall in Hids. apply Hids. exact Hentry.
Qed.

Lemma keyed_foldl (entries : TemplateMap) (added : list PromptTemplate.t) :
  keyed entries -> keyed (foldl Listing.addTemplate entries added).
Proof.
  revert entries. induction added as [| t added IH]; intros entries H; [exact H |].
  simpl. apply IH, keyed_addTemplate, H.
Qed.

Lemma keyed_storeAfter (added : list PromptTemplate.t) : keyed (Listing.storeAfter added).
Proof.
  unfold Listing.storeAfter, Listing.initializeDefaultTemplates.
  apply keyed_foldl, keyed_foldl. split; [apply NoDup_nil_2 | constructor].
Qed.

(** Setting a key that is present replaces the value where it stands. *)
Lemma mapSet_present (entries : TemplateMap) (template : PromptTemplate.t) :
  keyed entries ->
  listIncludes (map fst entries) (PromptTemplate.id template) = true ->
  map snd (mapSet entries (PromptTemplate.id template) template)
    = map (fun registered =>
             if String.eqb (PromptTemplate.id registered) (PromptTemplate.id template)
             then template else registered)
        (map snd entries).
Proof.
  intros [Hkeys Hids] Hin.
  induction entries as [| [k v] entries IH]; [discriminate Hin |].
  simpl in Hkeys. apply NoDup_cons in Hkeys as [Hk Hkeys].
  apply Forall_cons in Hids as [Hid Hids]. simpl in Hid. subst k.
  simpl.
  destruct (String.eqb_spec (PromptTemplate.id v) (PromptTemplate.id template))
    as [Heq | Hne]; simpl.
  - f_equal. rewrite Heq in Hk. clear IH Hin Hkeys.
    induction entries as [| [k' v'] entries IH]; [reflexivity |].
    apply Forall_cons in Hids as [Hid' Hids]. simpl in Hid'. subst k'.
    simpl in Hk. apply not_elem_of_cons in Hk as [Hne Hk].
    simpl. apply String.eqb_neq in Hne. rewrite String.eqb_sym, Hne.
    f_equal. apply IH; assumption.
  - f_equal. apply IH; [assumption | assumption |].
    unfold listIncludes in *. simpl in Hin.
    apply String.eqb_neq in Hne. rewrite String.eqb_sym, Hne in Hin. exact Hin.
Qed.

Lemma mapSet_absent (entries : TemplateMap) (key : string) (value : PromptTemplate.t) :
  listIncludes (map fst entries) key = false ->
  mapSet entries key value = entries ++ [(key, value)].
Proof.
  unfold listIncludes. induction entries as [| [k v] entries IH]; [reflexivity |].
  simpl. intros H. apply orb_false_iff in H as [Hk H].
  rewrite String.eqb_sym, Hk, (IH H). reflexivity.
Qed.

Lemma keys_registered (entries : TemplateMap) (key : string) :
  listIncludes (map fst entries) key = true <-> is_Some (contents entries !! key).
Proof.
  rewrite listIncludes_elem. unfold contents.
  rewrite <- elem_of_dom, dom_list_to_map_L, elem_of_list_to_set. reflexivity.
Qed.

(** X23. [getAllTemplates] lists the templates in the order in which
    their ids were first registered: the six built-in templates in the
    order of the source, then the ids added later. Registering a template
    under an id that is present replaces the template at its place in the
    list; a new id goes to the end. *)
Theorem getAllTemplates_order (added : list PromptTemplate.t)
    (template : PromptTemplate.t) :
  Listing.getAllTemplates Listing.initializeDefaultTemplates = defaultTemplates
  /\ Listing.getAllTemplates (Listing.addTemplate (Listing.storeAfter added) template)
     = match getTemplate (storeAfter added) (PromptTemplate.id template) with
       | Some _ =>
           map (fun registered =>
                  if String.eqb (PromptTemplate.id registered) (PromptTemplate.id template)
                  then template else registered)
             (Listing.getAllTemplates (Listing.storeAfter added))
       | None => Listing.getAllTemplates (Listing.storeAfter added) ++ [template]
       end.
Proof.
  split; [vm_compute; reflexivity |].
  unfold getTemplate, Listing.getAllTemplates, Listing.addTemplate.
  rewrite <- contents_storeAfter.
  destruct (listIncludes (map fst (Listing.storeAfter added)) (PromptTemplate.id template))
    eqn:Hin.
  - pose proof (proj1 (keys_registered _ _) Hin) as [registered ->].
    apply mapSet_present; [apply keyed_storeAfter | exact Hin].
  - assert (Hnone : contents (Listing.storeAfter added) !! PromptTemplate.id template = None).
    { apply eq_None_not_Some. rewrite <- keys_registered, Hin. discriminate. }
    rewrite Hnone, (mapSet_absent _ _ _ Hin), map_app. reflexivity.
Qed.

Lemma sameCategory_eq (a b : Category.t) : sameCategory a b = true <-> a = b.
Proof. destruct a, b; simpl; split; congruence. Qed.

(** X24. After the constructor and any sequence of registrations,
    [getTemplatesByCategory] returns exactly the templates that
    [getTemplate] finds under their own id and that have the category,
    and [getAllTemplates] lists no id twice. *)
Theorem getTemplatesByCategory_exact (added : list PromptTemplate.t)
    (category : Category.t) (template : PromptTemplate.t) :
  (template ∈ Listing.getTemplatesByCategory (Listing.storeAfter added) category
   <-> getTemplate (storeAfter added) (PromptTemplate.id template) = Some template
       /\ PromptTemplate.category template = category)
  /\ NoDup (map PromptTemplate.id (Listing.getAllTemplates (Listing.storeAfter added))).
Proof.
  destruct (keyed_storeAfter added) as [Hkeys Hids].
  rewrite Forall_forall in Hids.
  assert (Hentry : template ∈ Listing.getAllTemplates (Listing.storeAfter added)
                   <-> getTemplate (storeAfter added) (PromptTemplate.id template)
                       = Some template).
  { unfold getTemplate, Listing.getAllTemplates.
    rewrite <- contents_storeAfter. unfold contents.
    rewrite <- (elem_of_list_to_map _ _ _ Hkeys), list_elem_of_fmap. split.
    - intros ([k v] & -> & Hin). rewrite <- (Hids _ Hin). exact Hin.
    - intros Hin. exists (PromptTemplate.id template, template). split; [reflexivity | exact Hin]. }
  split.
  - unfold Listing.getTemplatesByCategory.
    rewrite list_elem_of_filter, sameCategory_eq, Hentry. tauto.
  - unfold Listing.getAllTemplates.
    replace (map PromptTemplate.id (map snd (Listing.storeAfter added)))
      with (map fst (Listing.storeAfter added)); [exact Hkeys |].
    rewrite map_map. apply map_ext_in. intros entry Hin.
    apply Hids, list_elem_of_In, Hin.
Qed.

(** ** What stays inside the service *)

Lemma formatConversationHistory_sent (history history' : list AIMessage) :
  map sent history = map sent history' ->
  formatConversationHistory history = formatConversationHistory history'.
Proof.
  intros Hsent. unfold formatConversationHistory.
  destruct history as [| m history], history' as [| m' history'];
    [reflexivity | discriminate Hsent | discriminate Hsent |].
  set (formatSent := fun entry : Role.t * string =>
         (match fst entry with Role.user => "Student" | _ => "Tutor" end)
         +:+ ": " +:+ snd entry).
  assert (Hformat : forall messages : list AIMessage,
            map formatMessage (slice_last 5 messages)
            = map formatSent (slice_last 5 (map sent messages))).
  { intros messages. rewrite slice_last_fmap, map_map. reflexivity. }
  rewrite !Hformat, Hsent. reflexivity.
Qed.

Lemma variableValue_sent (message : string)
    (history history' : list AIMessage) (context context' : ConversationContext.t)
    (variable : string) :
  map sent history = map sent history' ->
  ConversationContext.language context = ConversationContext.language context' ->
  ConversationContext.level context = ConversationContext.level context' ->
  variableValue (conversationPromptContext message history context) variable
  = variableValue (conversationPromptContext message history' context') variable.
Proof.
  intros Hsent Hlanguage Hlevel.
  unfold variableValue, additional. simpl.
  rewrite Hlanguage, Hlevel, (formatConversationHistory_sent _ _ Hsent). reflexivity.
Qed.

Lemma renderTemplate_sent
    (regExpReplace : string -> ReplaceValue -> string -> Result string)
    (templates : gmap string PromptTemplate.t) (templateId message : string)
    (history history' : list AIMessage) (context context' : ConversationContext.t) :
  map sent history = map sent history' ->
  ConversationContext.language context = ConversationContext.language context' ->
  ConversationContext.level context = ConversationContext.level context' ->
  renderTemplate regExpReplace templates templateId
    (conversationPromptContext message history context)
  = renderTemplate regExpReplace templates templateId
      (conversationPromptContext message history' context').
Proof.
  intros Hsent Hlanguage Hlevel. unfold renderTemplate.
  destruct (getTemplate templates templateId) as [template |]; [| reflexivity].
  unfold render.
  generalize (PromptTemplate.template template) as text.
  induction (PromptTemplate.variables template) as [| v variables IH]; intros text;
    [reflexivity |].
  cbn [renderFrom]. unfold substitute.
  rewrite (variableValue_sent message history history' context context' v
             Hsent Hlanguage Hlevel).
  destruct (if isWord v then _ else _) as [next | e]; [apply IH | reflexivity].
Qed.

Section Inside.
Variable regExpReplace : string -> ReplaceValue -> string -> Result string.
Variable create : ChatCompletionRequest.t -> Result ChatCompletion.t.
Variable defaultModel : string.
Variable templates : gmap string PromptTemplate.t.
Variable defaultProvider : string.

Let adapter : list AIMessage -> option Options.t -> Result Response.t :=
  OpenAI.generateCompletion create defaultModel.

Lemma adapter_sent (messages messages' : list AIMessage) (options : option Options.t) :
  map sent messages = map sent messages' ->
  adapter messages options = adapter messages' options.
Proof.
  intros Hsent. unfold adapter, OpenAI.generateCompletion, OpenAI.completionRequest.
  change (map (fun msg : AIMessage => (role msg, content msg)) messages)
    with (map sent messages).
  change (map (fun msg : AIMessage => (role msg, content msg)) messages')
    with (map sent messages').
  rewrite Hsent. reflexivity.
Qed.

Lemma chat_sent (messages messages' : list AIMessage) (options : option Options.t)
    (calls : list AdapterCall) :
  map sent messages = map sent messages' ->
  fst (generateChatResponse adapter defaultProvider messages options calls)
  = fst (generateChatResponse adapter defaultProvider messages' options calls).
Proof.
  intros Hsent.
  destruct (String.eqb_spec (selectProvider defaultProvider options) AIProvider.OPENAI)
    as [Hp | Hp].
  - rewrite !chat_supported by exact Hp. simpl.
    rewrite (adapter_sent _ _ _ Hsent). reflexivity.
  - rewrite !chat_unsupported by exact Hp. reflexivity.
Qed.

Lemma conversation_sent (now now' : nat -> Z) (earlier : list AIMessageDto.t)
    (n : nat) (prompt message : string) :
  map sent (systemMessage prompt
              :: slice_last n (AIProvidersController.stamped now earlier)
              ++ [userMessage message])
  = map sent (systemMessage prompt
                :: slice_last n (AIProvidersController.stamped now' earlier)
                ++ [userMessage message]).
Proof.
  simpl. rewrite !map_app, <- !slice_last_fmap.
  change (map sent (AIProvidersController.stamped now earlier))
    with (map (fun msg : AIMessage => (role msg, content msg))
            (AIProvidersController.stamped now earlier)).
  change (map sent (AIProvidersController.stamped now' earlier))
    with (map (fun msg : AIMessage => (role msg, content msg))
            (AIProvidersController.stamped now' earlier)).
  rewrite !stamped_sentAs. reflexivity.
Qed.

(** X25. Neither the time stamps that the controller puts on the
    messages nor the user id and the conversation id of the query reach
    the completion call: the outcome of the tutor and of the
    conversation-partner endpoint is the same for every clock and for
    every pair of ids. *)
Theorem stamps_and_ids_stay_inside
    (request : ChatResponseRequestDto.t) (language level : option string)
    (now now' : nat -> Z) (userId userId' conversationId conversationId' : option string)
    (calls : list AdapterCall) :
  fst (AIProvidersController.generateTutorResponse regExpReplace adapter templates
         defaultProvider now request language level userId conversationId calls)
  = fst (AIProvidersController.generateTutorResponse regExpReplace adapter templates
           defaultProvider now' request language level userId' conversationId' calls)
  /\ fst (AIProvidersController.generateConversationPartnerResponse regExpReplace adapter
            templates defaultProvider now request language level userId conversationId
            calls)
     = fst (AIProvidersController.generateConversationPartnerResponse regExpReplace
              adapter templates defaultProvider now' request language level userId'
              conversationId' calls).
Proof.
  unfold AIProvidersController.generateTutorResponse,
    AIProvidersController.generateConversationPartnerResponse,
    AIProvidersController.earlierMessages.
  set (earlier := take _ _).
  assert (Hearlier : map sent (AIProvidersController.stamped now earlier)
                     = map sent (AIProvidersController.stamped now' earlier)).
  { change sent with (fun msg : AIMessage => (role msg, content msg)).
    rewrite !stamped_sentAs. reflexivity. }
  set (message := AIProvidersController.lastContent request).
  split.
  - pose proof (renderTemplate_sent regExpReplace templates "conversation_tutor" message
                  _ _
                  (AIProvidersController.queryContext language level userId conversationId)
                  (AIProvidersController.queryContext language level userId' conversationId')
                  Hearlier eq_refl eq_refl) as Hsame.
    destruct (renderTemplate regExpReplace templates "conversation_tutor"
                (conversationPromptContext message
                   (AIProvidersController.stamped now earlier) _))
      as [prompt | error] eqn:Hr.
    + rewrite (tutor_rendered _ _ _ _ prompt _ _ _ _ _ Hr).
      rewrite (tutor_rendered _ _ _ _ prompt _ _ _ _ _ (eq_sym Hsame)).
      apply chat_sent, conversation_sent.
    + rewrite (tutor_thrown _ _ _ _ error _ _ _ _ _ Hr).
      rewrite (tutor_thrown _ _ _ _ error _ _ _ _ _ (eq_sym Hsame)).
      reflexivity.
  - pose proof (renderTemplate_sent regExpReplace templates "conversation_friend" message
                  _ _
                  (AIProvidersController.queryContext language level userId conversationId)
                  (AIProvidersController.queryContext language level userId' conversationId')
                  Hearlier eq_refl eq_refl) as Hsame.
    destruct (renderTemplate regExpReplace templates "conversation_friend"
                (conversationPromptContext message
                   (AIProvidersController.stamped now earlier) _))
      as [prompt | error] eqn:Hr.
    + rewrite (partner_rendered _ _ _ _ prompt _ _ _ _ _ Hr).
      rewrite (partner_rendered _ _ _ _ prompt _ _ _ _ _ (eq_sym Hsame)).
      apply chat_sent, conversation_sent.
    + rewrite (partner_thrown _ _ _ _ error _ _ _ _ _ Hr).
      rewrite (partner_thrown _ _ _ _ error _ _ _ _ _ (eq_sym Hsame)).
      reflexivity.
Qed.
End Inside.

(** ** The prompts of the starter and of the analysis endpoint *)

Lemma orElse_default (o : option string) (d d' : string) :
  d <> EmptyString -> orElse (Some (orElse o d)) d' = orElse o d.
Proof.
  intros Hd. destruct o as [[| c s] |], d as [| e d]; try reflexivity; contradiction.
Qed.

Lemma plainOption_inert (o : option string) (d : string) :
  plainOption o = true -> plainText d = true -> inert (orElse o d) = true.
Proof. intros Ho Hd. apply plainText_inert, plainText_orElse; assumption. Qed.

Lemma valueOr_text (text d : string) :
  text <> EmptyString -> valueOr (Some (Text text)) d = Text text.
Proof. intros H. destruct text; [contradiction | reflexivity]. Qed.

Lemma orElse_not_empty (o : option string) (d : string) :
  d <> EmptyString -> orElse o d <> EmptyString.
Proof. intros Hd. destruct o as [[| c s] |]; simpl; [exact Hd | discriminate | exact Hd]. Qed.

Lemma starter_values (language level topics : option string) :
  let context :=
    starterPromptContext {| StarterContext.language := language;
                            StarterContext.level := level;
                            StarterContext.topics := topics |} in
  variableValue context "language" = Text (orElse language "English")
  /\ variableValue context "level" = Text (orElse level "intermediate")
  /\ variableValue context "topics"
     = Text (orElse topics "general conversation, daily life, hobbies, travel").
Proof.
  intros context. split; [| split].
  - change (variableValue context "language")
      with (Text (orElse (Some (orElse language "English")) "English")).
    rewrite orElse_default by discriminate. reflexivity.
  - change (variableValue context "level")
      with (Text (orElse (Some (orElse level "intermediate")) "intermediate")).
    rewrite orElse_default by discriminate. reflexivity.
  - change (variableValue context "topics")
      with (valueOr
              (match (<["topics" := orElse topics
                                      "general conversation, daily life, hobbies, travel"]>
                        (∅ : gmap string string)) !! "topics" with
               | Some text => Some (Text text)
               | None => if inherited "topics" then Some (Inherited "topics") else None
               end)
              "general conversation").
    rewrite lookup_insert_eq. apply valueOr_text, orElse_not_empty. discriminate.
Qed.

(** X26. The starter endpoint, with openai as default provider and the
    store of the constructor, for a language, a level and topics without
    opening brace and dollar sign: the adapter receives one message of
    role [user] whose content is the starter template in which every
    placeholder is filled, with English, intermediate and the four
    default topics in place of an absent or empty value, and the
    temperature 0.8. *)
Theorem starters_endpoint_prompt
    (regExpReplace : string -> ReplaceValue -> string -> Result string)
    (openaiService : list AIMessage -> option Options.t -> Result Response.t)
    (language level topics : option string) (calls : list AdapterCall) :
  plainOption language = true ->
  plainOption level = true ->
  plainOption topics = true ->
  let prompt :=
    fill (starterValue language level topics) (segments conversation_starter_template) in
  snd (AIProvidersController.generateConversationStarters regExpReplace openaiService
         initializeDefaultTemplates AIProvider.OPENAI language level topics calls)
  = calls ++ [{| sentMessages :=
                   [{| role := Role.user; content := prompt; timestamp := None |}];
                 sentOptions :=
                   Some {| Options.temperature := Some 0.8%Q;
                           Options.maxTokens := None;
                           Options.model := None;
                           Options.conversationId := None;
                           Options.userId := None;
                           Options.provider := None |} |}]
  /\ lacks "{" prompt = true.
Proof.
  intros Hlanguage Hlevel Htopics prompt.
  unfold AIProvidersController.generateConversationStarters.
  set (context := {| StarterContext.language := language |}).
  assert (Hlookup : initializeDefaultTemplates !! "conversation_starter"
                    = Some conversation_starter) by (vm_compute; reflexivity).
  destruct (starter_values language level topics) as (Vlanguage & Vlevel & Vtopics).
  fold context in Vlanguage, Vlevel, Vtopics.
  assert (Hinert : inertVariables conversation_starter (starterPromptContext context)
                   = true).
  { unfold inertVariables.
    change (PromptTemplate.variables conversation_starter)
      with ["level"; "language"; "topics"].
    cbn [forallb].
    rewrite Vlanguage, Vlevel, Vtopics. cbn [inertValue].
    rewrite !plainOption_inert by (assumption || reflexivity). reflexivity. }
  destruct (render_complete regExpReplace conversation_starter
              (starterPromptContext context))
    as [Hrender Hlacks];
    [vm_compute; reflexivity | vm_compute; reflexivity | exact Hinert |].
  change (PromptTemplate.template conversation_starter)
    with conversation_starter_template in Hrender, Hlacks.
  assert (Hsame : fill (variableText (starterPromptContext context))
                    (segments conversation_starter_template) = prompt).
  { apply fill_ext. intros w Hw. apply extractVariables_elem in Hw.
    assert (Hnames : extractVariablesFromTemplate conversation_starter_template
                     = ["level"; "language"; "topics"]) by (vm_compute; reflexivity).
    rewrite Hnames in Hw.
    rewrite !elem_of_cons, elem_of_nil in Hw.
    destruct Hw as [-> | [-> | [-> | []]]]; apply variableText_value;
      [exact Vlevel | exact Vlanguage | exact Vtopics]. }
  rewrite Hsame in Hrender, Hlacks.
  split; [| exact Hlacks].
  rewrite (starters_rendered _ _ _ _ prompt)
    by (rewrite (renderTemplate_registered _ _ _ _ _ Hlookup); exact Hrender).
  rewrite chat_supported by reflexivity. reflexivity.
Qed.

Lemma analysis_values (language level : option string) (text : string) :
  let context :=
    analysisPromptContext text {| AnalysisContext.language := language;
                                  AnalysisContext.level := level |} in
  variableValue context "language" = Text (orElse language "English")
  /\ variableValue context "level" = Text (orElse level "intermediate")
  /\ variableValue context "text" = Text text.
Proof.
  intros context. split; [| split].
  - change (variableValue context "language")
      with (Text (orElse (Some (orElse language "English")) "English")).
    rewrite orElse_default by discriminate. reflexivity.
  - change (variableValue context "level")
      with (Text (orElse (Some (orElse level "intermediate")) "intermediate")).
    rewrite orElse_default by discriminate. reflexivity.
  - change (variableValue context "text") with (Text (orElse (Some text) EmptyString)).
    rewrite orElse_empty. reflexivity.
Qed.

(** X27. The analysis endpoint, with openai as default provider and the
    store of the constructor, for a text, a language and a level without
    opening brace and dollar sign: the adapter receives one message of
    role [user] whose content is the template of the analysis type in
    which every placeholder is filled, the text standing as it was given,
    with the model of the request and the temperature 0.3. *)
Theorem analysis_endpoint_prompt
    (regExpReplace : string -> ReplaceValue -> string -> Result string)
    (openaiService : list AIMessage -> option Options.t -> Result Response.t)
    (request : TextAnalysisRequestDto.t) (language level : option string)
    (calls : list AdapterCall) :
  plainText (TextAnalysisRequestDto.text request) = true ->
  plainOption language = true ->
  plainOption level = true ->
  let prompt :=
    fill (analysisValue language level (TextAnalysisRequestDto.text request))
      (segments
         (PromptTemplate.template
            (analysisTemplate (TextAnalysisRequestDto.analysisType request)))) in
  snd (AIProvidersController.analyzeText regExpReplace openaiService
         initializeDefaultTemplates AIProvider.OPENAI request language level calls)
  = calls ++ [{| sentMessages :=
                   [{| role := Role.user; content := prompt; timestamp := None |}];
                 sentOptions :=
                   Some {| Options.temperature := Some 0.3%Q;
                           Options.maxTokens := None;
                           Options.model := TextAnalysisRequestDto.model request;
                           Options.conversationId := None;
                           Options.userId := None;
                           Options.provider := None |} |}]
  /\ lacks "{" prompt = true.
Proof.
  intros Htext Hlanguage Hlevel prompt.
  unfold AIProvidersController.analyzeText.
  set (text := TextAnalysisRequestDto.text request) in *.
  set (context := {| AnalysisContext.language := language |}).
  set (template := analysisTemplate (TextAnalysisRequestDto.analysisType request)) in *.
  assert (Hlookup : initializeDefaultTemplates
                      !! analysisTemplateId (TextAnalysisRequestDto.analysisType request)
                    = Some template).
  { unfold template. destruct (TextAnalysisRequestDto.analysisType request);
      vm_compute; reflexivity. }
  destruct (analysis_values language level text) as (Vlanguage & Vlevel & Vtext).
  fold context in Vlanguage, Vlevel, Vtext.
  assert (Hvariables : PromptTemplate.variables template = ["language"; "text"; "level"]).
  { unfold template. destruct (TextAnalysisRequestDto.analysisType request); reflexivity. }
  assert (Hinert : inertVariables template (analysisPromptContext text context) = true).
  { unfold inertVariables. rewrite Hvariables. cbn [forallb].
    rewrite Vlanguage, Vlevel, Vtext. cbn [inertValue].
    rewrite !plainOption_inert by (assumption || reflexivity).
    rewrite (plainText_inert _ Htext). reflexivity. }
  assert (Hvalid : validateTemplate template = []
                   /\ existsb strayBrace (segments (PromptTemplate.template template))
                      = false
                   /\ extractVariablesFromTemplate (PromptTemplate.template template)
                      = ["language"; "text"; "level"]).
  { unfold template. destruct (TextAnalysisRequestDto.analysisType request);
      repeat split; vm_compute; reflexivity. }
  destruct Hvalid as (Hok & Hstray & Hnames).
  destruct (render_complete regExpReplace template (analysisPromptContext text context)
              Hok Hstray Hinert)
    as [Hrender Hlacks].
  assert (Hsame : fill (variableText (analysisPromptContext text context))
                    (segments (PromptTemplate.template template)) = prompt).
  { apply fill_ext. intros w Hw. apply extractVariables_elem in Hw. rewrite Hnames in Hw.
    rewrite !elem_of_cons, elem_of_nil in Hw.
    destruct Hw as [-> | [-> | [-> | []]]]; apply variableText_value;
      [exact Vlanguage | exact Vtext | exact Vlevel]. }
  rewrite Hsame in Hrender, Hlacks.
  split; [| exact Hlacks].
  rewrite (analyze_supported _ _ _ _ prompt)
    by (first [reflexivity
              | rewrite (renderTemplate_registered _ _ _ _ _ Hlookup); exact Hrender]).
  reflexivity.
Qed.

(** ** Instances

    Each theorem above that has hypotheses, applied to a concrete
    input. *)

Lemma validateTemplate_undeclared_witness :
  "name" <> EmptyString
  /\ isWord "name" = true
  /\ includes (PromptTemplate.template greeting) (placeholder "name") = true
  /\ declares greeting "name" = false
  /\ exists names : list string,
       last (validateTemplate greeting)
         = Some ("Undeclared variables found: " +:+ join ", " names)
       /\ NoDup names
       /\ forall w : string,
            w ∈ names
            <-> w <> EmptyString /\ isWord w = true
                /\ includes (PromptTemplate.template greeting) (placeholder w) = true
                /\ declares greeting w = false.
Proof.
  split; [discriminate |].
  split; [reflexivity |].
  split; [vm_compute; reflexivity |].
  split; [vm_compute; reflexivity |].
  apply (validateTemplate_undeclared greeting "name");
    [discriminate | reflexivity | vm_compute; reflexivity | vm_compute; reflexivity].
Defined.

Lemma render_fills_declared_witness :
  existsb strayBrace (segments (PromptTemplate.template greeting)) = false
  /\ inertVariables greeting emptyContext = true
  /\ render rejecting greeting emptyContext
     = Returned
         (fill (fun name : string =>
                  if declares greeting name then variableText emptyContext name
                  else placeholder name)
            (segments (PromptTemplate.template greeting)))
  /\ render rejecting greeting emptyContext
     = Returned "Dear {{name}}, practise English.".
Proof.
  split; [vm_compute; reflexivity |].
  split; [vm_compute; reflexivity |].
  split; [| vm_compute; reflexivity].
  apply (render_fills_declared rejecting greeting emptyContext); vm_compute; reflexivity.
Defined.

Lemma validated_template_renders_completely_witness :
  validateTemplate conversation_starter = []
  /\ existsb strayBrace (segments (PromptTemplate.template conversation_starter)) = false
  /\ inertVariables conversation_starter emptyContext = true
  /\ render rejecting conversation_starter emptyContext
     = Returned
         (fill (variableText emptyContext)
            (segments (PromptTemplate.template conversation_starter)))
  /\ lacks "{"
       (fill (variableText emptyContext)
          (segments (PromptTemplate.template conversation_starter))) = true.
Proof.
  split; [vm_compute; reflexivity |].
  split; [vm_compute; reflexivity |].
  split; [vm_compute; reflexivity |].
  apply (validated_template_renders_completely rejecting conversation_starter
           emptyContext);
    vm_compute; reflexivity.
Defined.

Lemma default_templates_render_completely_witness :
  conversation_tutor ∈ defaultTemplates
  /\ forallb (fun variable : string =>
                inertValue (variableValue (tutoring "Hi" "How are you?") variable))
       (PromptTemplate.variables conversation_tutor) = true
  /\ exists prompt : string,
       renderTemplate rejecting initializeDefaultTemplates
         (PromptTemplate.id conversation_tutor) (tutoring "Hi" "How are you?")
         = Returned prompt
       /\ prompt = fill (variableText (tutoring "Hi" "How are you?"))
                     (segments (PromptTemplate.template conversation_tutor))
       /\ lacks "{" prompt = true.
Proof.
  split; [apply list_elem_of_here |].
  split; [vm_compute; reflexivity |].
  apply (default_templates_render_completely rejecting conversation_tutor
           (tutoring "Hi" "How are you?"));
    [apply list_elem_of_here | vm_compute; reflexivity].
Defined.

Lemma conversation_prompts_are_filled_witness :
  let value := conversationValue "Hello" sevenMessages noConversationContext in
  plainText "Hello" = true
  /\ forallb (fun earlier => plainText (content earlier)) sevenMessages = true
  /\ plainOption (ConversationContext.language noConversationContext) = true
  /\ plainOption (ConversationContext.level noConversationContext) = true
  /\ selectProvider AIProvider.OPENAI None = AIProvider.OPENAI
  /\ snd (generateTutorResponse rejecting answering initializeDefaultTemplates
            AIProvider.OPENAI "Hello" sevenMessages noConversationContext None [])
     = [{| sentMessages :=
             {| role := Role.system;
                content := fill value (segments conversation_tutor_template);
                timestamp := None |}
               :: sevenMessages
               ++ [{| role := Role.user; content := "Hello"; timestamp := None |}];
           sentOptions := None |}].
Proof.
  intros value.
  split; [reflexivity |].
  split; [reflexivity |].
  split; [reflexivity |].
  split; [reflexivity |].
  split; [reflexivity |].
  refine (proj1 (proj2 (proj2
            (conversation_prompts_are_filled rejecting answering AIProvider.OPENAI "Hello"
               sevenMessages noConversationContext None [] _ _ _ _ _))));
    reflexivity.
Defined.

Lemma render_without_occurrence_witness :
  forallb (fun variable : string =>
             isWord variable
             && negb (includes (PromptTemplate.template notice)
                        (matchText (newRegExp variable))))
    (PromptTemplate.variables notice) = true
  /\ render rejecting notice languageTopic = Returned (PromptTemplate.template notice).
Proof.
  split; [reflexivity |].
  apply (render_without_occurrence rejecting notice languageTopic). reflexivity.
Defined.

Lemma builtin_ids_stay_registered_witness :
  conversation_starter ∈ defaultTemplates
  /\ exists registered : PromptTemplate.t,
       getTemplate (storeAfter [greeting; notice]) (PromptTemplate.id conversation_starter)
         = Some registered
       /\ renderTemplate rejecting (storeAfter [greeting; notice])
            (PromptTemplate.id conversation_starter) emptyContext
          = render rejecting registered emptyContext.
Proof.
  split; [set_solver |].
  apply (builtin_ids_stay_registered rejecting [greeting; notice] conversation_starter
           emptyContext).
  set_solver.
Defined.

Lemma conversation_endpoints_request_witness :
  let promptContext :=
    conversationPromptContext (AIMessageDto.content finalOne)
      (AIProvidersController.stamped midnight earlierTwo)
      (AIProvidersController.queryContext None None None None) in
  let tutor := returned (render rejecting conversation_tutor promptContext) in
  let friend := returned (render rejecting conversation_friend promptContext) in
  ChatResponseRequestDto.messages (requestOf (earlierTwo ++ [finalOne]))
    = earlierTwo ++ [finalOne]
  /\ renderTemplate rejecting initializeDefaultTemplates "conversation_tutor" promptContext
     = Returned tutor
  /\ renderTemplate rejecting initializeDefaultTemplates "conversation_friend"
       promptContext
     = Returned friend
  /\ fst (AIProvidersController.generateTutorResponse rejecting
            (OpenAI.generateCompletion completing "gpt-4o-mini")
            initializeDefaultTemplates AIProvider.OPENAI midnight
            (requestOf (earlierTwo ++ [finalOne])) None None None None [])
     = Returned sampleResponse.
Proof.
  intros promptContext tutor friend.
  split; [reflexivity |].
  split; [vm_compute; reflexivity |].
  split; [vm_compute; reflexivity |].
  refine (eq_trans
            (proj1 (conversation_endpoints_request rejecting completing "gpt-4o-mini"
                      initializeDefaultTemplates midnight tutor friend
                      (requestOf (earlierTwo ++ [finalOne])) earlierTwo finalOne
                      None None None None [] _ _ _)) _);
    vm_compute; reflexivity.
Defined.

Lemma conversation_endpoints_empty_request_witness :
  let promptContext :=
    conversationPromptContext EmptyString []
      (AIProvidersController.queryContext None None None None) in
  let tutor := returned (render rejecting conversation_tutor promptContext) in
  let friend := returned (render rejecting conversation_friend promptContext) in
  ChatResponseRequestDto.messages (requestOf []) = []
  /\ renderTemplate rejecting initializeDefaultTemplates "conversation_tutor" promptContext
     = Returned tutor
  /\ renderTemplate rejecting initializeDefaultTemplates "conversation_friend"
       promptContext
     = Returned friend
  /\ fst (AIProvidersController.generateConversationPartnerResponse rejecting
            (OpenAI.generateCompletion completing "gpt-4o-mini")
            initializeDefaultTemplates AIProvider.OPENAI midnight
            (requestOf []) None None None None [])
     = Returned sampleResponse.
Proof.
  intros promptContext tutor friend.
  split; [reflexivity |].
  split; [vm_compute; reflexivity |].
  split; [vm_compute; reflexivity |].
  refine (eq_trans
            (proj2 (conversation_endpoints_empty_request rejecting completing "gpt-4o-mini"
                      initializeDefaultTemplates midnight tutor friend
                      (requestOf []) None None None None [] _ _ _)) _);
    vm_compute; reflexivity.
Defined.

Lemma analysis_endpoint_request_witness :
  let prompt :=
    returned (render rejecting grammar_correction
                (analysisPromptContext (TextAnalysisRequestDto.text grammarRequest)
                   {| AnalysisContext.language := None;
                      AnalysisContext.level := None |})) in
  renderTemplate rejecting initializeDefaultTemplates
    (analysisTemplateId (TextAnalysisRequestDto.analysisType grammarRequest))
    (analysisPromptContext (TextAnalysisRequestDto.text grammarRequest)
       {| AnalysisContext.language := None; AnalysisContext.level := None |})
    = Returned prompt
  /\ fst (AIProvidersController.analyzeText rejecting
            (OpenAI.generateCompletion completing "gpt-4o-mini")
            initializeDefaultTemplates AIProvider.OPENAI grammarRequest None None [])
     = Returned sampleResponse.
Proof.
  intros prompt.
  split; [vm_compute; reflexivity |].
  refine (eq_trans
            (analysis_endpoint_request rejecting completing "gpt-4o-mini"
               initializeDefaultTemplates prompt grammarRequest
               None None [] _) _);
    vm_compute; reflexivity.
Defined.


Lemma starters_endpoint_prompt_witness :
  plainOption (Some "French") = true
  /\ plainOption None = true
  /\ plainOption (Some "food") = true
  /\ snd (AIProvidersController.generateConversationStarters rejecting answering
            initializeDefaultTemplates AIProvider.OPENAI (Some "French") None
            (Some "food") [])
     = [{| sentMessages :=
             [{| role := Role.user;
                 content :=
                   fill (starterValue (Some "French") None (Some "food"))
                     (segments conversation_starter_template);
                 timestamp := None |}];
           sentOptions := Some (withTemperature None 0.8%Q) |}]
  /\ includes
       (fill (starterValue (Some "French") None (Some "food"))
          (segments conversation_starter_template))
       "Topic interests: food" = true.
Proof.
  split; [reflexivity |].
  split; [reflexivity |].
  split; [reflexivity |].
  split; [| vm_compute; reflexivity].
  apply (starters_endpoint_prompt rejecting answering (Some "French") None (Some "food") []);
    reflexivity.
Defined.

Lemma analysis_endpoint_prompt_witness :
  plainText (TextAnalysisRequestDto.text grammarRequest) = true
  /\ plainOption (Some "English") = true
  /\ plainOption None = true
  /\ snd (AIProvidersController.analyzeText rejecting answering initializeDefaultTemplates
            AIProvider.OPENAI grammarRequest (Some "English") None [])
     = [{| sentMessages :=
             [{| role := Role.user;
                 content :=
                   fill (analysisValue (Some "English") None
                           (TextAnalysisRequestDto.text grammarRequest))
                     (segments
                        (PromptTemplate.template
                           (analysisTemplate
                              (TextAnalysisRequestDto.analysisType grammarRequest))));
                 timestamp := None |}];
           sentOptions :=
             Some {| Options.temperature := Some 0.3%Q;
                     Options.maxTokens := None;
                     Options.model := TextAnalysisRequestDto.model grammarRequest;
                     Options.conversationId := None;
                     Options.userId := None;
                     Options.provider := None |} |}].
Proof.
  split; [reflexivity |].
  split; [reflexivity |].
  split; [reflexivity |].
  apply (analysis_endpoint_prompt rejecting answering grammarRequest (Some "English")
           None []);
    reflexivity.
Defined.
